(** * WAHA command-line scripts: a shallow embedding

    The repository is a set of Python scripts that call a WhatsApp HTTP
    gateway.  Every script imports [waha_client], which loads an env file,
    checks the API key and offers [client], [pp], [die] and [check]; the
    script then parses its command line, sends one request and prints the
    answer.

    The Python [str] type is modelled by [string], one [ascii] per code
    point, so the embedding covers text whose code points are below 256.
    Process state (environment, the two output streams, the requests sent)
    is threaded through a small state-and-exception monad. *)

From Stdlib Require Import ZArith Ascii String List.
From stdpp Require Import base option list strings gmap pretty.

Local Open Scope string_scope.
Local Open Scope Z_scope.

(** ** Python built-ins on [str] *)

Module Py.

Definition code (c : ascii) : N := N_of_ascii c.

(** [str.isspace] on one character, as [str.strip] uses it. *)
Definition is_space (c : ascii) : bool :=
  let n := code c in
  (((9 <=? n) && (n <=? 13)) || ((28 <=? n) && (n <=? 32))
   || (n =? 133) || (n =? 160))%N.

(** The line boundaries of [str.splitlines]. *)
Definition is_linebreak (c : ascii) : bool :=
  let n := code c in
  (((10 <=? n) && (n <=? 13)) || ((28 <=? n) && (n <=? 30)) || (n =? 133))%N.

Definition is_empty (s : string) : bool :=
  match s with EmptyString => true | String _ _ => false end.

Fixpoint lstrip (s : string) : string :=
  match s with
  | EmptyString => EmptyString
  | String c s' => if is_space c then lstrip s' else s
  end.

Fixpoint rstrip (s : string) : string :=
  match s with
  | EmptyString => EmptyString
  | String c s' =>
      let r := rstrip s' in
      if is_empty r && is_space c then EmptyString else String c r
  end.

Definition strip (s : string) : string := rstrip (lstrip s).

(** [s.splitlines()]: a carriage return followed by a line feed is one
    boundary, and a final boundary opens no further line. *)
Fixpoint splitlines (s : string) : list string :=
  match s with
  | EmptyString => []
  | String c s' =>
      if is_linebreak c then
        match s' with
        | String c' s'' =>
            if ((code c =? 13) && (code c' =? 10))%N
            then EmptyString :: splitlines s''
            else EmptyString :: splitlines s'
        | EmptyString => [EmptyString]
        end
      else
        match splitlines s' with
        | [] => [String c EmptyString]
        | l :: ls => String c l :: ls
        end
  end.

(** [s.startswith(c)] and [c in s] for a one-character [c]. *)
Definition startswith (c : ascii) (s : string) : bool :=
  match s with
  | String c' _ => Ascii.eqb c' c
  | EmptyString => false
  end.

Fixpoint contains (c : ascii) (s : string) : bool :=
  match s with
  | EmptyString => false
  | String c' s' => Ascii.eqb c' c || contains c s'
  end.

(** [s.partition(c)]: the text before the first [c], the separator found
    (empty when there is none) and the text after it. *)
Fixpoint partition (c : ascii) (s : string) : string * string * string :=
  match s with
  | EmptyString => (EmptyString, EmptyString, EmptyString)
  | String c' s' =>
      if Ascii.eqb c' c then (EmptyString, String c EmptyString, s')
      else let '(before, sep, after) := partition c s' in
           (String c' before, sep, after)
  end.

(** [s[:n]]. *)
Fixpoint prefix (n : nat) (s : string) : string :=
  match n, s with
  | S n', String c s' => String c (prefix n' s')
  | _, _ => EmptyString
  end.

(** [str(n)] for an [int]. *)
Definition str_int (n : Z) : string := pretty n.

(** [s.lower()] *)
Definition lower_char (c : ascii) : ascii :=
  let n := code c in
  if (((65 <=? n) && (n <=? 90))
      || ((192 <=? n) && (n <=? 222) && negb (n =? 215)))%N
  then ascii_of_N (n + 32) else c.

Fixpoint lower (s : string) : string :=
  match s with
  | EmptyString => EmptyString
  | String c s' => String (lower_char c) (lower s')
  end.

(** The newline character, as a string. *)
Definition nl : string := String (ascii_of_N 10) EmptyString.

End Py.


(** ** Python values

    The values the scripts handle: what [resp.json()] returns ([None],
    [bool], [int], [float], [str], [list], [dict]) and what [argparse]
    stores in a namespace.  A float is carried by its [repr]; a [dict] keeps
    its fields in insertion order. *)

#[warnings="-register-all"]
Inductive value : Type :=
| VNone
| VBool (b : bool)
| VInt (n : Z)
| VFloat (r : string)
| VStr (s : string)
| VList (items : list value)
| VDict (fields : list (string * value)).

(** Python truth value testing. *)
Definition truthy (v : value) : bool :=
  match v with
  | VNone => false
  | VBool b => b
  | VInt n => negb (n =? 0)
  | VFloat r => negb (String.eqb r "0.0" || String.eqb r "-0.0")
  | VStr s => negb (Py.is_empty s)
  | VList items => match items with [] => false | _ :: _ => true end
  | VDict fields => match fields with [] => false | _ :: _ => true end
  end.

(** [x or y] *)
Definition py_or (x y : value) : value := if truthy x then x else y.

(** Lookup in a [dict]: the first field with the key. *)
Fixpoint dict_lookup (k : string) (fields : list (string * value)) : option value :=
  match fields with
  | [] => None
  | (k', v) :: rest => if String.eqb k' k then Some v else dict_lookup k rest
  end.

(** [d[k] = v]: the value is replaced in place when the key is there, and
    the field is added at the end when it is not. *)
Fixpoint dict_set (k : string) (v : value) (fields : list (string * value))
  : list (string * value) :=
  match fields with
  | [] => [(k, v)]
  | (k', v') :: rest =>
      if String.eqb k' k then (k', v) :: rest else (k', v') :: dict_set k v rest
  end.

(** ** Exceptions, requests and responses *)

Inductive exn : Type :=
| AttributeError   (* [.get] on a value that is no dict *)
| SubscriptError   (* [v[:80]] on a value that cannot be sliced *)
| KeyError         (* a key that [ENDPOINTS] does not have *)
| TypeError        (* a loop over a value that is no list *)
| ValueError       (* a NUL character given to [os.environ] *)
| DecodeError      (* [resp.json()] on a body that is not JSON *)
| TransportError.  (* the request got no response *)

Inductive http_method : Type := GET | POST.

(** The settings [httpx.Client] is built with. *)
Record http_client : Type := {
  base_url : string;
  headers : list (string * string);
  timeout : Z;
  verify : bool
}.

Record request : Type := {
  req_client : http_client;
  req_method : http_method;
  req_url : string;
  req_params : list (string * value);
  req_json : option value
}.

(** A response: its status, its body as text, and what [resp.json()]
    gives for it ([None] when decoding raises). *)
Record response : Type := {
  status_code : Z;
  text : string;
  decoded : option value
}.

(** What the scripts take from outside the repository: [repr] of a value,
    [json.dumps(v, indent=2, ensure_ascii=False, default=str)], and the
    remote gateway ([None]: the transport raised). *)
Class Platform : Type := {
  py_repr : value -> string;
  json_dumps : value -> string;
  gateway : request -> option response
}.

(** [str(v)], which an f-string applies to each field. *)
Definition py_str `{Platform} (v : value) : string :=
  match v with
  | VStr s => s
  | _ => py_repr v
  end.

(** ** The process state and its monad *)

(** [env_file] is the text of the file at [_ENV_PATH] when there is one.
    One entry of [stdout] or [stderr] is the text of one [print] call, whose
    final newline is left implicit. *)
Record world : Type := {
  env_file : option string;
  environ : gmap string string;
  stdout : list string;
  stderr : list string;
  sent : list request
}.

Definition start (file : option string) (env : gmap string string) : world :=
  {| env_file := file; environ := env; stdout := []; stderr := []; sent := [] |}.

Inductive outcome (A : Type) : Type :=
| Return (a : A)
| SystemExit (status : Z)
| Raised (e : exn).
Arguments Return {A} a.
Arguments SystemExit {A} status.
Arguments Raised {A} e.

Definition M (A : Type) : Type := world -> outcome A * world.

Definition ret {A} (a : A) : M A := fun w => (Return a, w).

Definition bind {A B} (m : M A) (k : A -> M B) : M B :=
  fun w =>
    match m w with
    | (Return a, w') => k a w'
    | (SystemExit n, w') => (SystemExit n, w')
    | (Raised e, w') => (Raised e, w')
    end.

Notation "'let*' x ':=' m 'in' k" := (bind m (fun x => k))
  (at level 10, x name, m at level 100, k at level 200).
Notation "m ';;;' k" := (bind m (fun _ => k))
  (at level 100, k at level 200, right associativity).

Definition raise {A} (e : exn) : M A := fun w => (Raised e, w).

(** [sys.exit(n)] *)
Definition sys_exit {A} (n : Z) : M A := fun w => (SystemExit n, w).

(** The three ways the scripts change the world around them. *)
Definition write_stdout (lines : list string) (w : world) : world :=
  {| env_file := env_file w; environ := environ w;
     stdout := stdout w ++ lines; stderr := stderr w; sent := sent w |}.

Definition write_stderr (lines : list string) (w : world) : world :=
  {| env_file := env_file w; environ := environ w;
     stdout := stdout w; stderr := stderr w ++ lines; sent := sent w |}.

Definition record_request (r : request) (w : world) : world :=
  {| env_file := env_file w; environ := environ w;
     stdout := stdout w; stderr := stderr w; sent := sent w ++ [r] |}.

Definition with_environ (env : gmap string string) (w : world) : world :=
  {| env_file := env_file w; environ := env;
     stdout := stdout w; stderr := stderr w; sent := sent w |}.

(** [print(s)] and [print(s, file=sys.stderr)] *)
Definition print (s : string) : M unit :=
  fun w => (Return tt, write_stdout [s] w).

Definition eprint (s : string) : M unit :=
  fun w => (Return tt, write_stderr [s] w).

(** [key in os.environ], [os.environ.get(key, default)] and
    [os.environ[key] = v]; the last one refuses a NUL character. *)
Definition in_environ (key : string) : M bool :=
  fun w => (Return (bool_decide (is_Some (environ w !! key))), w).

Definition environ_get (key fallback : string) : M string :=
  fun w => (Return (default fallback (environ w !! key)), w).

Definition has_nul (s : string) : bool := Py.contains (ascii_of_N 0) s.

Definition environ_set (key v : string) : M unit :=
  fun w =>
    if has_nul key || has_nul v then (Raised ValueError, w)
    else (Return tt, with_environ (<[key := v]> (environ w)) w).

(** The client sends a request: it is recorded, and the gateway answers. *)
Definition send `{Platform} (r : request) : M response :=
  fun w =>
    match gateway r with
    | Some resp => (Return resp, record_request r w)
    | None => (Raised TransportError, record_request r w)
    end.

(** The gateway answers [r] with a status below 400 and a body that decodes
    to [v]. *)
Definition succeeds `{Platform} (r : request) (v : value) : Prop :=
  exists resp, gateway r = Some resp /\ status_code resp < 400
               /\ decoded resp = Some v.

(** [isinstance(v, dict)] *)
Definition is_dict (v : value) : bool :=
  match v with
  | VDict _ => true
  | _ => false
  end.

(** What a loop prints for one item: the line, or the lines, of an item
    that is a dict. *)
Definition item_line (line : list (string * value) -> string) (x : value) : string :=
  match x with
  | VDict fields => line fields
  | _ => EmptyString
  end.

Definition item_lines (lines : list (string * value) -> list string) (x : value)
  : list string :=
  match x with
  | VDict fields => lines fields
  | _ => []
  end.

(** The items a loop handles before the first one that fails. *)
Fixpoint leading {A} (ok : A -> bool) (xs : list A) : list A :=
  match xs with
  | [] => []
  | x :: rest => if ok x then x :: leading ok rest else []
  end.

(** [for x in xs: body(x)] *)
Fixpoint for_each {A} (xs : list A) (body : A -> M unit) : M unit :=
  match xs with
  | [] => ret tt
  | x :: rest => body x ;;; for_each rest body
  end.

(** The exit status of the process for an outcome of the script: an
    exception nobody handles ends it with status 1. *)
Definition exit_status {A} (o : outcome A) : Z :=
  match o with
  | Return _ => 0
  | SystemExit n => n
  | Raised _ => 1
  end.

(** ** The part of [argparse] the scripts use

    A parser is the data its [add_argument], [add_subparsers] and
    [add_parser] calls declare.  [parse_args] covers the command lines in
    which every token that starts with a dash and is longer than the dash
    alone is one of the declared option strings, written out in full; the
    other spellings [argparse] knows (abbreviations, [--opt=value],
    [-ovalue], negative numbers, [--], [-h]) give [Unmodelled]. *)

Module argparse.

Inductive action : Type := store | store_true.
Inductive arg_type : Type := as_str | as_int.
Inductive nargs : Type := one | one_or_more.

Record optional : Type := {
  flags : list string;
  opt_dest : string;
  opt_action : action;
  opt_type : arg_type;
  opt_default : value
}.

Record positional : Type := {
  pos_dest : string;
  pos_nargs : nargs;
  pos_choices : option (list string)
}.

(** [add_subparsers(dest=..., required=...)] with the positionals of each
    [add_parser(name)]. *)
Record subcommands : Type := {
  sub_dest : string;
  sub_required : bool;
  sub_parsers : list (string * list positional)
}.

Record parser : Type := {
  optionals : list optional;
  positionals : list positional;
  subparsers : option subcommands
}.

(** The attribute name [argparse] derives from the option strings: the
    first long one, else the first one, without its dashes and with the
    dashes inside turned into underscores. *)
Fixpoint drop_dashes (s : string) : string :=
  match s with
  | String "-" s' => drop_dashes s'
  | _ => s
  end.

Fixpoint underscores (s : string) : string :=
  match s with
  | EmptyString => EmptyString
  | String c s' => String (if Ascii.eqb c "-" then "_"%char else c) (underscores s')
  end.

Definition is_long (s : string) : bool :=
  match s with
  | String "-" (String "-" _) => true
  | _ => false
  end.

Definition dest_of (option_strings : list string) : string :=
  let chosen :=
    match filter (fun s => is_long s = true) option_strings with
    | long :: _ => long
    | [] => hd EmptyString option_strings
    end in
  underscores (drop_dashes chosen).

(** The shapes of [add_argument] in the scripts. *)
Definition opt (option_strings : list string) (dflt : value) : optional :=
  {| flags := option_strings; opt_dest := dest_of option_strings;
     opt_action := store; opt_type := as_str; opt_default := dflt |}.

Definition opt_int (option_strings : list string) (dflt : value) : optional :=
  {| flags := option_strings; opt_dest := dest_of option_strings;
     opt_action := store; opt_type := as_int; opt_default := dflt |}.

Definition opt_flag (option_strings : list string) : optional :=
  {| flags := option_strings; opt_dest := dest_of option_strings;
     opt_action := store_true; opt_type := as_str; opt_default := VBool false |}.

Definition arg (name : string) : positional :=
  {| pos_dest := name; pos_nargs := one; pos_choices := None |}.

Definition arg_choice (name : string) (allowed : list string) : positional :=
  {| pos_dest := name; pos_nargs := one; pos_choices := Some allowed |}.

Definition arg_plus (name : string) : positional :=
  {| pos_dest := name; pos_nargs := one_or_more; pos_choices := None |}.

(** A token that [argparse] reads as an option string rather than as an
    argument: a dash followed by something. *)
Definition option_like (tok : string) : bool :=
  match tok with
  | String "-" (String _ _) => true
  | _ => false
  end.

Definition has_flag (tok : string) (o : optional) : bool :=
  existsb (String.eqb tok) (flags o).

Definition find_flag (tok : string) (p : list optional) : option optional :=
  List.find (has_flag tok) p.

(** [int(s)] for a string of decimal digits. *)
Definition digit (c : ascii) : option Z :=
  let n := Py.code c in
  if ((48 <=? n) && (n <=? 57))%N then Some (Z.of_N n - 48) else None.

Fixpoint digits (acc : Z) (s : string) : option Z :=
  match s with
  | EmptyString => Some acc
  | String c s' =>
      match digit c with
      | Some d => digits (10 * acc + d) s'
      | None => None
      end
  end.

Definition convert (t : arg_type) (s : string) : option value :=
  match t with
  | as_str => Some (VStr s)
  | as_int => if Py.is_empty s then None else VInt <$> digits 0 s
  end.

Definition allowed (p : positional) (tok : string) : bool :=
  match pos_choices p with
  | Some cs => existsb (String.eqb tok) cs
  | None => true
  end.

(** Every attribute starts at its default; where two actions share a
    name, the first one gives it. *)
Definition set_default (d : string) (v : value) (ns : gmap string value)
  : gmap string value :=
  match ns !! d with
  | Some _ => ns
  | None => <[d := v]> ns
  end.

Definition positional_defaults (ps : list positional) (ns : gmap string value)
  : gmap string value :=
  fold_left (fun ns p => set_default (pos_dest p) VNone ns) ps ns.

Definition defaults (p : parser) : gmap string value :=
  let ns := fold_left (fun ns o => set_default (opt_dest o) (opt_default o) ns)
                      (optionals p) ∅ in
  let ns := positional_defaults (positionals p) ns in
  match subparsers p with
  | Some sc => set_default (sub_dest sc) VNone ns
  | None => ns
  end.

(** The namespace of a subcommand starts with its own attributes at
    [None] and is copied over the one of the main parser. *)
Definition sub_defaults (ps : list positional) (ns : gmap string value)
  : gmap string value :=
  fold_left (fun ns p => <[pos_dest p := VNone]> ns) ps ns.

(** [append d tok ns]: one more item for a [nargs="+"] attribute. *)
Definition append (d tok : string) (ns : gmap string value) : gmap string value :=
  match ns !! d with
  | Some (VList items) => <[d := VList (items ++ [VStr tok])]> ns
  | _ => <[d := VList [VStr tok]]> ns
  end.

Record state : Type := {
  st_optionals : list optional;
  st_positionals : list positional;
  st_subparsers : option subcommands;
  st_open : option string;
  st_ns : gmap string value
}.

Inductive result : Type :=
| Parsed (ns : gmap string value)
| UsageError      (* the usage message on stderr, exit status 2 *)
| Unmodelled.

Fixpoint lookup_parser (name : string) (table : list (string * list positional))
  : option (list positional) :=
  match table with
  | [] => None
  | (n, ps) :: rest => if String.eqb n name then Some ps else lookup_parser name rest
  end.

Fixpoint run (st : state) (argv : list string) {struct argv} : result :=
  match argv with
  | [] =>
      match st_positionals st, st_subparsers st with
      | [], None => Parsed (st_ns st)
      | [], Some sc => if sub_required sc then UsageError else Parsed (st_ns st)
      | _ :: _, _ => UsageError
      end
  | tok :: rest =>
      if option_like tok then
        match find_flag tok (st_optionals st) with
        | None => UsageError
        | Some o =>
            match opt_action o with
            | store_true =>
                run {| st_optionals := st_optionals st;
                       st_positionals := st_positionals st;
                       st_subparsers := st_subparsers st;
                       st_open := None;
                       st_ns := <[opt_dest o := VBool true]> (st_ns st) |} rest
            | store =>
                match rest with
                | [] => UsageError
                | v :: rest' =>
                    if option_like v then UsageError else
                    match convert (opt_type o) v with
                    | None => Unmodelled
                    | Some x =>
                        run {| st_optionals := st_optionals st;
                               st_positionals := st_positionals st;
                               st_subparsers := st_subparsers st;
                               st_open := None;
                               st_ns := <[opt_dest o := x]> (st_ns st) |} rest'
                    end
                end
            end
        end
      else
        match st_open st with
        | Some d =>
            run {| st_optionals := st_optionals st;
                   st_positionals := st_positionals st;
                   st_subparsers := st_subparsers st;
                   st_open := Some d;
                   st_ns := append d tok (st_ns st) |} rest
        | None =>
            match st_positionals st with
            | p :: ps =>
                if negb (allowed p tok) then UsageError else
                match pos_nargs p, ps with
                | one, _ =>
                    run {| st_optionals := st_optionals st;
                           st_positionals := ps;
                           st_subparsers := st_subparsers st;
                           st_open := None;
                           st_ns := <[pos_dest p := VStr tok]> (st_ns st) |} rest
                | one_or_more, [] =>
                    run {| st_optionals := st_optionals st;
                           st_positionals := [];
                           st_subparsers := st_subparsers st;
                           st_open := Some (pos_dest p);
                           st_ns := <[pos_dest p := VList [VStr tok]]> (st_ns st) |} rest
                | one_or_more, _ :: _ => Unmodelled
                end
            | [] =>
                match st_subparsers st with
                | None => UsageError
                | Some sc =>
                    match lookup_parser tok (sub_parsers sc) with
                    | None => UsageError
                    | Some ps =>
                        run {| st_optionals := [];
                               st_positionals := ps;
                               st_subparsers := None;
                               st_open := None;
                               st_ns := sub_defaults ps
                                          (<[sub_dest sc := VStr tok]> (st_ns st)) |} rest
                    end
                end
            end
        end
  end.

Definition declared (p : parser) (tok : string) : bool :=
  negb (option_like tok) || existsb (has_flag tok) (optionals p).

(** [p.parse_args()] on [sys.argv[1:]]. *)
Definition parse_args (p : parser) (argv : list string) : result :=
  if forallb (declared p) argv then
    run {| st_optionals := optionals p;
           st_positionals := positionals p;
           st_subparsers := subparsers p;
           st_open := None;
           st_ns := defaults p |} argv
  else Unmodelled.

(** Who can write the attribute [d]: [reserved d names opts] says that
    the options of [opts] that write it have all their option strings
    among [names]; [untouched d st] says that no positional, no
    subcommand and no open list of the state writes it. *)
Definition reserved (d : string) (names : list string) (opts : list optional) : bool :=
  forallb (fun o => negb (String.eqb (opt_dest o) d)
                    || forallb (fun f => existsb (String.eqb f) names) (flags o))
          opts.

Definition other_dest (d : string) (p : positional) : bool :=
  negb (String.eqb (pos_dest p) d).

Definition untouched (d : string) (st : state) : bool :=
  forallb (other_dest d) (st_positionals st)
  && match st_open st with
     | Some d' => negb (String.eqb d' d)
     | None => true
     end
  && match st_subparsers st with
     | Some sc =>
         negb (String.eqb (sub_dest sc) d)
         && forallb (fun e => forallb (other_dest d) (snd e)) (sub_parsers sc)
     | None => true
     end.

Definition initial (p : parser) : state :=
  {| st_optionals := optionals p;
     st_positionals := positionals p;
     st_subparsers := subparsers p;
     st_open := None;
     st_ns := defaults p |}.

(** [args.name] *)
Definition attr (args : gmap string value) (name : string) : value :=
  default VNone (args !! name).

End argparse.

Notation "args .[ name ]" := (argparse.attr args name)
  (at level 1, left associativity, format "args .[ name ]").

(** [v == s] for a string literal [s]. *)
Definition is_str (v : value) (s : string) : bool :=
  match v with
  | VStr x => String.eqb x s
  | _ => false
  end.

(** [v.get(k, default)]: only a [dict] has the method. *)
Definition get (v : value) (k : string) (dflt : value) : M value :=
  match v with
  | VDict fields => ret (default dflt (dict_lookup k fields))
  | _ => raise AttributeError
  end.

(** [v[:n]]: a string and a list can be sliced, the other values the
    gateway can send cannot. *)
Definition slice (n : nat) (v : value) : M value :=
  match v with
  | VStr s => ret (VStr (Py.prefix n s))
  | VList items => ret (VList (take n items))
  | _ => raise SubscriptError
  end.

(** The last line of a listing, [f"\n({len(data)} noun)"]. *)
Definition count_line (n : nat) (noun : string) : string :=
  Py.nl +:+ "(" +:+ Py.str_int (Z.of_nat n) +:+ " " +:+ noun +:+ ")".

(** ** waha_client.py *)

Module waha_client.

(** One round of the loop of [_load_env]. *)
Definition load_line (line : string) : M unit :=
  let line := Py.strip line in
  if Py.is_empty line || Py.startswith "#" line || negb (Py.contains "=" line)
  then ret tt
  else
    let '(key, _, v) := Py.partition "=" line in
    let key := Py.strip key in
    let v := Py.strip v in
    let* present := in_environ key in
    if negb (Py.is_empty key) && negb present
    then environ_set key v
    else ret tt.

Definition _load_env : M unit :=
  fun w =>
    match env_file w with
    | None => ret tt w
    | Some content => for_each (Py.splitlines content) load_line w
    end.

(** The module globals. *)
Record config : Type := {
  BASE_URL : string;
  API_KEY : string
}.

Definition key_error : string :=
  "Error: WAHA_API_KEY not set. Check ~/documents/waha/.env".

(** The statements the module runs when it is imported. *)
Definition import : M config :=
  _load_env ;;;
  let* base := environ_get "WAHA_BASE_URL" "https://whatsapp.wyvern-vector.ts.net" in
  let* key := environ_get "WAHA_API_KEY" "" in
  (if Py.is_empty key
   then eprint key_error ;;;
        sys_exit 1
   else ret tt) ;;;
  ret {| BASE_URL := base; API_KEY := key |}.

(** What the loader is to do with one line, in the words of its
    contract: a blank line and a comment give nothing; the others are
    split at the first [=], and the trimmed key, when it is not empty,
    is bound to the trimmed value. *)
Definition binding (line : string) : option (string * string) :=
  let line := Py.strip line in
  if Py.is_empty line || Py.startswith "#" line then None
  else
    match Py.partition "=" line with
    | (key, String _ _, v) =>
        if Py.is_empty (Py.strip key) then None
        else Some (Py.strip key, Py.strip v)
    | (_, EmptyString, _) => None
    end.

(** The value the file gives a key: the one of the first line that binds
    it. *)
Fixpoint first_binding (key : string) (lines : list string) : option string :=
  match lines with
  | [] => None
  | line :: rest =>
      match binding line with
      | Some (k, v) => if String.eqb k key then Some v else first_binding key rest
      | None => first_binding key rest
      end
  end.

Definition file_value (key : string) (file : option string) : option string :=
  match file with
  | Some content => first_binding key (Py.splitlines content)
  | None => None
  end.

Section functions.
Context `{Platform} (cfg : config).

Definition client : http_client :=
  {| base_url := BASE_URL cfg;
     headers := [("X-Api-Key", API_KEY cfg)];
     timeout := 30;
     verify := false |}.

(** [c.get(url, params=params)] and [c.post(url, json=body)] *)
Definition get_request (c : http_client) (url : string)
           (params : list (string * value)) : request :=
  {| req_client := c; req_method := GET; req_url := url;
     req_params := params; req_json := None |}.

Definition post_request (c : http_client) (url : string)
           (body : option value) : request :=
  {| req_client := c; req_method := POST; req_url := url;
     req_params := []; req_json := body |}.

Definition http_get (c : http_client) (url : string)
           (params : list (string * value)) : M response :=
  send (get_request c url params).

Definition http_post (c : http_client) (url : string)
           (body : option value) : M response :=
  send (post_request c url body).

Definition pp (data : value) : M unit := print (json_dumps data).

Definition die (msg : string) : M unit :=
  eprint ("Error: " +:+ msg) ;;;
  sys_exit 1.

(** [resp.json()] *)
Definition resp_json (resp : response) : M value :=
  match decoded resp with
  | Some v => ret v
  | None => raise DecodeError
  end.

Definition check (resp : response) : M value :=
  (if 400 <=? status_code resp then
     let detail :=
       match decoded resp with
       | Some v => v
       | None => VStr (text resp)
       end in
     die ("HTTP " +:+ Py.str_int (status_code resp) +:+ ": " +:+ py_str detail)
   else ret tt) ;;;
  resp_json resp.

End functions.

End waha_client.

(** ** groups.py *)

Module groups.
Import argparse waha_client.

Definition parser : argparse.parser :=
  {| optionals := [opt ["-s"; "--session"] (VStr "default")];
     positionals := [];
     subparsers := Some
       {| sub_dest := "command"; sub_required := true;
          sub_parsers :=
            [("list", []);
             ("info", [arg "group_id"]);
             ("participants", [arg "group_id"]);
             ("create", [arg "name"; arg_plus "participants"])] |} |}.

Section main.
Context `{Platform} (cfg : config).

Definition print_group (g : value) : M unit :=
  let* id := get g "id" (VStr "?") in
  let* name := get g "name" (VStr "") in
  let* subject := get g "subject" name in
  let* size := get g "size" (VStr "?") in
  print ("  " +:+ py_str id +:+ "  " +:+ py_str subject
         +:+ " (" +:+ py_str size +:+ " members)").

(** The lines the two loops print for an item that is a dict. *)
Definition group_line (g : list (string * value)) : string :=
  "  " +:+ py_str (default (VStr "?") (dict_lookup "id" g)) +:+ "  "
  +:+ py_str (default (default (VStr "") (dict_lookup "name" g))
                      (dict_lookup "subject" g))
  +:+ " (" +:+ py_str (default (VStr "?") (dict_lookup "size" g)) +:+ " members)".

Definition participant_line (pt : list (string * value)) : string :=
  "  " +:+ py_str (default (VStr "?") (dict_lookup "id" pt)) +:+ "  "
  +:+ py_str (default (default (VStr "") (dict_lookup "isAdmin" pt))
                      (dict_lookup "role" pt)).

Definition print_participant (pt : value) : M unit :=
  let* id := get pt "id" (VStr "?") in
  let* is_admin := get pt "isAdmin" (VStr "") in
  let* role := get pt "role" is_admin in
  print ("  " +:+ py_str id +:+ "  " +:+ py_str role).

(** [[{"id": pid} for pid in args.participants]] *)
Definition participant_ids (v : value) : M value :=
  match v with
  | VList pids => ret (VList (map (fun pid => VDict [("id", pid)]) pids))
  | _ => raise TypeError
  end.

Definition main (args : gmap string value) : M unit :=
  let c := client cfg in
  if is_str args.["command"] "list" then
    let* resp := http_get c ("/api/" +:+ py_str args.["session"] +:+ "/groups") [] in
    let* data := check resp in
    match data with
    | VList items =>
        for_each items print_group ;;;
        print (count_line (length items) "groups")
    | _ => pp data
    end
  else if is_str args.["command"] "info" then
    let* resp := http_get c ("/api/" +:+ py_str args.["session"] +:+ "/groups/"
                             +:+ py_str args.["group_id"]) [] in
    let* data := check resp in
    pp data
  else if is_str args.["command"] "participants" then
    let* resp := http_get c ("/api/" +:+ py_str args.["session"] +:+ "/groups/"
                             +:+ py_str args.["group_id"] +:+ "/participants") [] in
    let* data := check resp in
    match data with
    | VList items =>
        for_each items print_participant ;;;
        print (count_line (length items) "participants")
    | _ => pp data
    end
  else if is_str args.["command"] "create" then
    let* ids := participant_ids args.["participants"] in
    let payload := VDict [("name", args.["name"]); ("participants", ids)] in
    let* resp := http_post c ("/api/" +:+ py_str args.["session"] +:+ "/groups")
                           (Some payload) in
    let* data := check resp in
    pp data
  else ret tt.

(** The requests of [list] and of [participants]. *)
Definition list_request (args : gmap string value) : request :=
  get_request (client cfg) ("/api/" +:+ py_str args.["session"] +:+ "/groups") [].

Definition participants_request (args : gmap string value) : request :=
  get_request (client cfg)
    ("/api/" +:+ py_str args.["session"] +:+ "/groups/"
     +:+ py_str args.["group_id"] +:+ "/participants") [].

End main.

(** The script: the import of [waha_client], then [main]. *)
Definition script `{Platform} (args : gmap string value) : M unit :=
  let* cfg := import in main cfg args.

End groups.

(** ** send_message.py *)

Module send_message.
Import argparse waha_client.

Definition parser : argparse.parser :=
  {| optionals := [opt ["-s"; "--session"] (VStr "default");
                   opt ["-r"; "--reply-to"] VNone];
     positionals := [arg "chat_id"; arg "text"];
     subparsers := None |}.

Definition payload (args : gmap string value) : list (string * value) :=
  let payload := [("chatId", args.["chat_id"]); ("text", args.["text"]);
                  ("session", args.["session"])] in
  if truthy args.["reply_to"]
  then dict_set "reply_to" args.["reply_to"] payload
  else payload.

Definition main `{Platform} (cfg : config) (args : gmap string value) : M unit :=
  let payload := payload args in
  let c := client cfg in
  let* resp := http_post c "/api/sendText" (Some (VDict payload)) in
  let* data := check resp in
  pp data.

Definition script `{Platform} (args : gmap string value) : M unit :=
  let* cfg := import in main cfg args.

End send_message.

(** ** send_media.py *)

Module send_media.
Import argparse waha_client.

Definition ENDPOINTS : list (string * string) :=
  [("image", "/api/sendImage");
   ("file", "/api/sendFile");
   ("video", "/api/sendVideo");
   ("voice", "/api/sendVoice")].

Definition parser : argparse.parser :=
  {| optionals := [opt ["-s"; "--session"] (VStr "default");
                   opt ["-c"; "--caption"] VNone;
                   opt ["-r"; "--reply-to"] VNone;
                   opt ["-f"; "--filename"] VNone;
                   opt ["-m"; "--mimetype"] VNone];
     positionals := [arg_choice "media_type" (map fst ENDPOINTS);
                     arg "chat_id"; arg "url"];
     subparsers := None |}.

Definition file_obj (args : gmap string value) : list (string * value) :=
  let file_obj := [("url", args.["url"])] in
  let file_obj :=
    if truthy args.["mimetype"]
    then dict_set "mimetype" args.["mimetype"] file_obj else file_obj in
  if truthy args.["filename"]
  then dict_set "filename" args.["filename"] file_obj else file_obj.

Definition payload (args : gmap string value) : list (string * value) :=
  let payload := [("chatId", args.["chat_id"]); ("file", VDict (file_obj args));
                  ("session", args.["session"])] in
  let payload :=
    if truthy args.["caption"]
    then dict_set "caption" args.["caption"] payload else payload in
  let payload :=
    if truthy args.["reply_to"]
    then dict_set "reply_to" args.["reply_to"] payload else payload in
  if is_str args.["media_type"] "video" || is_str args.["media_type"] "voice"
  then dict_set "convert" (VBool true) payload
  else payload.

(** [ENDPOINTS[key]] *)
Definition endpoint (key : value) : M string :=
  match key with
  | VStr k =>
      match List.find (fun e => String.eqb (fst e) k) ENDPOINTS with
      | Some e => ret (snd e)
      | None => raise KeyError
      end
  | _ => raise KeyError
  end.

Definition main `{Platform} (cfg : config) (args : gmap string value) : M unit :=
  let payload := payload args in
  let c := client cfg in
  let* url := endpoint args.["media_type"] in
  let* resp := http_post c url (Some (VDict payload)) in
  let* data := check resp in
  pp data.

Definition script `{Platform} (args : gmap string value) : M unit :=
  let* cfg := import in main cfg args.

End send_media.

(** ** contacts.py *)

Module contacts.
Import argparse waha_client.

Definition parser : argparse.parser :=
  {| optionals := [opt ["-s"; "--session"] (VStr "default")];
     positionals := [];
     subparsers := Some
       {| sub_dest := "command"; sub_required := true;
          sub_parsers :=
            [("list", []);
             ("info", [arg "contact_id"]);
             ("check", [arg "phone"]);
             ("block", [arg "contact_id"]);
             ("unblock", [arg "contact_id"])] |} |}.

Section main.
Context `{Platform} (cfg : config).

Definition print_contact (ct : value) : M unit :=
  let* id := get ct "id" (VStr "?") in
  let* pushname := get ct "pushname" (VStr "") in
  let* name := get ct "name" pushname in
  print ("  " +:+ py_str id +:+ "  " +:+ py_str name).

Definition contact_line (ct : list (string * value)) : string :=
  "  " +:+ py_str (default (VStr "?") (dict_lookup "id" ct)) +:+ "  "
  +:+ py_str (default (default (VStr "") (dict_lookup "pushname" ct))
                      (dict_lookup "name" ct)).

(** The sentence of [check]: [exists] is [numberExists or chatId]. *)
Definition exists_line (phone : value) (fields : list (string * value)) : string :=
  let exists_ := py_or (default VNone (dict_lookup "numberExists" fields))
                       (default VNone (dict_lookup "chatId" fields)) in
  let status := if truthy exists_ then "exists" else "NOT found" in
  Py.nl +:+ "  Number " +:+ py_str phone +:+ " " +:+ status +:+ " on WhatsApp".

Definition main (args : gmap string value) : M unit :=
  let c := client cfg in
  if is_str args.["command"] "list" then
    let* resp := http_get c "/api/contacts/all" [("session", args.["session"])] in
    let* data := check resp in
    match data with
    | VList items =>
        for_each items print_contact ;;;
        print (count_line (length items) "contacts")
    | _ => pp data
    end
  else if is_str args.["command"] "info" then
    let* resp := http_get c "/api/contacts"
                   [("session", args.["session"]);
                    ("contactId", args.["contact_id"])] in
    let* data := check resp in
    pp data
  else if is_str args.["command"] "check" then
    let* resp := http_get c "/api/contacts/check-exists"
                   [("session", args.["session"]); ("phone", args.["phone"])] in
    let* data := check resp in
    pp data ;;;
    match data with
    | VDict fields => print (exists_line args.["phone"] fields)
    | _ => ret tt
    end
  else if is_str args.["command"] "block" then
    let* resp := http_post c "/api/contacts/block"
                   (Some (VDict [("session", args.["session"]);
                                 ("contactId", args.["contact_id"])])) in
    let* data := check resp in
    pp data
  else if is_str args.["command"] "unblock" then
    let* resp := http_post c "/api/contacts/unblock"
                   (Some (VDict [("session", args.["session"]);
                                 ("contactId", args.["contact_id"])])) in
    let* data := check resp in
    pp data
  else ret tt.

(** The requests of [list] and of [check]. *)
Definition list_request (args : gmap string value) : request :=
  get_request (client cfg) "/api/contacts/all" [("session", args.["session"])].

Definition check_request (args : gmap string value) : request :=
  get_request (client cfg) "/api/contacts/check-exists"
    [("session", args.["session"]); ("phone", args.["phone"])].

End main.

Definition script `{Platform} (args : gmap string value) : M unit :=
  let* cfg := import in main cfg args.

End contacts.

(** ** list_chats.py *)

Module list_chats.
Import argparse waha_client.

Definition parser : argparse.parser :=
  {| optionals := [opt ["-s"; "--session"] (VStr "default");
                   opt_int ["-l"; "--limit"] (VInt 20);
                   opt_int ["--offset"] (VInt 0);
                   opt_flag ["--download-media"]];
     positionals := [];
     subparsers := Some
       {| sub_dest := "command"; sub_required := true;
          sub_parsers :=
            [("chats", []);
             ("overview", []);
             ("messages", [arg "chat_id"])] |} |}.

Section main.
Context `{Platform} (cfg : config).

Definition print_chat (chat : value) : M unit :=
  let* id := get chat "id" (VStr "?") in
  let* name := get chat "name" (VStr "") in
  print ("  " +:+ py_str id +:+ "  " +:+ py_str name).

Definition chat_line (chat : list (string * value)) : string :=
  "  " +:+ py_str (default (VStr "?") (dict_lookup "id" chat)) +:+ "  "
  +:+ py_str (default (VStr "") (dict_lookup "name" chat)).

Definition list_chats (session limit offset : value) : M unit :=
  let c := client cfg in
  let* resp := http_get c ("/api/" +:+ py_str session +:+ "/chats")
                 [("limit", limit); ("offset", offset);
                  ("sortBy", VStr "conversationTimestamp");
                  ("sortOrder", VStr "desc")] in
  let* data := check resp in
  match data with
  | VList items =>
      for_each items print_chat ;;;
      print (count_line (length items) "chats")
  | _ => pp data
  end.

Definition print_overview (chat : value) : M unit :=
  let* last_message := get chat "lastMessage" VNone in
  let last := py_or last_message (VDict []) in
  let* last_body := get last "body" VNone in
  let* body := slice 80 (py_or last_body (VStr "")) in
  let* id := get chat "id" (VStr "?") in
  let* name := get chat "name" (VStr "") in
  print ("  " +:+ py_str id +:+ "  " +:+ py_str name) ;;;
  if truthy body then print ("    -> " +:+ py_str body) else ret tt.

(** The preview [body] of a chat that is a dict, when computing it
    raises nothing: the last message is falsy or a dict, and its body
    is falsy, a string or a list. *)
Definition preview (chat : list (string * value)) : option value :=
  match py_or (default VNone (dict_lookup "lastMessage" chat)) (VDict []) with
  | VDict last =>
      match py_or (default VNone (dict_lookup "body" last)) (VStr "") with
      | VStr s => Some (VStr (Py.prefix 80 s))
      | VList items => Some (VList (take 80 items))
      | _ => None
      end
  | _ => None
  end.

Definition overview_lines (chat : value) : option (list string) :=
  match chat with
  | VDict fields =>
      match preview fields with
      | Some body =>
          Some (chat_line fields
                :: if truthy body then ["    -> " +:+ py_str body] else [])
      | None => None
      end
  | _ => None
  end.

Definition well_shaped (chat : value) : bool :=
  bool_decide (is_Some (overview_lines chat)).

Definition list_overview (session limit offset : value) : M unit :=
  let c := client cfg in
  let* resp := http_get c ("/api/" +:+ py_str session +:+ "/chats/overview")
                 [("limit", limit); ("offset", offset)] in
  let* data := check resp in
  match data with
  | VList items =>
      for_each items print_overview ;;;
      print (count_line (length items) "chats")
  | _ => pp data
  end.

Definition print_message (msg : value) : M unit :=
  let* from_me := get msg "fromMe" VNone in
  let* sender :=
    (if truthy from_me then ret (VStr "me") else get msg "from" (VStr "?")) in
  let* has_media := get msg "hasMedia" VNone in
  let media := if truthy has_media then " [media]" else "" in
  let* timestamp := get msg "timestamp" (VStr "") in
  let* body := get msg "body" (VStr "") in
  print ("  [" +:+ py_str timestamp +:+ "] " +:+ py_str sender +:+ ": "
         +:+ py_str body +:+ media) ;;;
  let* id := get msg "id" (VStr "") in
  print ("           id: " +:+ py_str id).

Definition message_lines (msg : list (string * value)) : list string :=
  let sender :=
    if truthy (default VNone (dict_lookup "fromMe" msg)) then VStr "me"
    else default (VStr "?") (dict_lookup "from" msg) in
  let media :=
    if truthy (default VNone (dict_lookup "hasMedia" msg)) then " [media]" else "" in
  ["  [" +:+ py_str (default (VStr "") (dict_lookup "timestamp" msg)) +:+ "] "
   +:+ py_str sender +:+ ": "
   +:+ py_str (default (VStr "") (dict_lookup "body" msg)) +:+ media;
   "           id: " +:+ py_str (default (VStr "") (dict_lookup "id" msg))].

Definition list_messages (session chat_id limit offset download_media : value)
  : M unit :=
  let c := client cfg in
  let* resp := http_get c ("/api/" +:+ py_str session +:+ "/chats/"
                           +:+ py_str chat_id +:+ "/messages")
                 [("limit", limit); ("offset", offset);
                  ("downloadMedia", VStr (Py.lower (py_str download_media)));
                  ("sortBy", VStr "timestamp");
                  ("sortOrder", VStr "desc")] in
  let* data := check resp in
  match data with
  | VList items =>
      for_each (rev items) print_message ;;;
      print (count_line (length items) "messages")
  | _ => pp data
  end.

Definition main (args : gmap string value) : M unit :=
  if is_str args.["command"] "chats" then
    list_chats args.["session"] args.["limit"] args.["offset"]
  else if is_str args.["command"] "overview" then
    list_overview args.["session"] args.["limit"] args.["offset"]
  else if is_str args.["command"] "messages" then
    list_messages args.["session"] args.["chat_id"] args.["limit"]
                  args.["offset"] args.["download_media"]
  else ret tt.

(** The requests of the three commands. *)
Definition chats_request (args : gmap string value) : request :=
  get_request (client cfg) ("/api/" +:+ py_str args.["session"] +:+ "/chats")
    [("limit", args.["limit"]); ("offset", args.["offset"]);
     ("sortBy", VStr "conversationTimestamp"); ("sortOrder", VStr "desc")].

Definition overview_request (args : gmap string value) : request :=
  get_request (client cfg)
    ("/api/" +:+ py_str args.["session"] +:+ "/chats/overview")
    [("limit", args.["limit"]); ("offset", args.["offset"])].

Definition messages_request (args : gmap string value) : request :=
  get_request (client cfg)
    ("/api/" +:+ py_str args.["session"] +:+ "/chats/"
     +:+ py_str args.["chat_id"] +:+ "/messages")
    [("limit", args.["limit"]); ("offset", args.["offset"]);
     ("downloadMedia", VStr (Py.lower (py_str args.["download_media"])));
     ("sortBy", VStr "timestamp"); ("sortOrder", VStr "desc")].

End main.

Definition script `{Platform} (args : gmap string value) : M unit :=
  let* cfg := import in main cfg args.

End list_chats.

(** ** session.py *)

Module session.
Import argparse waha_client.

Definition parser : argparse.parser :=
  {| optionals := [];
     positionals := [];
     subparsers := Some
       {| sub_dest := "command"; sub_required := true;
          sub_parsers :=
            [("list", []);
             ("info", [arg "name"]);
             ("start", [arg "name"]);
             ("stop", [arg "name"]);
             ("restart", [arg "name"]);
             ("logout", [arg "name"])] |} |}.

Section main.
Context `{Platform} (cfg : config).

Definition print_session (s : value) : M unit :=
  let* name := get s "name" (VStr "?") in
  let* status := get s "status" (VStr "?") in
  print ("  " +:+ py_str name +:+ "  [" +:+ py_str status +:+ "]").

Definition session_line (s : list (string * value)) : string :=
  "  " +:+ py_str (default (VStr "?") (dict_lookup "name" s)) +:+ "  ["
  +:+ py_str (default (VStr "?") (dict_lookup "status" s)) +:+ "]".

Definition main (args : gmap string value) : M unit :=
  let c := client cfg in
  if is_str args.["command"] "list" then
    let* resp := http_get c "/api/sessions" [] in
    let* data := check resp in
    match data with
    | VList items =>
        for_each items print_session ;;;
        print (count_line (length items) "sessions")
    | _ => pp data
    end
  else if is_str args.["command"] "info" then
    let* resp := http_get c ("/api/sessions/" +:+ py_str args.["name"]) [] in
    let* data := check resp in
    pp data
  else if existsb (is_str args.["command"]) ["start"; "stop"; "restart"; "logout"] then
    let* resp := http_post c ("/api/sessions/" +:+ py_str args.["name"] +:+ "/"
                              +:+ py_str args.["command"]) None in
    let* data := check resp in
    pp data ;;;
    print ("  Session '" +:+ py_str args.["name"] +:+ "' -> "
           +:+ py_str args.["command"])
  else ret tt.

(** The request of [list]. *)
Definition list_request : request :=
  get_request (client cfg) "/api/sessions" [].

End main.

Definition script `{Platform} (args : gmap string value) : M unit :=
  let* cfg := import in main cfg args.

End session.

(** The scripts whose parser declares the session option. *)
Definition session_scripts : list argparse.parser :=
  [groups.parser; contacts.parser; list_chats.parser;
   send_message.parser; send_media.parser].

Definition session_option : argparse.optional :=
  argparse.opt ["-s"; "--session"] (VStr "default").

(** ** A platform to run the scripts on

    [repr] and [json.dumps] as CPython computes them on the values above,
    for the code points this embedding covers. *)

Module cpython.

Definition quote : ascii := "'".
Definition dquote : ascii := ascii_of_N 34.
Definition backslash : ascii := "\".

Definition hex_digit (n : N) : ascii :=
  if (n <? 10)%N then ascii_of_N (48 + n) else ascii_of_N (87 + n).

Definition hex2 (n : N) : string :=
  String (hex_digit (n / 16)) (String (hex_digit (n mod 16)) EmptyString).

(** [str.isprintable] on one character. *)
Definition printable (n : N) : bool :=
  (((32 <=? n) && (n <? 127)) || ((161 <=? n) && negb (n =? 173)))%N.

Definition repr_char (q c : ascii) : string :=
  let n := Py.code c in
  if Ascii.eqb c q || Ascii.eqb c backslash then String backslash (String c EmptyString)
  else if (n =? 9)%N then "\t"
  else if (n =? 10)%N then "\n"
  else if (n =? 13)%N then "\r"
  else if printable n then String c EmptyString
  else "\x" +:+ hex2 n.

Fixpoint repr_chars (q : ascii) (s : string) : string :=
  match s with
  | EmptyString => EmptyString
  | String c s' => repr_char q c +:+ repr_chars q s'
  end.

Definition repr_str (s : string) : string :=
  let q := if Py.contains quote s && negb (Py.contains dquote s)
           then dquote else quote in
  String q (repr_chars q s) +:+ String q EmptyString.

Fixpoint repr (v : value) : string :=
  match v with
  | VNone => "None"
  | VBool b => if b then "True" else "False"
  | VInt n => Py.str_int n
  | VFloat r => r
  | VStr s => repr_str s
  | VList items =>
      let fix each (xs : list value) : list string :=
        match xs with
        | [] => []
        | x :: xs' => repr x :: each xs'
        end in
      "[" +:+ String.concat ", " (each items) +:+ "]"
  | VDict fields =>
      let fix each (fs : list (string * value)) : list string :=
        match fs with
        | [] => []
        | (k, x) :: fs' => (repr_str k +:+ ": " +:+ repr x) :: each fs'
        end in
      "{" +:+ String.concat ", " (each fields) +:+ "}"
  end.

Definition json_char (c : ascii) : string :=
  let n := Py.code c in
  if Ascii.eqb c dquote || Ascii.eqb c backslash then String backslash (String c EmptyString)
  else if (n =? 8)%N then "\b"
  else if (n =? 9)%N then "\t"
  else if (n =? 10)%N then "\n"
  else if (n =? 12)%N then "\f"
  else if (n =? 13)%N then "\r"
  else if (n <? 32)%N then "\u00" +:+ hex2 n
  else String c EmptyString.

Fixpoint json_chars (s : string) : string :=
  match s with
  | EmptyString => EmptyString
  | String c s' => json_char c +:+ json_chars s'
  end.

Definition json_str (s : string) : string :=
  String dquote (json_chars s) +:+ String dquote EmptyString.

Fixpoint indent (level : nat) : string :=
  match level with
  | O => EmptyString
  | S l => "  " +:+ indent l
  end.

Definition json_float (r : string) : string :=
  if String.eqb r "nan" then "NaN"
  else if String.eqb r "inf" then "Infinity"
  else if String.eqb r "-inf" then "-Infinity"
  else r.

Fixpoint dumps_at (level : nat) (v : value) : string :=
  match v with
  | VNone => "null"
  | VBool b => if b then "true" else "false"
  | VInt n => Py.str_int n
  | VFloat r => json_float r
  | VStr s => json_str s
  | VList [] => "[]"
  | VList items =>
      let fix each (xs : list value) : list string :=
        match xs with
        | [] => []
        | x :: xs' => dumps_at (S level) x :: each xs'
        end in
      "[" +:+ Py.nl +:+ indent (S level)
      +:+ String.concat ("," +:+ Py.nl +:+ indent (S level)) (each items)
      +:+ Py.nl +:+ indent level +:+ "]"
  | VDict [] => "{}"
  | VDict fields =>
      let fix each (fs : list (string * value)) : list string :=
        match fs with
        | [] => []
        | (k, x) :: fs' => (json_str k +:+ ": " +:+ dumps_at (S level) x) :: each fs'
        end in
      "{" +:+ Py.nl +:+ indent (S level)
      +:+ String.concat ("," +:+ Py.nl +:+ indent (S level)) (each fields)
      +:+ Py.nl +:+ indent level +:+ "}"
  end.

Definition dumps (v : value) : string := dumps_at 0 v.

Definition platform (remote : request -> option response) : Platform :=
  {| py_repr := repr; json_dumps := dumps; gateway := remote |}.

(** A gateway with one answer, whatever the request, and one that is
    down; the settings of a local installation. *)
Definition answer (status : Z) (body : value) : request -> option response :=
  fun _ => Some {| status_code := status; text := EmptyString;
                   decoded := Some body |}.

Definition down : request -> option response := fun _ => None.

Definition local : waha_client.config :=
  {| waha_client.BASE_URL := "http://localhost:3000";
     waha_client.API_KEY := "secret" |}.

(** The namespace of a command line that parses. *)
Definition parsed (p : argparse.parser) (argv : list string) : gmap string value :=
  match argparse.parse_args p argv with
  | argparse.Parsed ns => ns
  | _ => ∅
  end.

End cpython.

(** ** Notions the further properties are stated with *)

(** A computation whose only effect is to print to stdout. *)
Definition prints_only {A} (m : M A) : Prop :=
  forall w, exists lines, snd (m w) = write_stdout lines w.

(** One request, its answer checked, and the rest of a command run on the
    decoded body: the shape of every branch of every [main]. *)
Definition fetch_then `{Platform} {A} (r : request) (k : value -> M A) : M A :=
  let* resp := send r in
  let* data := waha_client.check resp in
  k data.

(** A command that either touches nothing, or is one [fetch_then] through
    the client of the configuration, followed by printing. *)
Definition at_most_one_fetch `{Platform} (cfg : waha_client.config) (m : M unit)
  : Prop :=
  (exists o, forall w, m w = (o, w))
  \/ (exists r k, req_client r = waha_client.client cfg
                  /\ (forall v, prints_only (k v))
                  /\ forall w, m w = fetch_then r k w).

(** The [main] functions of the six scripts. *)
Definition mains `{Platform}
  : list (waha_client.config -> gmap string value -> M unit) :=
  [groups.main; send_message.main; send_media.main;
   contacts.main; list_chats.main; session.main].

(** The line [check] writes for a response it refuses. *)
Definition http_error_line `{Platform} (resp : response) : string :=
  "Error: HTTP " +:+ Py.str_int (status_code resp) +:+ ": "
  +:+ py_str (default (VStr (text resp)) (decoded resp)).

(** The commands that list: the name of the command, its [main], its
    request and the noun of its count entry; for the five that print one
    line for an item, the line too. *)
Definition listings `{Platform} (cfg : waha_client.config) (args : gmap string value)
  : list (string * (waha_client.config -> gmap string value -> M unit)
          * request * string) :=
  [("list", groups.main, groups.list_request cfg args, "groups");
   ("participants", groups.main, groups.participants_request cfg args, "participants");
   ("list", contacts.main, contacts.list_request cfg args, "contacts");
   ("chats", list_chats.main, list_chats.chats_request cfg args, "chats");
   ("overview", list_chats.main, list_chats.overview_request cfg args, "chats");
   ("messages", list_chats.main, list_chats.messages_request cfg args, "messages");
   ("list", session.main, session.list_request cfg, "sessions")].

Definition line_listings `{Platform} (cfg : waha_client.config)
           (args : gmap string value)
  : list (string * (waha_client.config -> gmap string value -> M unit)
          * request * string * (list (string * value) -> string)) :=
  [("list", groups.main, groups.list_request cfg args, "groups", groups.group_line);
   ("participants", groups.main, groups.participants_request cfg args,
    "participants", groups.participant_line);
   ("list", contacts.main, contacts.list_request cfg args, "contacts",
    contacts.contact_line);
   ("chats", list_chats.main, list_chats.chats_request cfg args, "chats",
    list_chats.chat_line);
   ("list", session.main, session.list_request cfg, "sessions",
    session.session_line)].

(** [isinstance(v, list)] *)
Definition is_list (v : value) : bool :=
  match v with
  | VList _ => true
  | _ => false
  end.

(** A string of whitespace only, and a string with none at either end. *)
Fixpoint blank (s : string) : bool :=
  match s with
  | EmptyString => true
  | String c s' => Py.is_space c && blank s'
  end.

Definition trimmed (s : string) : Prop := Py.strip s = s.

(** The first character of a string, when it has one. *)
Definition first_char (s : string) : option ascii :=
  match s with
  | EmptyString => None
  | String c _ => Some c
  end.

(** What the environment holds for a key once the file is read: the
    value it already had, else the one the file gives. *)
Definition setting (w : world) (key : string) : option string :=
  match environ w !! key with
  | Some v => Some v
  | None => waha_client.file_value key (env_file w)
  end.

Definition default_base_url : string := "https://whatsapp.wyvern-vector.ts.net".

(** The six scripts: the parser and the [main] of each. *)
Definition scripts `{Platform}
  : list (argparse.parser * (waha_client.config -> gmap string value -> M unit)) :=
  [(groups.parser, groups.main);
   (send_message.parser, send_message.main);
   (send_media.parser, send_media.main);
   (contacts.parser, contacts.main);
   (list_chats.parser, list_chats.main);
   (session.parser, session.main)].

(** A word of the command line that is read as an argument. *)
Definition word (tok : string) : bool := negb (argparse.option_like tok).

(** A command that is one [fetch_then] followed by printing. *)
Definition fetches `{Platform} (m : M unit) : Prop :=
  exists r k, (forall v, prints_only (k v)) /\ forall w, m w = fetch_then r k w.

(** The commands that print the dump of the answer and nothing else:
    the name of the command, its [main] and its request. *)
Definition dump_commands `{Platform} (cfg : waha_client.config)
           (args : gmap string value)
  : list (string * (waha_client.config -> gmap string value -> M unit) * request) :=
  let c := waha_client.client cfg in
  [("info", groups.main,
    waha_client.get_request c
      ("/api/" +:+ py_str args.["session"] +:+ "/groups/" +:+ py_str args.["group_id"])
      []);
   ("info", contacts.main,
    waha_client.get_request c "/api/contacts"
      [("session", args.["session"]); ("contactId", args.["contact_id"])]);
   ("block", contacts.main,
    waha_client.post_request c "/api/contacts/block"
      (Some (VDict [("session", args.["session"]);
                    ("contactId", args.["contact_id"])])));
   ("unblock", contacts.main,
    waha_client.post_request c "/api/contacts/unblock"
      (Some (VDict [("session", args.["session"]);
                    ("contactId", args.["contact_id"])])));
   ("info", session.main,
    waha_client.get_request c ("/api/sessions/" +:+ py_str args.["name"]) [])].

(** The four commands of session.py that change a session. *)
Definition lifecycle : list string := ["start"; "stop"; "restart"; "logout"].

(** What [list_overview] raises at a chat whose preview cannot be
    computed: [.get] fails on a chat, or on a truthy last message, that
    is not a dict; the slice fails on a truthy body that is neither a
    string nor a list. *)
Definition overview_error (chat : value) : exn :=
  match chat with
  | VDict fields =>
      match py_or (default VNone (dict_lookup "lastMessage" fields)) (VDict []) with
      | VDict _ => SubscriptError
      | _ => AttributeError
      end
  | _ => AttributeError
  end.

(** * Properties *)

(** ** The monad and the loops *)

Lemma write_stdout_app (l1 l2 : list string) (w : world) :
  write_stdout l2 (write_stdout l1 w) = write_stdout (l1 ++ l2) w.
Proof. unfold write_stdout; simpl. by rewrite app_assoc. Qed.

Lemma write_stdout_nil (w : world) : write_stdout [] w = w.
Proof. destruct w; unfold write_stdout; simpl. by rewrite app_nil_r. Qed.

Lemma truthy_or (a b : value) : truthy (py_or a b) = truthy a || truthy b.
Proof. unfold py_or. destruct (truthy a) eqn:E; simpl; [exact E | reflexivity]. Qed.

(** A loop whose body prints [lines x] for the items that are [ok] and
    raises [err x], printing nothing, for the others: it prints the lines of
    the leading [ok] items and stops at the first other one. *)
Lemma for_each_prints {A} (ok : A -> bool) (lines : A -> list string)
      (err : A -> exn) (body : A -> M unit) (xs : list A) :
  (forall x w, ok x = true -> body x w = (Return tt, write_stdout (lines x) w)) ->
  (forall x w, ok x = false -> body x w = (Raised (err x), w)) ->
  forall w,
    for_each xs body w =
      (match List.find (fun x => negb (ok x)) xs with
       | None => Return tt
       | Some x => Raised (err x)
       end,
       write_stdout (concat (map lines (leading ok xs))) w).
Proof.
  intros Hok Hbad. induction xs as [|x xs IH]; intros w; simpl.
  - by rewrite write_stdout_nil.
  - unfold bind. destruct (ok x) eqn:E; simpl.
    + rewrite (Hok x w E), IH, write_stdout_app. reflexivity.
    + rewrite (Hbad x w E). by rewrite write_stdout_nil.
Qed.

Lemma leading_all {A} (ok : A -> bool) (xs : list A) :
  forallb ok xs = true -> leading ok xs = xs /\ List.find (fun x => negb (ok x)) xs = None.
Proof.
  induction xs as [|x xs IH]; simpl; [done|].
  intros [Hx Hxs]%andb_prop. rewrite Hx. simpl.
  destruct (IH Hxs) as [-> ->]. done.
Qed.

(** A list with an item that is not [ok] splits at the first such item. *)
Lemma first_failure {A} (ok : A -> bool) (xs : list A) :
  forallb ok xs = false ->
  exists before bad after,
    xs = (before ++ bad :: after)%list
    /\ forallb ok before = true
    /\ ok bad = false
    /\ leading ok xs = before
    /\ List.find (fun x => negb (ok x)) xs = Some bad.
Proof.
  induction xs as [|x xs IH]; simpl; [discriminate|].
  destruct (ok x) eqn:E; simpl.
  - intros Hf. destruct (IH Hf) as (before & bad & after & -> & Hb & Hx & Hl & Hfind).
    exists (x :: before), bad, after. simpl. rewrite E, Hb, Hl. by repeat split.
  - intros _. exists [], x, xs. by repeat split.
Qed.

(** ** waha_client: the response checker *)

Section checker.
Context `{Platform}.

Lemma check_success (resp : response) (v : value) (w : world) :
  status_code resp < 400 -> decoded resp = Some v ->
  waha_client.check resp w = (Return v, w).
Proof.
  intros Hs Hd. unfold waha_client.check, waha_client.resp_json, bind.
  destruct (Z.leb_spec 400 (status_code resp)); [lia|].
  by rewrite Hd.
Qed.

Lemma check_undecodable (resp : response) (w : world) :
  status_code resp < 400 -> decoded resp = None ->
  waha_client.check resp w = (Raised DecodeError, w).
Proof.
  intros Hs Hd. unfold waha_client.check, waha_client.resp_json, bind.
  destruct (Z.leb_spec 400 (status_code resp)); [lia|].
  by rewrite Hd.
Qed.

Lemma check_failure (resp : response) (w : world) :
  400 <= status_code resp ->
  waha_client.check resp w =
    (SystemExit 1,
     write_stderr ["Error: HTTP " +:+ Py.str_int (status_code resp) +:+ ": "
                   +:+ py_str (default (VStr (text resp)) (decoded resp))] w).
Proof.
  intros Hs. unfold waha_client.check, waha_client.die, bind.
  destruct (Z.leb_spec 400 (status_code resp)); [|lia].
  simpl. by destruct (decoded resp).
Qed.

(** C1, as amended.  A response with a status of 400 or more ends the
    process with exit status 1 after one line on stderr, the text
    "Error: HTTP <code>: <detail>" (the detail is the decoded body, or the
    raw text when decoding fails), and stdout is left as it was.  A
    response with a status below 400 gives back its decoded body when the
    body decodes; when it does not, the decoding error is raised. *)
Theorem check_contract (resp : response) (w : world) :
  (400 <= status_code resp ->
   waha_client.check resp w =
     (SystemExit 1,
      write_stderr ["Error: HTTP " +:+ Py.str_int (status_code resp) +:+ ": "
                    +:+ py_str (default (VStr (text resp)) (decoded resp))] w)
   /\ exit_status (fst (waha_client.check resp w)) = 1
   /\ stdout (snd (waha_client.check resp w)) = stdout w)
  /\ (status_code resp < 400 ->
      (forall v, decoded resp = Some v -> waha_client.check resp w = (Return v, w))
      /\ (decoded resp = None -> waha_client.check resp w = (Raised DecodeError, w))).
Proof.
  split.
  - intros Hs. rewrite (check_failure resp w Hs). done.
  - intros Hs. split.
    + intros v Hv. by apply check_success.
    + intros Hd. by apply check_undecodable.
Qed.

End checker.

(** A response with status 200 whose body is no JSON: the checker raises
    and returns nothing.  A response with status 404: the line on stderr
    is the formatted message behind the prefix that [die] adds, not the
    message alone (C1 as it was stated fails here). *)
Lemma check_status_200_not_json :
  let ok := {| status_code := 200; text := "<html>ok</html>"; decoded := None |} in
  let missing := {| status_code := 404; text := "{...}";
                    decoded := Some (VDict [("error", VStr "x")]) |} in
  @waha_client.check (cpython.platform cpython.down) ok (start None ∅)
  = (Raised DecodeError, start None ∅)
  /\ stderr (snd (@waha_client.check (cpython.platform cpython.down) missing
                     (start None ∅)))
     = ["Error: HTTP 404: {'error': 'x'}"]
  /\ String.eqb "Error: HTTP 404: {'error': 'x'}" "HTTP 404: {'error': 'x'}" = false.
Proof. vm_compute. repeat split. Qed.

Lemma check_contract_witness :
  let resp := {| status_code := 404; text := "{...}";
                 decoded := Some (VDict [("error", VStr "x")]) |} in
  @waha_client.check (cpython.platform cpython.down) resp (start None ∅)
  = (SystemExit 1, write_stderr ["Error: HTTP 404: {'error': 'x'}"] (start None ∅)).
Proof.
  intros resp.
  apply (proj1 (@check_contract (cpython.platform cpython.down) resp (start None ∅))).
  unfold resp. simpl. lia.
Defined.

(** ** waha_client: the import *)

Section loader.

Lemma load_line_frame (line : string) (w : world) :
  snd (waha_client.load_line line w) = with_environ (environ (snd (waha_client.load_line line w))) w.
Proof.
  unfold waha_client.load_line.
  destruct (_ || _ || _); [by destruct w|].
  destruct (Py.partition "=" (Py.strip line)) as [[key sep] v].
  unfold bind, in_environ, environ_set. simpl.
  destruct (_ && _); [|by destruct w].
  destruct (_ || _); by destruct w.
Qed.

Lemma for_each_frame {A} (body : A -> M unit) (xs : list A) :
  (forall x w, snd (body x w) = with_environ (environ (snd (body x w))) w) ->
  forall w, snd (for_each xs body w) = with_environ (environ (snd (for_each xs body w))) w.
Proof.
  intros Hb. induction xs as [|x xs IH]; intros w; simpl.
  - by destruct w.
  - unfold bind. specialize (Hb x w). destruct (body x w) as [[[]|n|e] w1]; simpl in *.
    + rewrite IH. rewrite Hb. reflexivity.
    + exact Hb.
    + exact Hb.
Qed.

(** The loader touches nothing but the environment. *)
Lemma load_env_frame (w : world) :
  snd (waha_client._load_env w) = with_environ (environ (snd (waha_client._load_env w))) w.
Proof.
  unfold waha_client._load_env. destruct (env_file w).
  - apply for_each_frame. apply load_line_frame.
  - by destruct w.
Qed.

Context `{Platform}.

Lemma import_aborts (w w1 : world) :
  waha_client._load_env w = (Return tt, w1) ->
  environ w1 !! "WAHA_API_KEY" = None \/ environ w1 !! "WAHA_API_KEY" = Some "" ->
  waha_client.import w = (SystemExit 1, write_stderr [waha_client.key_error] w1).
Proof.
  intros Hl Hk. unfold waha_client.import, bind. rewrite Hl.
  unfold environ_get. simpl.
  destruct Hk as [-> | ->]; reflexivity.
Qed.

(** C4.  When the environment, once the env file is loaded, has no
    WAHA_API_KEY or an empty one, the import of the client module, and so
    each of the six scripts, writes the error line to stderr and exits
    with status 1; nothing is printed to stdout and no request is sent. *)
Theorem missing_api_key_aborts (args : gmap string value) (w w1 : world) :
  waha_client._load_env w = (Return tt, w1) ->
  environ w1 !! "WAHA_API_KEY" = None \/ environ w1 !! "WAHA_API_KEY" = Some "" ->
  let w' := write_stderr [waha_client.key_error] w1 in
  (waha_client.import w = (SystemExit 1, w')
   /\ groups.script args w = (SystemExit 1, w')
   /\ send_message.script args w = (SystemExit 1, w')
   /\ send_media.script args w = (SystemExit 1, w')
   /\ contacts.script args w = (SystemExit 1, w')
   /\ list_chats.script args w = (SystemExit 1, w')
   /\ session.script args w = (SystemExit 1, w'))
  /\ stderr w' = (stderr w ++ [waha_client.key_error])%list
  /\ stdout w' = stdout w
  /\ sent w' = sent w.
Proof.
  intros Hl Hk w'. pose proof (import_aborts w w1 Hl Hk) as Hi.
  split.
  - unfold groups.script, send_message.script, send_media.script,
      contacts.script, list_chats.script, session.script, bind.
    rewrite Hi. repeat split; reflexivity.
  - pose proof (load_env_frame w) as Hf. rewrite Hl in Hf. simpl in Hf.
    subst w'. rewrite Hf. simpl. done.
Qed.

End loader.

Lemma missing_api_key_aborts_witness :
  let w := start (Some "WAHA_BASE_URL=http://localhost:3000") ∅ in
  @groups.script (cpython.platform cpython.down) ∅ w
  = (SystemExit 1,
     write_stderr ["Error: WAHA_API_KEY not set. Check ~/documents/waha/.env"]
                  (with_environ {["WAHA_BASE_URL" := "http://localhost:3000"]} w)).
Proof.
  intros w.
  refine (proj1 (proj2 (proj1 (@missing_api_key_aborts (cpython.platform cpython.down)
            ∅ w (with_environ {["WAHA_BASE_URL" := "http://localhost:3000"]} w) _ _)))).
  - vm_compute. reflexivity.
  - left. vm_compute. reflexivity.
Defined.

(** ** One request, one checked answer *)

Lemma is_str_true (v : value) (s : string) : is_str v s = true <-> v = VStr s.
Proof.
  destruct v; simpl; try (split; [discriminate | discriminate]).
  rewrite String.eqb_eq. split; [by intros -> | by intros [= ->]].
Qed.

Lemma attr_insert (args : gmap string value) (k : string) (v : value) :
  (<[k := v]> args).[k] = v.
Proof. unfold argparse.attr. by rewrite lookup_insert_eq. Qed.

Lemma attr_insert_ne (args : gmap string value) (k k' : string) (v : value) :
  k <> k' -> (<[k := v]> args).[k'] = args.[k'].
Proof. intros Hne. unfold argparse.attr. by rewrite lookup_insert_ne. Qed.

Section requests.
Context `{Platform}.

Lemma check_keeps_requests (resp : response) (w : world) :
  sent (snd (waha_client.check resp w)) = sent w
  /\ stdout (snd (waha_client.check resp w)) = stdout w.
Proof.
  unfold waha_client.check, waha_client.die, waha_client.resp_json, bind.
  destruct (400 <=? status_code resp); simpl; [done|].
  by destruct (decoded resp).
Qed.

(** A request the gateway answers well: the answer passes the checker,
    and the rest of the command runs on the decoded body. *)
Lemma fetch {A} (r : request) (v : value) (k : value -> M A) (w : world) :
  succeeds r v ->
  (let* resp := send r in let* data := waha_client.check resp in k data) w
  = k v (record_request r w).
Proof.
  intros (resp & Hg & Hs & Hd). unfold bind at 1. unfold send. rewrite Hg.
  unfold bind. by rewrite (check_success resp v _ Hs Hd).
Qed.

End requests.

(** ** send_message and send_media: the payload *)

Section payloads.
Context `{Platform}.

Lemma send_media_convert (args : gmap string value) :
  dict_lookup "convert" (send_media.payload args)
  = if is_str args.["media_type"] "video" || is_str args.["media_type"] "voice"
    then Some (VBool true) else None.
Proof.
  unfold send_media.payload.
  destruct (truthy args.["caption"]), (truthy args.["reply_to"]),
    (is_str args.["media_type"] "video" || is_str args.["media_type"] "voice");
    reflexivity.
Qed.

Lemma send_media_request (cfg : waha_client.config) (args : gmap string value)
      (url : string) (w : world) :
  send_media.endpoint args.["media_type"] w = (Return url, w) ->
  sent (snd (send_media.main cfg args w))
  = (sent w ++ [waha_client.post_request (waha_client.client cfg) url
                  (Some (VDict (send_media.payload args)))])%list.
Proof.
  intros He. unfold send_media.main, bind at 1. rewrite He.
  unfold waha_client.http_post, bind at 1, send.
  set (r := waha_client.post_request _ _ _).
  destruct (gateway r) as [resp|]; [|reflexivity].
  unfold bind.
  pose proof (check_keeps_requests resp (record_request r w)) as [Hc _].
  destruct (waha_client.check resp (record_request r w)) as [[v|n|e] w1];
    simpl in *; by rewrite Hc.
Qed.

(** C6.  The payload of send_media has the field "convert", with the
    value true, exactly when the media type is "video" or "voice", and has
    no such field otherwise; and this payload is the body of the request
    the script posts to the endpoint of the media type. *)
Theorem send_media_convert_flag (cfg : waha_client.config)
        (args : gmap string value) (w : world) :
  (dict_lookup "convert" (send_media.payload args) = Some (VBool true)
   <-> args.["media_type"] = VStr "video" \/ args.["media_type"] = VStr "voice")
  /\ (dict_lookup "convert" (send_media.payload args) = None
      <-> ~ (args.["media_type"] = VStr "video" \/ args.["media_type"] = VStr "voice"))
  /\ (args.["media_type"] = VStr "voice" ->
      In ("convert", VBool true) (send_media.payload args))
  /\ (args.["media_type"] = VStr "image" ->
      dict_lookup "convert" (send_media.payload args) = None)
  /\ (forall url, send_media.endpoint args.["media_type"] w = (Return url, w) ->
      sent (snd (send_media.main cfg args w))
      = (sent w ++ [waha_client.post_request (waha_client.client cfg) url
                      (Some (VDict (send_media.payload args)))])%list).
Proof.
  assert (Hiff : is_str args.["media_type"] "video" || is_str args.["media_type"] "voice" = true
                 <-> args.["media_type"] = VStr "video" \/ args.["media_type"] = VStr "voice").
  { rewrite orb_true_iff, !is_str_true. reflexivity. }
  pose proof (send_media_convert args) as Hc.
  repeat split.
  - intros Hl. apply Hiff. rewrite Hl in Hc.
    destruct (_ || _); [done | discriminate].
  - intros Hm. apply Hiff in Hm. by rewrite Hc, Hm.
  - intros Hl Hm. apply Hiff in Hm. rewrite Hc, Hm in Hl. discriminate.
  - intros Hn. rewrite Hc. destruct (_ || _) eqn:E; [|done].
    exfalso. apply Hn, Hiff. done.
  - intros Hv. unfold send_media.payload. rewrite Hv. simpl.
    destruct (truthy args.["caption"]), (truthy args.["reply_to"]); simpl; tauto.
  - intros Hi. rewrite Hc, Hi. reflexivity.
  - intros url. apply send_media_request.
Qed.

(** C10.  An optional string given as the empty string leaves the payload
    as it is when the option is not given at all, where the attribute is
    None: for the reply-to of send_message, and for the caption, the
    reply-to, the file name and the mime type of send_media. *)
Theorem empty_option_is_omitted (args : gmap string value) :
  send_message.payload (<["reply_to" := VStr ""]> args)
  = send_message.payload (<["reply_to" := VNone]> args)
  /\ send_media.payload (<["caption" := VStr ""]> args)
     = send_media.payload (<["caption" := VNone]> args)
  /\ send_media.payload (<["reply_to" := VStr ""]> args)
     = send_media.payload (<["reply_to" := VNone]> args)
  /\ send_media.payload (<["filename" := VStr ""]> args)
     = send_media.payload (<["filename" := VNone]> args)
  /\ send_media.payload (<["mimetype" := VStr ""]> args)
     = send_media.payload (<["mimetype" := VNone]> args)
  /\ dict_lookup "reply_to" (send_message.payload (<["reply_to" := VStr ""]> args)) = None
  /\ dict_lookup "caption" (send_media.payload (<["caption" := VStr ""]> args)) = None
  /\ dict_lookup "reply_to" (send_media.payload (<["reply_to" := VStr ""]> args)) = None
  /\ dict_lookup "filename" (send_media.file_obj (<["filename" := VStr ""]> args)) = None
  /\ dict_lookup "mimetype" (send_media.file_obj (<["mimetype" := VStr ""]> args)) = None.
Proof.
  unfold send_message.payload, send_media.payload, send_media.file_obj.
  repeat split;
    rewrite ?attr_insert, ?attr_insert_ne by done; try reflexivity;
    cbn [truthy Py.is_empty negb];
    repeat match goal with
           | |- context [if ?b then _ else _] => destruct b
           end; reflexivity.
Qed.

End payloads.

(** ** contacts: the check command *)

Section contacts_check.
Context `{Platform}.

Lemma contacts_check_runs (cfg : waha_client.config) (args : gmap string value)
      (data : value) (w : world) :
  args.["command"] = VStr "check" ->
  succeeds (contacts.check_request cfg args) data ->
  contacts.main cfg args w
  = (Return tt,
     write_stdout
       (json_dumps data
        :: item_lines (fun fields => [contacts.exists_line args.["phone"] fields]) data)
       (record_request (contacts.check_request cfg args) w)).
Proof.
  intros Hc Hs. unfold contacts.main. rewrite Hc. cbn [is_str String.eqb Ascii.eqb Bool.eqb].
  unfold waha_client.http_get.
  rewrite (fetch _ data _ w Hs). unfold waha_client.pp, bind, print.
  destruct data; simpl; try reflexivity.
  by rewrite write_stdout_app.
Qed.

(** C7.  When the answer to [contacts check <phone>] decodes to a dict,
    the command prints the dump of the dict and then one more entry: an
    empty line followed by "  Number <phone> exists on WhatsApp" when the
    dict has a truthy numberExists or a truthy chatId, and by
    "  Number <phone> NOT found on WhatsApp" otherwise. *)
Theorem contacts_check_sentence (cfg : waha_client.config)
        (args : gmap string value) (phone : string)
        (fields : list (string * value)) (w : world) :
  args.["command"] = VStr "check" ->
  args.["phone"] = VStr phone ->
  succeeds (contacts.check_request cfg args) (VDict fields) ->
  let found := truthy (default VNone (dict_lookup "numberExists" fields))
               || truthy (default VNone (dict_lookup "chatId" fields)) in
  contacts.main cfg args w
  = (Return tt,
     write_stdout
       [json_dumps (VDict fields);
        Py.nl +:+ "  Number " +:+ phone
        +:+ (if found then " exists on WhatsApp" else " NOT found on WhatsApp")]
       (record_request (contacts.check_request cfg args) w)).
Proof.
  intros Hc Hp Hs found. rewrite (contacts_check_runs cfg args _ w Hc Hs).
  simpl. unfold contacts.exists_line. rewrite truthy_or, Hp. fold found.
  by destruct found.
Qed.

(** C9.  When the answer to [contacts check <phone>] decodes to a value
    that is no dict, the command prints the dump of the value and nothing
    else. *)
Theorem contacts_check_no_dict (cfg : waha_client.config)
        (args : gmap string value) (data : value) (w : world) :
  args.["command"] = VStr "check" ->
  is_dict data = false ->
  succeeds (contacts.check_request cfg args) data ->
  contacts.main cfg args w
  = (Return tt,
     write_stdout [json_dumps data]
                  (record_request (contacts.check_request cfg args) w)).
Proof.
  intros Hc Hd Hs. rewrite (contacts_check_runs cfg args _ w Hc Hs).
  by destruct data.
Qed.

End contacts_check.


Lemma contacts_check_sentence_witness :
  let H := cpython.platform (cpython.answer 200 (VDict [("numberExists", VBool false); ("chatId", VNone)])) in
  let args : gmap string value :=
    <["phone" := VStr "628123"]> (<["command" := VStr "check"]> (argparse.defaults contacts.parser)) in
  stdout (snd (contacts.main cpython.local args (start None ∅)))
  = [cpython.dumps (VDict [("numberExists", VBool false); ("chatId", VNone)]);
     Py.nl +:+ "  Number 628123 NOT found on WhatsApp"].
Proof.
  intros H args.
  rewrite (@contacts_check_sentence H cpython.local args "628123"
             [("numberExists", VBool false); ("chatId", VNone)] (start None ∅)).
  - reflexivity.
  - reflexivity.
  - reflexivity.
  - eexists. split; [reflexivity|]. split; [simpl; lia | reflexivity].
Defined.

Lemma contacts_check_no_dict_witness :
  let H := cpython.platform (cpython.answer 200 (VList [VStr "628123@c.us"])) in
  let args : gmap string value :=
    <["phone" := VStr "628123"]> (<["command" := VStr "check"]> (argparse.defaults contacts.parser)) in
  stdout (snd (contacts.main cpython.local args (start None ∅)))
  = [cpython.dumps (VList [VStr "628123@c.us"])].
Proof.
  intros H args.
  rewrite (@contacts_check_no_dict H cpython.local args (VList [VStr "628123@c.us"]) (start None ∅)).
  - reflexivity.
  - reflexivity.
  - reflexivity.
  - eexists. split; [reflexivity|]. split; [simpl; lia | reflexivity].
Defined.

(** ** The listings *)

Lemma for_each_all {A} (ok : A -> bool) (lines : A -> list string)
      (body : A -> M unit) (xs : list A) :
  (forall x w, ok x = true -> body x w = (Return tt, write_stdout (lines x) w)) ->
  forallb ok xs = true ->
  forall w, for_each xs body w = (Return tt, write_stdout (concat (map lines xs)) w).
Proof.
  intros Hok. induction xs as [|x xs IH]; simpl; intros Hall w.
  - by rewrite write_stdout_nil.
  - apply andb_prop in Hall as [Hx Hxs]. unfold bind.
    rewrite (Hok x w Hx), (IH Hxs), write_stdout_app. reflexivity.
Qed.

Lemma concat_singletons {A B} (f : A -> B) (xs : list A) :
  concat (map (fun x => [f x]) xs) = map f xs.
Proof. induction xs as [|x xs IH]; simpl; [done | by rewrite IH]. Qed.

(** A loop that prints one line for each item. *)
Lemma for_each_lines (line : list (string * value) -> string)
      (body : value -> M unit) (xs : list value) :
  (forall fields w, body (VDict fields) w = (Return tt, write_stdout [line fields] w)) ->
  forallb is_dict xs = true ->
  forall w, for_each xs body w = (Return tt, write_stdout (map (item_line line) xs) w).
Proof.
  intros Hb Hall w.
  rewrite (for_each_all is_dict (fun x => [item_line line x]) body xs); [|..|exact Hall].
  - by rewrite concat_singletons.
  - intros [] w' E; try discriminate. apply Hb.
Qed.

Lemma length_concat_const {A} (n : nat) (f : A -> list string) (xs : list A) :
  Forall (fun x => length (f x) = n) xs ->
  length (concat (map f xs)) = (n * length xs)%nat.
Proof.
  induction 1 as [|x xs Hx _ IH]; simpl; [lia|].
  rewrite length_app, Hx, IH. lia.
Qed.

Section listings.
Context `{Platform} (cfg : waha_client.config).

Lemma print_group_dict (g : list (string * value)) (w : world) :
  groups.print_group (VDict g) w = (Return tt, write_stdout [groups.group_line g] w).
Proof. reflexivity. Qed.

Lemma print_participant_dict (pt : list (string * value)) (w : world) :
  groups.print_participant (VDict pt) w
  = (Return tt, write_stdout [groups.participant_line pt] w).
Proof. reflexivity. Qed.

Lemma print_contact_dict (ct : list (string * value)) (w : world) :
  contacts.print_contact (VDict ct) w
  = (Return tt, write_stdout [contacts.contact_line ct] w).
Proof. reflexivity. Qed.

Lemma print_chat_dict (chat : list (string * value)) (w : world) :
  list_chats.print_chat (VDict chat) w
  = (Return tt, write_stdout [list_chats.chat_line chat] w).
Proof. reflexivity. Qed.

Lemma print_session_dict (s : list (string * value)) (w : world) :
  session.print_session (VDict s) w
  = (Return tt, write_stdout [session.session_line s] w).
Proof. reflexivity. Qed.

Lemma print_message_dict (msg : list (string * value)) (w : world) :
  list_chats.print_message (VDict msg) w
  = (Return tt, write_stdout (list_chats.message_lines msg) w).
Proof.
  unfold list_chats.print_message, list_chats.message_lines, get, bind, ret.
  unfold print.
  destruct (truthy (default VNone (dict_lookup "fromMe" msg)));
    by rewrite write_stdout_app.
Qed.

Lemma print_message_other (x : value) (w : world) :
  is_dict x = false -> list_chats.print_message x w = (Raised AttributeError, w).
Proof. by destruct x. Qed.

Lemma print_overview_ok (chat : value) (lines : list string) (w : world) :
  list_chats.overview_lines chat = Some lines ->
  list_chats.print_overview chat w = (Return tt, write_stdout lines w).
Proof.
  destruct chat as [| | | | | |fields]; try discriminate.
  unfold list_chats.overview_lines, list_chats.preview, list_chats.print_overview.
  unfold get at 1. unfold bind at 1. unfold ret at 1.
  destruct (py_or (default VNone (dict_lookup "lastMessage" fields)) (VDict []))
    as [| | | | | |last]; try discriminate.
  unfold get at 1. unfold bind at 1. unfold ret at 1.
  destruct (py_or (default VNone (dict_lookup "body" last)) (VStr ""))
    as [| | | |s|items|]; try discriminate.
  - unfold slice. generalize (Py.prefix 80 s). intros p [= <-].
    unfold get, bind, print, ret. cbn [truthy].
    destruct (negb (Py.is_empty p));
      [by rewrite write_stdout_app | reflexivity].
  - unfold slice. generalize (take 80 items). intros p [= <-].
    unfold get, bind, print, ret. cbn [truthy].
    destruct p; [reflexivity | by rewrite write_stdout_app].
Qed.

Lemma print_overview_bad (chat : value) (w : world) :
  list_chats.well_shaped chat = false ->
  list_chats.print_overview chat w = (Raised (overview_error chat), w).
Proof.
  intros Hb. apply bool_decide_eq_false in Hb.
  assert (list_chats.overview_lines chat = None) as Hn.
  { destruct (list_chats.overview_lines chat) eqn:E; [|reflexivity].
    exfalso. apply Hb. by eexists. }
  clear Hb. destruct chat as [| | | | | |fields]; try reflexivity.
  revert Hn.
  unfold list_chats.overview_lines, list_chats.preview, list_chats.print_overview,
    overview_error.
  unfold get at 1. unfold bind at 1. unfold ret at 1.
  destruct (py_or (default VNone (dict_lookup "lastMessage" fields)) (VDict []))
    as [| | | | | |last]; try reflexivity.
  unfold get at 1. unfold bind at 1. unfold ret at 1.
  destruct (py_or (default VNone (dict_lookup "body" last)) (VStr ""))
    as [| | | |s|items|]; try reflexivity; discriminate.
Qed.
End listings.

Lemma find_none_forallb {A} (ok : A -> bool) (xs : list A) :
  List.find (fun x => negb (ok x)) xs = None <-> forallb ok xs = true.
Proof.
  induction xs as [|x xs IH]; simpl; [done|].
  destruct (ok x); simpl; [exact IH | split; discriminate].
Qed.

Lemma forallb_rev {A} (ok : A -> bool) (xs : list A) :
  forallb ok (rev xs) = forallb ok xs.
Proof.
  apply eq_true_iff_eq. rewrite !forallb_forall.
  split; intros Hall x Hx; apply Hall; [by apply in_rev in Hx | by apply in_rev].
Qed.

Ltac run_listing Hc Hs :=
  rewrite Hc; cbn [is_str String.eqb Ascii.eqb Bool.eqb];
  unfold waha_client.http_get;
  erewrite fetch by exact Hs;
  unfold bind.

Section listing_commands.
Context `{Platform} (cfg : waha_client.config).
Implicit Types (args : gmap string value) (items : list value) (w : world).

Lemma groups_list_runs args items w :
  args.["command"] = VStr "list" ->
  succeeds (groups.list_request cfg args) (VList items) ->
  forallb is_dict items = true ->
  groups.main cfg args w
  = (Return tt,
     write_stdout (map (item_line groups.group_line) items
                   ++ [count_line (length items) "groups"])
                  (record_request (groups.list_request cfg args) w)).
Proof.
  intros Hc Hs Hd. unfold groups.main. run_listing Hc Hs.
  rewrite (for_each_lines groups.group_line) by (exact Hd || apply print_group_dict).
  unfold print. by rewrite write_stdout_app.
Qed.

Lemma groups_participants_runs args items w :
  args.["command"] = VStr "participants" ->
  succeeds (groups.participants_request cfg args) (VList items) ->
  forallb is_dict items = true ->
  groups.main cfg args w
  = (Return tt,
     write_stdout (map (item_line groups.participant_line) items
                   ++ [count_line (length items) "participants"])
                  (record_request (groups.participants_request cfg args) w)).
Proof.
  intros Hc Hs Hd. unfold groups.main. run_listing Hc Hs.
  rewrite (for_each_lines groups.participant_line)
    by (exact Hd || apply print_participant_dict).
  unfold print. by rewrite write_stdout_app.
Qed.

Lemma contacts_list_runs args items w :
  args.["command"] = VStr "list" ->
  succeeds (contacts.list_request cfg args) (VList items) ->
  forallb is_dict items = true ->
  contacts.main cfg args w
  = (Return tt,
     write_stdout (map (item_line contacts.contact_line) items
                   ++ [count_line (length items) "contacts"])
                  (record_request (contacts.list_request cfg args) w)).
Proof.
  intros Hc Hs Hd. unfold contacts.main. run_listing Hc Hs.
  rewrite (for_each_lines contacts.contact_line)
    by (exact Hd || apply print_contact_dict).
  unfold print. by rewrite write_stdout_app.
Qed.

Lemma session_list_runs args items w :
  args.["command"] = VStr "list" ->
  succeeds (session.list_request cfg) (VList items) ->
  forallb is_dict items = true ->
  session.main cfg args w
  = (Return tt,
     write_stdout (map (item_line session.session_line) items
                   ++ [count_line (length items) "sessions"])
                  (record_request (session.list_request cfg) w)).
Proof.
  intros Hc Hs Hd. unfold session.main. run_listing Hc Hs.
  rewrite (for_each_lines session.session_line)
    by (exact Hd || apply print_session_dict).
  unfold print. by rewrite write_stdout_app.
Qed.

Lemma chats_runs args items w :
  args.["command"] = VStr "chats" ->
  succeeds (list_chats.chats_request cfg args) (VList items) ->
  forallb is_dict items = true ->
  list_chats.main cfg args w
  = (Return tt,
     write_stdout (map (item_line list_chats.chat_line) items
                   ++ [count_line (length items) "chats"])
                  (record_request (list_chats.chats_request cfg args) w)).
Proof.
  intros Hc Hs Hd. unfold list_chats.main, list_chats.list_chats. run_listing Hc Hs.
  rewrite (for_each_lines list_chats.chat_line)
    by (exact Hd || apply print_chat_dict).
  unfold print. by rewrite write_stdout_app.
Qed.

Lemma overview_runs args items w :
  args.["command"] = VStr "overview" ->
  succeeds (list_chats.overview_request cfg args) (VList items) ->
  forallb list_chats.well_shaped items = true ->
  list_chats.main cfg args w
  = (Return tt,
     write_stdout (concat (map (fun chat => default [] (list_chats.overview_lines chat)) items)
                   ++ [count_line (length items) "chats"])
                  (record_request (list_chats.overview_request cfg args) w)).
Proof.
  intros Hc Hs Hd. unfold list_chats.main, list_chats.list_overview. run_listing Hc Hs.
  rewrite (for_each_all list_chats.well_shaped
             (fun chat => default [] (list_chats.overview_lines chat))); [| |exact Hd].
  - unfold print. by rewrite write_stdout_app.
  - intros x w' Hx. apply bool_decide_eq_true in Hx as [lines Hl].
    rewrite Hl. by apply print_overview_ok.
Qed.

Lemma overview_stops args items bad w :
  args.["command"] = VStr "overview" ->
  succeeds (list_chats.overview_request cfg args) (VList items) ->
  List.find (fun chat => negb (list_chats.well_shaped chat)) items = Some bad ->
  list_chats.main cfg args w
  = (Raised (overview_error bad),
     write_stdout
       (concat (map (fun chat => default [] (list_chats.overview_lines chat))
                    (leading list_chats.well_shaped items)))
       (record_request (list_chats.overview_request cfg args) w)).
Proof.
  intros Hc Hs Hf. unfold list_chats.main, list_chats.list_overview. run_listing Hc Hs.
  rewrite (for_each_prints list_chats.well_shaped
             (fun chat => default [] (list_chats.overview_lines chat))
             overview_error).
  - by rewrite Hf.
  - intros x w' Hx. apply bool_decide_eq_true in Hx as [lines Hl].
    rewrite Hl. by apply print_overview_ok.
  - intros x w' Hx. by apply print_overview_bad.
Qed.

Lemma messages_runs args items w :
  args.["command"] = VStr "messages" ->
  succeeds (list_chats.messages_request cfg args) (VList items) ->
  list_chats.main cfg args w
  = (if forallb is_dict items then Return tt else Raised AttributeError,
     write_stdout
       (concat (map (item_lines list_chats.message_lines) (leading is_dict (rev items)))
        ++ (if forallb is_dict items
            then [count_line (length items) "messages"] else []))
       (record_request (list_chats.messages_request cfg args) w)).
Proof.
  intros Hc Hs. unfold list_chats.main, list_chats.list_messages. run_listing Hc Hs.
  rewrite (for_each_prints is_dict (item_lines list_chats.message_lines)
             (fun _ => AttributeError)).
  - destruct (forallb is_dict items) eqn:Hd.
    + rewrite <- forallb_rev in Hd. apply find_none_forallb in Hd as ->.
      unfold print. by rewrite write_stdout_app.
    + destruct (List.find _ (rev items)) eqn:Hf.
      * by rewrite app_nil_r.
      * apply find_none_forallb in Hf. rewrite forallb_rev in Hf. congruence.
  - intros [] w' E; try discriminate. apply print_message_dict.
  - intros x w' E. by apply print_message_other.
Qed.

End listing_commands.

Section listing_properties.
Context `{Platform} (cfg : waha_client.config).
Implicit Types (args : gmap string value) (items : list value) (w : world).

Lemma message_lines_length items :
  forallb is_dict items = true ->
  length (concat (map (item_lines list_chats.message_lines) items))
  = (2 * length items)%nat.
Proof.
  intros Hd. apply length_concat_const. apply List.Forall_forall. intros x Hx.
  rewrite forallb_forall in Hd. specialize (Hd x Hx). by destruct x.
Qed.

Lemma overview_lines_length items :
  forallb list_chats.well_shaped items = true ->
  (length items
   <= length (concat (map (fun chat => default [] (list_chats.overview_lines chat)) items))
   <= 2 * length items)%nat.
Proof.
  induction items as [|x xs IH]; simpl; [lia|].
  intros [Hx Hxs]%andb_prop. specialize (IH Hxs). rewrite length_app.
  apply bool_decide_eq_true in Hx as [lines Hl]. rewrite Hl. simpl.
  destruct x; try discriminate. simpl in Hl.
  destruct (list_chats.preview fields); [|discriminate].
  injection Hl as <-. destruct (truthy v); simpl; lia.
Qed.

(** C3, as amended.  For an answer that decodes to a list of N dicts:
    [groups list], [groups participants], [contacts list],
    [list_chats chats] and [session list] print one entry for each item,
    in the order of the list, and then the count entry, an empty line
    followed by "(N <noun>)"; [list_chats messages] prints two entries
    for each item (2N in all) before the same kind of count entry.
    [list_chats overview] does so only for a list of well-shaped chats:
    dicts whose last message is missing, falsy or a dict with a body that
    is missing, falsy, a string or a list.  Then it prints one or two
    entries for each item (between N and 2N in all) and the count entry.
    For any other list it stops at the first chat that is not well
    shaped: it has printed the entries of the chats before it, raises
    the error of that chat and prints no count entry. *)
Theorem listings_print_items_then_count args items w :
  (args.["command"] = VStr "list" ->
   succeeds (groups.list_request cfg args) (VList items) ->
   forallb is_dict items = true ->
   groups.main cfg args w
   = (Return tt,
      write_stdout (map (item_line groups.group_line) items
                    ++ [count_line (length items) "groups"])
                   (record_request (groups.list_request cfg args) w)))
  /\ (args.["command"] = VStr "participants" ->
      succeeds (groups.participants_request cfg args) (VList items) ->
      forallb is_dict items = true ->
      groups.main cfg args w
      = (Return tt,
         write_stdout (map (item_line groups.participant_line) items
                       ++ [count_line (length items) "participants"])
                      (record_request (groups.participants_request cfg args) w)))
  /\ (args.["command"] = VStr "list" ->
      succeeds (contacts.list_request cfg args) (VList items) ->
      forallb is_dict items = true ->
      contacts.main cfg args w
      = (Return tt,
         write_stdout (map (item_line contacts.contact_line) items
                       ++ [count_line (length items) "contacts"])
                      (record_request (contacts.list_request cfg args) w)))
  /\ (args.["command"] = VStr "chats" ->
      succeeds (list_chats.chats_request cfg args) (VList items) ->
      forallb is_dict items = true ->
      list_chats.main cfg args w
      = (Return tt,
         write_stdout (map (item_line list_chats.chat_line) items
                       ++ [count_line (length items) "chats"])
                      (record_request (list_chats.chats_request cfg args) w)))
  /\ (args.["command"] = VStr "list" ->
      succeeds (session.list_request cfg) (VList items) ->
      forallb is_dict items = true ->
      session.main cfg args w
      = (Return tt,
         write_stdout (map (item_line session.session_line) items
                       ++ [count_line (length items) "sessions"])
                      (record_request (session.list_request cfg) w)))
  /\ (args.["command"] = VStr "messages" ->
      succeeds (list_chats.messages_request cfg args) (VList items) ->
      forallb is_dict items = true ->
      list_chats.main cfg args w
      = (Return tt,
         write_stdout (concat (map (item_lines list_chats.message_lines) (rev items))
                       ++ [count_line (length items) "messages"])
                      (record_request (list_chats.messages_request cfg args) w))
      /\ length (concat (map (item_lines list_chats.message_lines) (rev items)))
         = (2 * length items)%nat)
  /\ (args.["command"] = VStr "overview" ->
      succeeds (list_chats.overview_request cfg args) (VList items) ->
      forallb list_chats.well_shaped items = true ->
      list_chats.main cfg args w
      = (Return tt,
         write_stdout
           (concat (map (fun chat => default [] (list_chats.overview_lines chat)) items)
            ++ [count_line (length items) "chats"])
           (record_request (list_chats.overview_request cfg args) w))
      /\ (length items
          <= length (concat (map (fun chat => default [] (list_chats.overview_lines chat))
                                 items))
          <= 2 * length items)%nat)
  /\ (args.["command"] = VStr "overview" ->
      succeeds (list_chats.overview_request cfg args) (VList items) ->
      forallb list_chats.well_shaped items = false ->
      exists before bad after,
        items = (before ++ bad :: after)%list
        /\ forallb list_chats.well_shaped before = true
        /\ list_chats.well_shaped bad = false
        /\ list_chats.main cfg args w
           = (Raised (overview_error bad),
              write_stdout
                (concat (map (fun chat => default [] (list_chats.overview_lines chat))
                             before))
                (record_request (list_chats.overview_request cfg args) w))).
Proof.
  repeat apply conj.
  - apply groups_list_runs.
  - apply groups_participants_runs.
  - apply contacts_list_runs.
  - apply chats_runs.
  - apply session_list_runs.
  - intros Hc Hs Hd. rewrite (messages_runs cfg args items w Hc Hs), Hd.
    pose proof Hd as Hr. rewrite <- forallb_rev in Hr.
    destruct (leading_all is_dict (rev items) Hr) as [-> _].
    split; [reflexivity|].
    rewrite (message_lines_length (rev items) Hr), length_rev. reflexivity.
  - intros Hc Hs Hd. split; [by apply overview_runs | by apply overview_lines_length].
  - intros Hc Hs Hd.
    destruct (first_failure list_chats.well_shaped items Hd)
      as (before & bad & after & -> & Hb & Hx & Hl & Hf).
    exists before, bad, after. repeat split; try assumption.
    rewrite (overview_stops cfg args _ bad w Hc Hs Hf). by rewrite Hl.
Qed.

(** C8.  [list_chats messages] prints the messages in the reverse of the
    order it received them in: the entries of the leading dicts of the
    reversed list, and after them the count entry when every item is a
    dict, which is when the command ends well.  For two messages, the
    second one received is printed first. *)
Theorem messages_printed_in_reverse args items w :
  args.["command"] = VStr "messages" ->
  succeeds (list_chats.messages_request cfg args) (VList items) ->
  stdout (snd (list_chats.main cfg args w))
  = (stdout w
     ++ concat (map (item_lines list_chats.message_lines) (leading is_dict (rev items)))
     ++ (if forallb is_dict items then [count_line (length items) "messages"] else []))%list
  /\ (forallb is_dict items = true ->
      list_chats.main cfg args w
      = (Return tt,
         write_stdout (concat (map (item_lines list_chats.message_lines) (rev items))
                       ++ [count_line (length items) "messages"])
                      (record_request (list_chats.messages_request cfg args) w)))
  /\ (forall newer older, items = [VDict newer; VDict older] ->
      stdout (snd (list_chats.main cfg args w))
      = (stdout w ++ list_chats.message_lines older ++ list_chats.message_lines newer
         ++ [count_line 2 "messages"])%list).
Proof.
  intros Hc Hs. rewrite (messages_runs cfg args items w Hc Hs). repeat apply conj.
  - reflexivity.
  - intros Hd. rewrite Hd. pose proof Hd as Hr. rewrite <- forallb_rev in Hr.
    by destruct (leading_all is_dict (rev items) Hr) as [-> _].
  - intros newer older ->. reflexivity.
Qed.

End listing_properties.

(** One message received: [list_chats messages] prints two entries for it
    before the count entry, three in all and not two.  And a list whose
    item is no dict: [groups list] raises at the item and prints nothing
    (C3 as it was stated fails here). *)
Lemma one_message_three_entries :
  let H := cpython.platform (cpython.answer 200
             (VList [VDict [("id", VStr "m1"); ("timestamp", VInt 10);
                            ("from", VStr "bob"); ("body", VStr "hi")]])) in
  let H' := cpython.platform (cpython.answer 200 (VList [VStr "1@g.us"])) in
  stdout (snd (@list_chats.main H cpython.local
                 (cpython.parsed list_chats.parser ["messages"; "c@c.us"])
                 (start None ∅)))
  = ["  [10] bob: hi"; "           id: m1"; Py.nl +:+ "(1 messages)"]
  /\ fst (@groups.main H' cpython.local (cpython.parsed groups.parser ["list"])
             (start None ∅))
     = Raised AttributeError
  /\ stdout (snd (@groups.main H' cpython.local (cpython.parsed groups.parser ["list"])
                     (start None ∅)))
     = [].
Proof. vm_compute. repeat split. Qed.

Lemma listings_print_items_then_count_witness :
  let items := [VDict [("id", VStr "1@g.us"); ("subject", VStr "Family"); ("size", VInt 3)];
                VDict [("id", VStr "2@g.us"); ("name", VStr "Work")]] in
  let H := cpython.platform (cpython.answer 200 (VList items)) in
  stdout (snd (groups.main cpython.local (cpython.parsed groups.parser ["list"])
                 (start None ∅)))
  = ["  1@g.us  Family (3 members)"; "  2@g.us  Work (? members)";
     Py.nl +:+ "(2 groups)"].
Proof.
  intros items H.
  rewrite (proj1 (@listings_print_items_then_count H cpython.local
                    (cpython.parsed groups.parser ["list"]) items (start None ∅))).
  - vm_compute. reflexivity.
  - vm_compute. reflexivity.
  - eexists. split; [reflexivity|]. split; [simpl; lia | reflexivity].
  - reflexivity.
Defined.

(** A chat whose last message is a string, and one whose last message
    has a number for a body: [list_chats overview] raises at the chat and
    prints nothing, not even the line of the chat. *)
Example overview_of_a_chat_that_is_not_well_shaped :
  let text := VDict [("id", VStr "a@c.us"); ("lastMessage", VStr "hi")] in
  let number := VDict [("id", VStr "a@c.us");
                       ("lastMessage", VDict [("body", VInt 5)])] in
  let H := cpython.platform (cpython.answer 200 (VList [text])) in
  let H' := cpython.platform (cpython.answer 200 (VList [number])) in
  @list_chats.well_shaped H text = false
  /\ fst (@list_chats.main H cpython.local
             (cpython.parsed list_chats.parser ["overview"]) (start None ∅))
     = Raised AttributeError
  /\ stdout (snd (@list_chats.main H cpython.local
                    (cpython.parsed list_chats.parser ["overview"]) (start None ∅)))
     = []
  /\ @list_chats.well_shaped H' number = false
  /\ fst (@list_chats.main H' cpython.local
             (cpython.parsed list_chats.parser ["overview"]) (start None ∅))
     = Raised SubscriptError
  /\ stdout (snd (@list_chats.main H' cpython.local
                    (cpython.parsed list_chats.parser ["overview"]) (start None ∅)))
     = [].
Proof. vm_compute. repeat split. Qed.

Lemma messages_printed_in_reverse_witness :
  let items := [VDict [("id", VStr "m2"); ("timestamp", VInt 20); ("fromMe", VBool true);
                       ("body", VStr "new")];
                VDict [("id", VStr "m1"); ("timestamp", VInt 10); ("from", VStr "bob");
                       ("body", VStr "old"); ("hasMedia", VBool true)]] in
  let H := cpython.platform (cpython.answer 200 (VList items)) in
  stdout (snd (list_chats.main cpython.local
                 (cpython.parsed list_chats.parser ["messages"; "c@c.us"])
                 (start None ∅)))
  = ["  [10] bob: old [media]"; "           id: m1";
     "  [20] me: new"; "           id: m2";
     Py.nl +:+ "(2 messages)"].
Proof.
  intros items H.
  assert (Hc : (cpython.parsed list_chats.parser ["messages"; "c@c.us"]).["command"]
               = VStr "messages") by (vm_compute; reflexivity).
  assert (Hs : succeeds (list_chats.messages_request cpython.local
                           (cpython.parsed list_chats.parser ["messages"; "c@c.us"]))
                        (VList items)).
  { eexists. split; [reflexivity|]. split; [simpl; lia | reflexivity]. }
  rewrite (proj1 (@messages_printed_in_reverse H cpython.local _ items (start None ∅) Hc Hs)).
  vm_compute. reflexivity.
Defined.

(** ** waha_client: the env loader *)

Section strings.
Variable c : ascii.

Lemma partition_found (s : string) :
  Py.contains c s = true ->
  exists k v, Py.partition c s = (k, String c EmptyString, v)
              /\ s = k +:+ String c v /\ Py.contains c k = false.
Proof.
  induction s as [|a s IH]; simpl; [discriminate|].
  destruct (Ascii.eqb a c) eqn:E; simpl.
  - apply Ascii.eqb_eq in E as ->. intros _. by exists EmptyString, s.
  - intros Hc. destruct (IH Hc) as (k & v & Hp & Hs & Hk).
    exists (String a k), v. rewrite Hp. repeat split.
    + by subst s.
    + simpl. by rewrite E, Hk.
Qed.

Lemma partition_missing (s : string) :
  Py.contains c s = false -> Py.partition c s = (s, EmptyString, EmptyString).
Proof.
  induction s as [|a s IH]; simpl; [done|].
  destruct (Ascii.eqb a c); simpl; [discriminate|].
  intros Hc. by rewrite (IH Hc).
Qed.

Lemma contains_app (s t : string) :
  Py.contains c (s +:+ t) = Py.contains c s || Py.contains c t.
Proof.
  induction s as [|a s IH]; simpl; [done|]. by rewrite IH, orb_assoc.
Qed.

Lemma contains_lstrip (s : string) :
  Py.contains c s = false -> Py.contains c (Py.lstrip s) = false.
Proof.
  induction s as [|a s IH]; simpl; [done|].
  intros [Ha Hs]%orb_false_elim. destruct (Py.is_space a); [by apply IH|].
  simpl. by rewrite Ha, Hs.
Qed.

Lemma contains_rstrip (s : string) :
  Py.contains c s = false -> Py.contains c (Py.rstrip s) = false.
Proof.
  induction s as [|a s IH]; simpl; [done|].
  intros [Ha Hs]%orb_false_elim. destruct (_ && _); [done|].
  simpl. by rewrite Ha, (IH Hs).
Qed.

Lemma contains_strip (s : string) :
  Py.contains c s = false -> Py.contains c (Py.strip s) = false.
Proof. intros Hs. by apply contains_rstrip, contains_lstrip. Qed.

Lemma contains_splitlines_step (s : string) :
  (Py.contains c s = false ->
   Forall (fun line => Py.contains c line = false) (Py.splitlines s))
  /\ (forall a, Py.contains c (String a s) = false ->
       Forall (fun line => Py.contains c line = false) (Py.splitlines (String a s))).
Proof.
  induction s as [|b s [IH1 IH2]].
  - split; [constructor|]. intros a Ha. simpl in *.
    destruct (Py.is_linebreak a); by repeat constructor.
  - split; [apply IH2|]. intros a Ha.
    change (Py.contains c (String a (String b s)))
      with (Ascii.eqb a c || Py.contains c (String b s)) in Ha.
    apply orb_false_elim in Ha as [Ha Hbs]. specialize (IH2 b Hbs).
    assert (Hs : Py.contains c s = false).
    { simpl in Hbs. by apply orb_false_elim in Hbs as [_ ?]. }
    change (Py.splitlines (String a (String b s))) with
      (if Py.is_linebreak a then
         if ((Py.code a =? 13) && (Py.code b =? 10))%N
         then EmptyString :: Py.splitlines s
         else EmptyString :: Py.splitlines (String b s)
       else match Py.splitlines (String b s) with
            | [] => [String a EmptyString]
            | l :: ls => String a l :: ls
            end).
    destruct (Py.is_linebreak a).
    + destruct (_ && _); constructor; auto.
    + destruct (Py.splitlines (String b s)) as [|l ls].
      * repeat constructor. simpl. by rewrite Ha.
      * inversion IH2; subst. constructor; [|done]. simpl. by rewrite Ha.
Qed.

Lemma contains_splitlines (s : string) :
  Py.contains c s = false ->
  Forall (fun line => Py.contains c line = false) (Py.splitlines s).
Proof. apply contains_splitlines_step. Qed.

End strings.

Section env_loader.
Implicit Types (w : world) (line key : string) (lines : list string).

(** One round of the loop does what the contract says for the line. *)
Lemma load_line_binding line w :
  waha_client.load_line line w
  = match waha_client.binding line with
    | Some (k, v) =>
        if bool_decide (is_Some (environ w !! k)) then (Return tt, w)
        else environ_set k v w
    | None => (Return tt, w)
    end.
Proof.
  unfold waha_client.load_line, waha_client.binding.
  destruct (Py.is_empty (Py.strip line) || Py.startswith "#" (Py.strip line)) eqn:E1;
    simpl; [reflexivity|].
  destruct (Py.contains "=" (Py.strip line)) eqn:E2; simpl.
  - destruct (partition_found "=" _ E2) as (k & v & -> & _ & _).
    unfold bind, in_environ.
    destruct (Py.is_empty (Py.strip k)); simpl; [reflexivity|].
    by destruct (bool_decide _).
  - by rewrite (partition_missing "=" _ E2).
Qed.

Lemma binding_no_nul line k v :
  has_nul line = false -> waha_client.binding line = Some (k, v) ->
  has_nul k = false /\ has_nul v = false.
Proof.
  unfold waha_client.binding, has_nul. intros Hn.
  apply (contains_strip (ascii_of_N 0)) in Hn.
  destruct (_ || _); [discriminate|].
  destruct (Py.contains "=" (Py.strip line)) eqn:E.
  - destruct (partition_found "=" _ E) as (k' & v' & -> & Hs & _).
    rewrite Hs, contains_app in Hn. apply orb_false_elim in Hn as [Hk Hv].
    simpl in Hv.
    destruct (Py.is_empty (Py.strip k')); [discriminate|]. intros [= <- <-].
    split; by apply contains_strip.
  - by rewrite (partition_missing "=" _ E).
Qed.

(** The loop over the lines: a key that is set keeps its value; when
    the loop ends well, a key that was not set has the value of the first
    line that binds it; and the loop ends well when no line has a NUL
    character. *)
Lemma load_lines_spec lines w :
  (forall k v, environ w !! k = Some v ->
               environ (snd (for_each lines waha_client.load_line w)) !! k = Some v)
  /\ (fst (for_each lines waha_client.load_line w) = Return tt ->
      forall k, environ w !! k = None ->
                environ (snd (for_each lines waha_client.load_line w)) !! k
                = waha_client.first_binding k lines)
  /\ (Forall (fun line => has_nul line = false) lines ->
      fst (for_each lines waha_client.load_line w) = Return tt).
Proof.
  revert w. induction lines as [|line rest IH]; intros w; simpl.
  - repeat split; auto.
  - unfold bind. rewrite load_line_binding.
    destruct (waha_client.binding line) as [[k0 v0]|] eqn:Hb.
    + destruct (bool_decide (is_Some (environ w !! k0))) eqn:Hp.
      * destruct (IH w) as (Hkeep & Hnew & Hok). repeat split; auto.
        -- intros Hr k Hk. rewrite (Hnew Hr k Hk).
           destruct (String.eqb_spec k0 k) as [->|]; [|done].
           apply bool_decide_eq_true in Hp as [? Hp]. congruence.
        -- intros Hn. apply Hok. by inversion Hn.
      * apply bool_decide_eq_false in Hp.
        assert (Hk0 : environ w !! k0 = None).
        { destruct (environ w !! k0) eqn:E; [|done]. exfalso. apply Hp. eauto. }
        unfold environ_set. destruct (has_nul k0 || has_nul v0) eqn:Hnul; simpl.
        -- repeat split; auto; [discriminate|].
           intros Hn. inversion Hn as [|? ? Hl _]; subst.
           destruct (binding_no_nul _ _ _ Hl Hb) as [Hk Hv].
           rewrite Hk, Hv in Hnul. discriminate.
        -- destruct (IH (with_environ (<[k0 := v0]> (environ w)) w))
             as (Hkeep & Hnew & Hok).
           simpl in Hkeep, Hnew. repeat split.
           ++ intros k v Hk. apply Hkeep. rewrite lookup_insert_ne; [done|].
              intros ->. congruence.
           ++ intros Hr k Hk. destruct (String.eqb_spec k0 k) as [->|Hne].
              ** apply Hkeep. by rewrite lookup_insert_eq.
              ** apply (Hnew Hr). by rewrite lookup_insert_ne.
           ++ intros Hn. apply Hok. by inversion Hn.
    + destruct (IH w) as (Hkeep & Hnew & Hok). repeat split; auto.
      intros Hn. apply Hok. by inversion Hn.
Qed.

(** C2, as amended.  The loader never changes a key that is set.  A key
    that is not set gets the trimmed value of the first line of the file
    that binds it, that is the first line that is neither blank nor a
    comment, that has a [=], and whose text before the first [=] is,
    once trimmed, not empty and the key; the later lines for the key are
    left out, and a key no line binds stays unset.  The loader ends well
    when the file has no NUL character, and does nothing when there is
    no file; it writes nothing and sends nothing. *)
Theorem load_env_contract w :
  (forall k v, environ w !! k = Some v ->
               environ (snd (waha_client._load_env w)) !! k = Some v)
  /\ (fst (waha_client._load_env w) = Return tt ->
      forall k, environ w !! k = None ->
                environ (snd (waha_client._load_env w)) !! k
                = waha_client.file_value k (env_file w))
  /\ ((forall content, env_file w = Some content -> has_nul content = false) ->
      fst (waha_client._load_env w) = Return tt)
  /\ (env_file w = None -> waha_client._load_env w = (Return tt, w))
  /\ snd (waha_client._load_env w)
     = with_environ (environ (snd (waha_client._load_env w))) w.
Proof.
  split; [|split; [|split; [|split]]]; try apply load_env_frame;
    unfold waha_client._load_env, waha_client.file_value;
    destruct (env_file w) as [content|] eqn:Hf; simpl; try done.
  - apply load_lines_spec.
  - apply load_lines_spec.
  - intros Hn. apply load_lines_spec. apply contains_splitlines. by apply Hn.
Qed.

End env_loader.

(** Two lines bind the same key: the second one is neither blank nor a
    comment, its key is not in the environment the loader starts from, and
    yet its value is not the one the key gets.  And a line whose value has
    a NUL character: [os.environ] refuses it, the loader raises and the
    key stays unset (C2 as it was stated fails here). *)
Lemma second_binding_is_ignored :
  let content := "A=1" +:+ Py.nl +:+ "A=2" in
  let binary := "B=x" +:+ String (ascii_of_N 0) "y" in
  (Py.splitlines content = ["A=1"; "A=2"]
   /\ waha_client.binding "A=2" = Some ("A", "2")
   /\ environ (start (Some content) ∅) !! "A" = None
   /\ waha_client._load_env (start (Some content) ∅)
      = (Return tt, with_environ {["A" := "1"]} (start (Some content) ∅)))
  /\ waha_client._load_env (start (Some binary) ∅)
     = (Raised ValueError, start (Some binary) ∅).
Proof. vm_compute. repeat split. Qed.

Lemma load_env_contract_witness :
  let content := "# gateway" +:+ Py.nl +:+ "WAHA_API_KEY = secret " +:+ Py.nl
                 +:+ "WAHA_BASE_URL=http://localhost:3000" in
  let w := start (Some content) {["WAHA_BASE_URL" := "https://waha.example"]} in
  environ (snd (waha_client._load_env w)) !! "WAHA_BASE_URL" = Some "https://waha.example"
  /\ environ (snd (waha_client._load_env w)) !! "WAHA_API_KEY" = Some "secret".
Proof.
  intros content w. split.
  - apply (proj1 (load_env_contract w)). vm_compute. reflexivity.
  - rewrite (proj1 (proj2 (load_env_contract w))).
    + vm_compute. reflexivity.
    + vm_compute. reflexivity.
    + vm_compute. reflexivity.
Defined.

(** ** argparse: who writes an attribute *)

Section attributes.
Import argparse.
Variables (d : string) (names : list string).

Lemma sub_defaults_other (ps : list positional) (ns : gmap string value) :
  forallb (other_dest d) ps = true -> sub_defaults ps ns !! d = ns !! d.
Proof.
  unfold sub_defaults. revert ns. induction ps as [|p ps IH]; simpl; [done|].
  intros ns [Hp Hps]%andb_prop. rewrite (IH _ Hps).
  apply lookup_insert_ne. unfold other_dest in Hp.
  intros E. rewrite E, String.eqb_refl in Hp. discriminate.
Qed.

Lemma append_other (d' tok : string) (ns : gmap string value) :
  negb (String.eqb d' d) = true -> append d' tok ns !! d = ns !! d.
Proof.
  intros Hne. assert (d' <> d) by (intros ->; rewrite String.eqb_refl in Hne; discriminate).
  unfold append. destruct (ns !! d') as [[]|]; by rewrite lookup_insert_ne.
Qed.

Lemma lookup_parser_in (tok : string) (table : list (string * list positional))
      (ps : list positional) :
  lookup_parser tok table = Some ps -> In (tok, ps) table.
Proof.
  induction table as [|[n qs] rest IH]; simpl; [discriminate|].
  destruct (String.eqb_spec n tok) as [->|]; [intros [= ->]; by left | right; auto].
Qed.

Lemma reserved_flag (opts : list optional) (tok : string) (o : optional) :
  reserved d names opts = true ->
  existsb (String.eqb tok) names = false ->
  find_flag tok opts = Some o -> opt_dest o <> d.
Proof.
  unfold reserved, find_flag. intros Hr Htok Hf Hd.
  apply find_some in Hf as [Hin Hflag].
  rewrite forallb_forall in Hr. specialize (Hr o Hin).
  rewrite Hd, String.eqb_refl in Hr. simpl in Hr.
  unfold has_flag in Hflag. apply existsb_exists in Hflag as (f & Hf & Heq).
  apply String.eqb_eq in Heq as <-.
  rewrite forallb_forall in Hr. specialize (Hr tok Hf). congruence.
Qed.

(** A command line that names none of the option strings reserved for
    [d] leaves the attribute as the state has it. *)
Lemma run_keeps (n : nat) :
  forall (argv : list string) (st : state) (ns : gmap string value),
    (length argv <= n)%nat ->
    reserved d names (st_optionals st) = true ->
    untouched d st = true ->
    forallb (fun tok => negb (existsb (String.eqb tok) names)) argv = true ->
    run st argv = Parsed ns ->
    ns !! d = st_ns st !! d.
Proof.
  induction n as [|n IH]; intros argv st ns Hlen Hres Hun Hargv Hrun.
  - destruct argv; [|simpl in Hlen; lia]. simpl in Hrun.
    destruct (st_positionals st); [|discriminate].
    destruct (st_subparsers st) as [sc|]; [destruct (sub_required sc)|];
      congruence.
  - destruct argv as [|tok rest]; simpl in Hrun.
    { destruct (st_positionals st); [|discriminate].
      destruct (st_subparsers st) as [sc|]; [destruct (sub_required sc)|];
        congruence. }
    simpl in Hlen, Hargv. apply andb_prop in Hargv as [Htok Hrest].
    apply negb_true_iff in Htok.
    unfold untouched in Hun. apply andb_prop in Hun as [Hun Hsub].
    apply andb_prop in Hun as [Hpos Hopen].
    destruct (option_like tok).
    + destruct (find_flag tok (st_optionals st)) as [o|] eqn:Hf; [|discriminate].
      pose proof (reserved_flag _ _ _ Hres Htok Hf) as Hd.
      destruct (opt_action o).
      * destruct rest as [|v rest']; [discriminate|].
        destruct (option_like v); [discriminate|].
        destruct (convert (opt_type o) v) as [x|]; [|discriminate].
        simpl in Hrest. apply andb_prop in Hrest as [_ Hrest'].
        apply IH in Hrun; [rewrite Hrun; simpl; by rewrite lookup_insert_ne
                          | simpl in Hlen; lia | exact Hres
                          | unfold untouched; simpl; by rewrite Hpos, Hsub
                          | exact Hrest'].
      * apply IH in Hrun; [rewrite Hrun; simpl; by rewrite lookup_insert_ne
                          | lia | exact Hres
                          | unfold untouched; simpl; by rewrite Hpos, Hsub
                          | exact Hrest].
    + destruct (st_open st) as [d'|] eqn:Ho.
      * apply IH in Hrun; [rewrite Hrun; simpl; by apply append_other
                          | lia | exact Hres
                          | unfold untouched; simpl; by rewrite Hpos, Hopen, Hsub
                          | exact Hrest].
      * destruct (st_positionals st) as [|p ps] eqn:Hps.
        -- destruct (st_subparsers st) as [sc|] eqn:Hsc; [|discriminate].
           destruct (lookup_parser tok (sub_parsers sc)) as [qs|] eqn:Hl; [|discriminate].
           apply andb_prop in Hsub as [Hsd Htable].
           rewrite forallb_forall in Htable.
           pose proof (Htable _ (lookup_parser_in _ _ _ Hl)) as Hqs. simpl in Hqs.
           apply IH in Hrun; [rewrite Hrun; simpl
                             | lia | reflexivity
                             | unfold untouched; simpl; by rewrite Hqs
                             | exact Hrest].
           rewrite (sub_defaults_other _ _ Hqs).
           apply lookup_insert_ne. intros E. rewrite E, String.eqb_refl in Hsd. discriminate.
        -- simpl in Hpos. apply andb_prop in Hpos as [Hp Hps'].
           assert (pos_dest p <> d).
           { unfold other_dest in Hp. intros E. rewrite E, String.eqb_refl in Hp. discriminate. }
           destruct (negb (allowed p tok)); [discriminate|].
           destruct (pos_nargs p).
           ++ apply IH in Hrun; [rewrite Hrun; simpl; by rewrite lookup_insert_ne
                                | lia | exact Hres
                                | unfold untouched; simpl; by rewrite Hps', Hsub
                                | exact Hrest].
           ++ destruct ps; [|discriminate].
              apply IH in Hrun; [rewrite Hrun; simpl; by rewrite lookup_insert_ne
                                | lia | exact Hres
                                | unfold untouched, other_dest in *; simpl;
                                  by rewrite Hp, Hsub
                                | exact Hrest].
Qed.

End attributes.

Section session_option.
Import argparse.

Lemma names_absent (names argv : list string) :
  (forall tok, In tok names -> ~ In tok argv) ->
  forallb (fun tok => negb (existsb (String.eqb tok) names)) argv = true.
Proof.
  intros Hn. apply forallb_forall. intros tok Hin.
  apply negb_true_iff. destruct (existsb _ names) eqn:E; [|done].
  apply existsb_exists in E as (f & Hf & Heq). apply String.eqb_eq in Heq as <-.
  by destruct (Hn tok Hf).
Qed.

(** An attribute keeps its default when the command line names none of
    the option strings that write it. *)
Lemma parse_keeps_default (p : parser) (d : string) (names argv : list string)
      (ns : gmap string value) :
  reserved d names (optionals p) = true ->
  untouched d (initial p) = true ->
  (forall tok, In tok names -> ~ In tok argv) ->
  parse_args p argv = Parsed ns ->
  ns !! d = defaults p !! d.
Proof.
  intros Hres Hun Hn. unfold parse_args.
  destruct (forallb (declared p) argv); [|discriminate].
  intros Hrun.
  by apply (run_keeps d names (length argv) argv (initial p) ns
              (le_n _) Hres Hun (names_absent _ _ Hn)) in Hrun.
Qed.

(** An option given first, with its value: the attribute is the value
    when the rest of the command line does not name the option again. *)
Lemma parse_takes_value (p : parser) (o : optional) (names rest : list string)
      (flag v : string) (ns : gmap string value) :
  option_like flag = true ->
  find_flag flag (optionals p) = Some o ->
  opt_action o = store -> opt_type o = as_str ->
  reserved (opt_dest o) names (optionals p) = true ->
  untouched (opt_dest o) (initial p) = true ->
  (forall tok, In tok names -> ~ In tok rest) ->
  parse_args p (flag :: v :: rest) = Parsed ns ->
  ns !! opt_dest o = Some (VStr v).
Proof.
  intros Hl Hf Ha Ht Hres Hun Hn. unfold parse_args.
  destruct (forallb (declared p) (flag :: v :: rest)); [|discriminate].
  simpl. rewrite Hl, Hf, Ha, Ht. destruct (option_like v); [discriminate|]. simpl.
  intros Hrun.
  eapply (run_keeps (opt_dest o) names) in Hrun;
    [rewrite Hrun; simpl; by rewrite lookup_insert_eq
    | apply le_n | exact Hres | exact Hun | by apply names_absent].
Qed.

(** C5, as amended.  The parsers of groups, contacts, list_chats,
    send_message and send_media declare the option -s/--session, stored
    as the attribute session with the default "default": a command line
    that parses and names neither option string leaves the attribute at
    "default", and one that starts with the option and a value sets it to
    the value.  The parser of session declares no option at all (the
    session is the positional argument name of its commands). *)
Theorem session_option_default :
  Forall (fun p =>
            find_flag "-s" (optionals p) = Some session_option
            /\ find_flag "--session" (optionals p) = Some session_option
            /\ (forall argv ns,
                   parse_args p argv = Parsed ns ->
                   ~ In "-s" argv -> ~ In "--session" argv ->
                   ns !! "session" = Some (VStr "default"))
            /\ (forall flag v rest ns,
                   flag = "-s" \/ flag = "--session" ->
                   parse_args p (flag :: v :: rest) = Parsed ns ->
                   ~ In "-s" rest -> ~ In "--session" rest ->
                   ns !! "session" = Some (VStr v)))
         session_scripts
  /\ opt_dest session_option = "session"
  /\ opt_default session_option = VStr "default"
  /\ optionals session.parser = [].
Proof.
  split; [|by repeat split].
  assert (Hnames : forall l : list string,
             ~ In "-s" l -> ~ In "--session" l ->
             forall tok, In tok ["-s"; "--session"] -> ~ In tok l).
  { intros l H1 H2 tok [<-|[<-|[]]]; done. }
  unfold session_scripts.
  repeat apply List.Forall_cons; try apply List.Forall_nil;
    (split; [reflexivity|]; split; [reflexivity|]; split;
     [ intros argv ns Hp H1 H2;
       apply (parse_keeps_default _ "session" ["-s"; "--session"]) in Hp;
       [ rewrite Hp; by vm_compute | reflexivity | reflexivity | by apply Hnames ]
     | intros flag v rest ns Hflag Hp H1 H2;
       apply (parse_takes_value _ session_option ["-s"; "--session"]) in Hp;
       [ exact Hp
       | by destruct Hflag as [-> | ->]
       | by destruct Hflag as [-> | ->]
       | reflexivity | reflexivity | reflexivity | reflexivity
       | by apply Hnames ] ]).
Qed.

End session_option.

(** The parser of session.py declares no option: neither -s nor --session
    is one of its option strings, and the namespace of a command line that
    parses has no attribute session (C5 as it was stated fails here). *)
Lemma session_script_has_no_session_option :
  argparse.optionals session.parser = []
  /\ argparse.find_flag "-s" (argparse.optionals session.parser) = None
  /\ argparse.find_flag "--session" (argparse.optionals session.parser) = None
  /\ argparse.parse_args session.parser ["info"; "default"]
     = argparse.Parsed (cpython.parsed session.parser ["info"; "default"])
  /\ cpython.parsed session.parser ["info"; "default"] !! "name" = Some (VStr "default")
  /\ cpython.parsed session.parser ["info"; "default"] !! "session" = None.
Proof. vm_compute. repeat split. Qed.

(** Command lines of the five scripts, without and with the option. *)
Example session_option_parses :
  cpython.parsed groups.parser ["list"] !! "session" = Some (VStr "default")
  /\ cpython.parsed groups.parser ["--session"; "work"; "list"] !! "session"
     = Some (VStr "work")
  /\ cpython.parsed contacts.parser ["check"; "628123"] !! "session" = Some (VStr "default")
  /\ cpython.parsed list_chats.parser ["-s"; "work"; "-l"; "5"; "overview"] !! "session"
     = Some (VStr "work")
  /\ cpython.parsed send_message.parser ["628123@c.us"; "hello"] !! "session"
     = Some (VStr "default")
  /\ cpython.parsed send_media.parser ["image"; "628123@c.us"; "http://x/y.png"; "-s"; "work"]
       !! "session" = Some (VStr "work").
Proof. vm_compute. repeat split. Qed.

(** The empty string on the command line: the attribute is the empty
    string, not None, and the payload is the one of the command line
    without the option. *)
Example empty_string_on_the_command_line :
  cpython.parsed send_message.parser ["628123@c.us"; "hello"; "--reply-to"; ""]
    !! "reply_to" = Some (VStr "")
  /\ cpython.parsed send_message.parser ["628123@c.us"; "hello"] !! "reply_to"
     = Some VNone
  /\ send_message.payload
       (cpython.parsed send_message.parser ["628123@c.us"; "hello"; "--reply-to"; ""])
     = send_message.payload (cpython.parsed send_message.parser ["628123@c.us"; "hello"])
  /\ send_media.payload
       (cpython.parsed send_media.parser
          ["voice"; "628123@c.us"; "http://x/a.ogg"; "--caption"; ""; "-f"; ""; "-m"; ""])
     = [("chatId", VStr "628123@c.us");
        ("file", VDict [("url", VStr "http://x/a.ogg")]);
        ("session", VStr "default");
        ("convert", VBool true)].
Proof. vm_compute. repeat split. Qed.

(** * Further properties *)

(** ** Every command is one request at most *)

Section effects.
Context `{Platform}.

Lemma prints_only_ret {A} (a : A) : prints_only (ret a).
Proof. intros w. exists []. simpl. by rewrite write_stdout_nil. Qed.

Lemma prints_only_raise {A} (e : exn) : prints_only (@raise A e).
Proof. intros w. exists []. simpl. by rewrite write_stdout_nil. Qed.

Lemma prints_only_print (s : string) : prints_only (print s).
Proof. intros w. by exists [s]. Qed.

Lemma prints_only_pp (v : value) : prints_only (waha_client.pp v).
Proof. apply prints_only_print. Qed.

Lemma prints_only_bind {A B} (m : M A) (k : A -> M B) :
  prints_only m -> (forall a, prints_only (k a)) -> prints_only (bind m k).
Proof.
  intros Hm Hk w. unfold bind. destruct (Hm w) as [l1 H1].
  destruct (m w) as [[a|n|e] w1]; simpl in *; subst w1.
  - destruct (Hk a (write_stdout l1 w)) as [l2 H2]. exists (l1 ++ l2)%list.
    by rewrite H2, write_stdout_app.
  - by exists l1.
  - by exists l1.
Qed.

Lemma prints_only_get (v : value) (k : string) (d : value) : prints_only (get v k d).
Proof. destruct v; simpl; (apply prints_only_raise || apply prints_only_ret). Qed.

Lemma prints_only_slice (n : nat) (v : value) : prints_only (slice n v).
Proof. destruct v; simpl; (apply prints_only_raise || apply prints_only_ret). Qed.

Lemma prints_only_for_each {A} (xs : list A) (body : A -> M unit) :
  (forall x, prints_only (body x)) -> prints_only (for_each xs body).
Proof.
  intros Hb. induction xs as [|x xs IH]; simpl.
  - apply prints_only_ret.
  - apply prints_only_bind; [apply Hb | intros _; exact IH].
Qed.

Lemma prints_only_if {A} (b : bool) (m1 m2 : M A) :
  prints_only m1 -> prints_only m2 -> prints_only (if b then m1 else m2).
Proof. by destruct b. Qed.

End effects.

Ltac prints :=
  repeat first
    [ apply prints_only_ret | apply prints_only_raise | apply prints_only_print
    | apply prints_only_pp | apply prints_only_get | apply prints_only_slice
    | apply prints_only_for_each; intros ?
    | apply prints_only_if
    | apply prints_only_bind; [|intros ?] ].

Section one_fetch.
Context `{Platform} (cfg : waha_client.config).

Lemma prints_only_listing (body : value -> M unit) (noun : string) (data : value) :
  (forall x, prints_only (body x)) ->
  prints_only (match data with
               | VList items =>
                   for_each items body ;;; print (count_line (length items) noun)
               | _ => waha_client.pp data
               end).
Proof. intros Hb. destruct data; prints. apply Hb. Qed.

Lemma print_group_prints x : prints_only (groups.print_group x).
Proof. unfold groups.print_group. prints. Qed.
Lemma print_participant_prints x : prints_only (groups.print_participant x).
Proof. unfold groups.print_participant. prints. Qed.
Lemma print_contact_prints x : prints_only (contacts.print_contact x).
Proof. unfold contacts.print_contact. prints. Qed.
Lemma print_chat_prints x : prints_only (list_chats.print_chat x).
Proof. unfold list_chats.print_chat. prints. Qed.
Lemma print_overview_prints x : prints_only (list_chats.print_overview x).
Proof. unfold list_chats.print_overview. prints. Qed.
Lemma print_message_prints x : prints_only (list_chats.print_message x).
Proof. unfold list_chats.print_message. prints. Qed.
Lemma print_session_prints x : prints_only (session.print_session x).
Proof. unfold session.print_session. prints. Qed.

Ltac one_fetch :=
  right; eexists _, _; (split; [|split]); [ | | intros w; reflexivity];
  [ reflexivity
  | intros v; cbv beta;
    first [ apply prints_only_listing;
            first [ apply print_group_prints | apply print_participant_prints
                  | apply print_contact_prints | apply print_chat_prints
                  | apply print_overview_prints | apply print_message_prints
                  | apply print_session_prints ]
          | prints ] ].

Lemma groups_main_fetch args : at_most_one_fetch cfg (groups.main cfg args).
Proof.
  unfold groups.main.
  destruct (is_str args.["command"] "list"); [one_fetch|].
  destruct (is_str args.["command"] "info"); [one_fetch|].
  destruct (is_str args.["command"] "participants"); [one_fetch|].
  destruct (is_str args.["command"] "create"); [|left; by exists (Return tt)].
  destruct (args.["participants"]); try (left; by exists (Raised TypeError)).
  one_fetch.
Qed.

Lemma send_message_main_fetch args : at_most_one_fetch cfg (send_message.main cfg args).
Proof. unfold send_message.main. one_fetch. Qed.

Lemma send_media_main_fetch args : at_most_one_fetch cfg (send_media.main cfg args).
Proof.
  unfold send_media.main, send_media.endpoint.
  destruct (args.["media_type"]); try (left; by exists (Raised KeyError)).
  destruct (List.find _ send_media.ENDPOINTS); [|left; by exists (Raised KeyError)].
  one_fetch.
Qed.

Lemma contacts_main_fetch args : at_most_one_fetch cfg (contacts.main cfg args).
Proof.
  unfold contacts.main.
  destruct (is_str args.["command"] "list"); [one_fetch|].
  destruct (is_str args.["command"] "info"); [one_fetch|].
  destruct (is_str args.["command"] "check").
  { one_fetch. destruct v; prints. }
  destruct (is_str args.["command"] "block"); [one_fetch|].
  destruct (is_str args.["command"] "unblock"); [one_fetch|].
  left; by exists (Return tt).
Qed.

Lemma list_chats_main_fetch args : at_most_one_fetch cfg (list_chats.main cfg args).
Proof.
  unfold list_chats.main, list_chats.list_chats, list_chats.list_overview,
    list_chats.list_messages.
  destruct (is_str args.["command"] "chats"); [one_fetch|].
  destruct (is_str args.["command"] "overview"); [one_fetch|].
  destruct (is_str args.["command"] "messages").
  { one_fetch. destruct v; prints. }
  left; by exists (Return tt).
Qed.

Lemma session_main_fetch args : at_most_one_fetch cfg (session.main cfg args).
Proof.
  unfold session.main.
  destruct (is_str args.["command"] "list"); [one_fetch|].
  destruct (is_str args.["command"] "info"); [one_fetch|].
  destruct (existsb _ _); [one_fetch|].
  left; by exists (Return tt).
Qed.

Lemma mains_fetch args :
  Forall (fun main => at_most_one_fetch cfg (main cfg args)) mains.
Proof.
  unfold mains. repeat apply List.Forall_cons; try apply List.Forall_nil.
  - apply groups_main_fetch.
  - apply send_message_main_fetch.
  - apply send_media_main_fetch.
  - apply contacts_main_fetch.
  - apply list_chats_main_fetch.
  - apply session_main_fetch.
Qed.

End one_fetch.

Section exchanges.
Context `{Platform} (cfg : waha_client.config).
Implicit Types (args : gmap string value) (w : world) (r : request).

(** The four ways an exchange with the gateway ends. *)
Lemma fetch_then_cases {A} r (k : value -> M A) w :
  fetch_then r k w
  = match gateway r with
    | None => (Raised TransportError, record_request r w)
    | Some resp =>
        if 400 <=? status_code resp
        then (SystemExit 1, write_stderr [http_error_line resp] (record_request r w))
        else match decoded resp with
             | Some v => k v (record_request r w)
             | None => (Raised DecodeError, record_request r w)
             end
    end.
Proof.
  unfold fetch_then, bind at 1, send. destruct (gateway r) as [resp|]; [|reflexivity].
  unfold waha_client.check, waha_client.die, waha_client.resp_json, bind.
  destruct (400 <=? status_code resp); simpl; [reflexivity|].
  by destruct (decoded resp).
Qed.

Lemma fetch_then_sent {A} r (k : value -> M A) w :
  (forall v, prints_only (k v)) ->
  sent (snd (fetch_then r k w)) = (sent w ++ [r])%list
  /\ environ (snd (fetch_then r k w)) = environ w.
Proof.
  intros Hk. rewrite fetch_then_cases.
  destruct (gateway r) as [resp|]; [|done].
  destruct (400 <=? status_code resp); [done|].
  destruct (decoded resp) as [v|]; [|done].
  destruct (Hk v (record_request r w)) as [lines ->]. done.
Qed.

Lemma not_longer {A} (l : list A) (x : A) : l <> (l ++ [x])%list.
Proof.
  intros E. apply (f_equal length) in E. rewrite length_app in E. simpl in E. lia.
Qed.

(** X1.  A command sends one request at most, whatever the answers of the
    gateway: the list of requests is left as it was or gets one more, and
    that request goes through the client of the configuration, with its
    base URL, the API key in the header X-Api-Key, the timeout of 30 and
    certificate checks off.  No command changes the environment. *)
Theorem one_request_per_command args w :
  Forall (fun main =>
            environ (snd (main cfg args w)) = environ w
            /\ (sent (snd (main cfg args w)) = sent w
                \/ exists r,
                    sent (snd (main cfg args w)) = (sent w ++ [r])%list
                    /\ base_url (req_client r) = waha_client.BASE_URL cfg
                    /\ headers (req_client r)
                       = [("X-Api-Key", waha_client.API_KEY cfg)]
                    /\ timeout (req_client r) = 30
                    /\ verify (req_client r) = false))
         mains.
Proof.
  eapply List.Forall_impl; [|apply (mains_fetch cfg args)].
  intros main [[o Ho]|(r & k & Hr & Hk & Hm)].
  - rewrite Ho. simpl. auto.
  - rewrite Hm. destruct (fetch_then_sent r k w Hk) as [Hs He].
    split; [exact He|]. right. exists r. rewrite Hr. done.
Qed.

(** X2.  When the request a command sent is answered with a status of 400
    or more, the command ends there: exit status 1, the one line of the
    checker on stderr, and nothing on stdout, whichever command it is. *)
Theorem http_error_is_fatal args w r (resp : response) :
  gateway r = Some resp ->
  400 <= status_code resp ->
  Forall (fun main =>
            sent (snd (main cfg args w)) = (sent w ++ [r])%list ->
            main cfg args w
            = (SystemExit 1, write_stderr [http_error_line resp] (record_request r w)))
         mains.
Proof.
  intros Hg Hs. eapply List.Forall_impl; [|apply (mains_fetch cfg args)].
  intros main [[o Ho]|(r' & k & _ & Hk & Hm)].
  - rewrite Ho. simpl. intros E. by destruct (not_longer _ _ E).
  - rewrite Hm. destruct (fetch_then_sent r' k w Hk) as [-> _].
    intros E%app_inv_head. injection E as ->.
    rewrite fetch_then_cases, Hg.
    destruct (Z.leb_spec 400 (status_code resp)); [reflexivity | lia].
Qed.

(** X3.  When the request a command sent gets no response, or one with a
    status below 400 whose body is no JSON, the command ends with the
    exception and has printed nothing, on either stream. *)
Theorem failed_exchange_prints_nothing args w r :
  gateway r = None
  \/ (exists resp, gateway r = Some resp /\ status_code resp < 400
                   /\ decoded resp = None) ->
  Forall (fun main =>
            sent (snd (main cfg args w)) = (sent w ++ [r])%list ->
            main cfg args w
            = (Raised (match gateway r with
                       | Some _ => DecodeError
                       | None => TransportError
                       end),
               record_request r w))
         mains.
Proof.
  intros Hg. eapply List.Forall_impl; [|apply (mains_fetch cfg args)].
  intros main [[o Ho]|(r' & k & _ & Hk & Hm)].
  - rewrite Ho. simpl. intros E. by destruct (not_longer _ _ E).
  - rewrite Hm. destruct (fetch_then_sent r' k w Hk) as [-> _].
    intros E%app_inv_head. injection E as ->.
    rewrite fetch_then_cases.
    destruct Hg as [-> | (resp & -> & Hs & Hd)]; [reflexivity|].
    destruct (Z.leb_spec 400 (status_code resp)); [lia|]. by rewrite Hd.
Qed.

End exchanges.

Lemma http_error_is_fatal_witness :
  let H := cpython.platform (cpython.answer 500 (VDict [("message", VStr "boom")])) in
  let args := cpython.parsed groups.parser ["list"] in
  groups.main cpython.local args (start None ∅)
  = (SystemExit 1,
     write_stderr ["Error: HTTP 500: {'message': 'boom'}"]
       (record_request (groups.list_request cpython.local args) (start None ∅))).
Proof.
  intros H args.
  apply (List.Forall_inv
           (@http_error_is_fatal H cpython.local args (start None ∅)
              (groups.list_request cpython.local args)
              {| status_code := 500; text := EmptyString;
                 decoded := Some (VDict [("message", VStr "boom")]) |}
              eq_refl ltac:(simpl; lia))).
  vm_compute. reflexivity.
Defined.

Lemma failed_exchange_prints_nothing_witness :
  let H := cpython.platform cpython.down in
  let args := cpython.parsed session.parser ["list"] in
  session.main cpython.local args (start None ∅)
  = (Raised TransportError,
     record_request (session.list_request cpython.local) (start None ∅)).
Proof.
  intros H args.
  pose proof (@failed_exchange_prints_nothing H cpython.local args (start None ∅)
                (session.list_request cpython.local) (or_introl eq_refl)) as T.
  unfold mains in T. do 5 apply List.Forall_inv_tail in T.
  apply List.Forall_inv in T. apply T. vm_compute. reflexivity.
Defined.

(** ** The listings, for any answer *)

Section any_listing.
Context `{Platform} (cfg : waha_client.config).
Implicit Types (args : gmap string value) (items : list value) (w : world).

(** X4.  A listing command whose answer decodes to something that is no
    list prints the dump of the value and nothing else, and ends well. *)
Theorem listing_falls_back_to_dump args (data : value) w :
  is_list data = false ->
  Forall (fun '(command, main, request, _) =>
            args.["command"] = VStr command ->
            succeeds request data ->
            main cfg args w
            = (Return tt, write_stdout [json_dumps data] (record_request request w)))
         (listings cfg args).
Proof.
  intros Hd. unfold listings.
  repeat apply List.Forall_cons; try apply List.Forall_nil; intros Hc Hs;
    unfold groups.main, contacts.main, list_chats.main, session.main,
      list_chats.list_chats, list_chats.list_overview, list_chats.list_messages;
    run_listing Hc Hs; by destruct data.
Qed.

(** A loop that prints one line for an item that is a dict, and the count
    line after it. *)
Lemma line_loop (line : list (string * value) -> string) (body : value -> M unit)
      (noun : string) items w :
  (forall fields w', body (VDict fields) w'
                     = (Return tt, write_stdout [line fields] w')) ->
  (forall x w', is_dict x = false -> body x w' = (Raised AttributeError, w')) ->
  (for_each items body ;;; print (count_line (length items) noun)) w
  = (if forallb is_dict items then Return tt else Raised AttributeError,
     write_stdout
       (map (item_line line) (leading is_dict items)
        ++ (if forallb is_dict items then [count_line (length items) noun] else []))
       w).
Proof.
  intros Hd Ho. unfold bind.
  rewrite (for_each_prints is_dict (fun x => [item_line line x]) (fun _ => AttributeError)).
  - rewrite concat_singletons. destruct (forallb is_dict items) eqn:E.
    + apply find_none_forallb in E as ->. unfold print. by rewrite write_stdout_app.
    + destruct (List.find _ items) eqn:Hf; [by rewrite app_nil_r|].
      apply find_none_forallb in Hf. congruence.
  - intros [] w' E; try discriminate. apply Hd.
  - intros x w' E. by apply Ho.
Qed.

(** X5.  The five listings that print one line for an item stop at the
    first item that is no dict: the lines of the items before it are
    printed, then AttributeError is raised and there is no count entry.
    When every item is a dict, all the lines and the count entry are
    printed; for the empty list that is the count entry alone. *)
Theorem listing_stops_at_first_non_dict args items w :
  Forall (fun '(command, main, request, noun, line) =>
            args.["command"] = VStr command ->
            succeeds request (VList items) ->
            main cfg args w
            = (if forallb is_dict items then Return tt else Raised AttributeError,
               write_stdout
                 (map (item_line line) (leading is_dict items)
                  ++ (if forallb is_dict items
                      then [count_line (length items) noun] else []))
                 (record_request request w)))
         (line_listings cfg args).
Proof.
  unfold line_listings.
  repeat apply List.Forall_cons; try apply List.Forall_nil; intros Hc Hs;
    unfold groups.main, contacts.main, list_chats.main, session.main,
      list_chats.list_chats;
    run_listing Hc Hs; apply line_loop;
    first [ apply print_group_dict | apply print_participant_dict
          | apply print_contact_dict | apply print_chat_dict
          | apply print_session_dict
          | intros x w' E; by destruct x ].
Qed.

End any_listing.

Lemma listing_falls_back_to_dump_witness :
  let data := VDict [("error", VStr "session not found")] in
  let H := cpython.platform (cpython.answer 200 data) in
  let args := cpython.parsed groups.parser ["-s"; "work"; "list"] in
  stdout (snd (groups.main cpython.local args (start None ∅)))
  = [cpython.dumps data].
Proof.
  intros data H args.
  assert (Hs : succeeds (groups.list_request cpython.local args) data).
  { eexists. split; [reflexivity|]. split; [simpl; lia | reflexivity]. }
  rewrite (List.Forall_inv
             (@listing_falls_back_to_dump H cpython.local args data (start None ∅)
                eq_refl) eq_refl Hs).
  reflexivity.
Defined.

(** ** list_chats: the preview of the overview *)

Section prefixes.

Lemma prefix_length (n : nat) (s : string) :
  String.length (Py.prefix n s) = Nat.min n (String.length s).
Proof.
  revert s. induction n as [|n IH]; intros [|c s]; simpl; try reflexivity.
  by rewrite IH.
Qed.

Lemma prefix_short (n : nat) (s : string) :
  (String.length s <= n)%nat -> Py.prefix n s = s.
Proof.
  revert s. induction n as [|n IH]; intros [|c s]; simpl; try reflexivity.
  - lia.
  - intros Hl. rewrite IH; [reflexivity | lia].
Qed.

Lemma prefix_split (n : nat) (s : string) :
  exists rest, s = Py.prefix n s +:+ rest.
Proof.
  revert s. induction n as [|n IH]; intros [|c s]; simpl.
  - by exists EmptyString.
  - by exists (String c s).
  - by exists EmptyString.
  - destruct (IH s) as [rest Hr]. exists rest.
    change (String c s = String c (Py.prefix n s +:+ rest)). by rewrite <- Hr.
Qed.

Lemma prefix_empty (n : nat) (s : string) :
  Py.is_empty (Py.prefix (S n) s) = Py.is_empty s.
Proof. by destruct s. Qed.

Context `{Platform}.

(** X6.  The overview prints, under the line of a chat whose last message
    is a dict with a string body, the first 80 characters of the body: the
    whole body when it has 80 characters at most, and no preview line at
    all when the body is empty.  A chat with no last message, or a falsy
    one, gets its line alone. *)
Theorem overview_preview_is_cut_at_80 (chat : list (string * value)) (w : world) :
  (forall last s,
      dict_lookup "lastMessage" chat = Some (VDict last) ->
      dict_lookup "body" last = Some (VStr s) ->
      list_chats.print_overview (VDict chat) w
      = (Return tt,
         write_stdout
           (list_chats.chat_line chat
            :: if Py.is_empty s then [] else ["    -> " +:+ Py.prefix 80 s])
           w)
      /\ String.length (Py.prefix 80 s) = Nat.min 80 (String.length s)
      /\ (exists rest, s = Py.prefix 80 s +:+ rest)
      /\ ((String.length s <= 80)%nat -> Py.prefix 80 s = s))
  /\ (truthy (default VNone (dict_lookup "lastMessage" chat)) = false ->
      list_chats.print_overview (VDict chat) w
      = (Return tt, write_stdout [list_chats.chat_line chat] w)).
Proof.
  split.
  - intros last s Hl Hb. repeat split.
    + apply print_overview_ok. unfold list_chats.overview_lines, list_chats.preview.
      rewrite Hl. destruct last as [|kv last']; [discriminate|].
      change (py_or (default VNone (Some (VDict (kv :: last')))) (VDict []))
        with (VDict (kv :: last')).
      cbv iota beta. rewrite Hb. destruct s as [|c s]; reflexivity.
    + apply prefix_length.
    + apply prefix_split.
    + apply prefix_short.
  - intros Hf. apply print_overview_ok.
    unfold list_chats.overview_lines, list_chats.preview, py_or. rewrite Hf.
    reflexivity.
Qed.

End prefixes.

Example overview_preview_of_a_long_message :
  let body := "0123456789012345678901234567890123456789012345678901234567890123456789012345678901234567890" in
  let chat := [("id", VStr "628123@c.us"); ("name", VStr "Bob");
               ("lastMessage", VDict [("body", VStr body)])] in
  stdout (snd (@list_chats.print_overview (cpython.platform cpython.down)
                 (VDict chat) (start None ∅)))
  = ["  628123@c.us  Bob";
     "    -> 01234567890123456789012345678901234567890123456789012345678901234567890123456789"].
Proof. vm_compute. reflexivity. Qed.

(** ** waha_client: what the loader puts in the environment *)

Section trimming.

Lemma append_nil (b : string) : EmptyString +:+ b = b.
Proof. reflexivity. Qed.

Lemma append_cons (c : ascii) (a b : string) : String c a +:+ b = String c (a +:+ b).
Proof. reflexivity. Qed.

Lemma lstrip_head (s : string) :
  match Py.lstrip s with
  | EmptyString => True
  | String c _ => Py.is_space c = false
  end.
Proof.
  induction s as [|c s IH]; simpl; [done|].
  destruct (Py.is_space c) eqn:E; [exact IH | simpl; exact E].
Qed.

Lemma lstrip_fixed (s : string) :
  match s with
  | EmptyString => True
  | String c _ => Py.is_space c = false
  end -> Py.lstrip s = s.
Proof. destruct s as [|c s]; simpl; [done|]. by intros ->. Qed.

Lemma rstrip_cons (c : ascii) (s : string) :
  Py.is_space c = false -> Py.rstrip (String c s) = String c (Py.rstrip s).
Proof. intros E. simpl. by rewrite E, andb_false_r. Qed.

Lemma rstrip_idempotent (s : string) : Py.rstrip (Py.rstrip s) = Py.rstrip s.
Proof.
  induction s as [|c s IH]; simpl; [done|].
  destruct (Py.is_empty (Py.rstrip s) && Py.is_space c) eqn:E; [done|].
  simpl. rewrite IH, E. done.
Qed.

Lemma lstrip_rstrip (s : string) :
  Py.lstrip (Py.rstrip (Py.lstrip s)) = Py.rstrip (Py.lstrip s).
Proof.
  pose proof (lstrip_head s) as Hh. destruct (Py.lstrip s) as [|c t]; [done|].
  rewrite (rstrip_cons _ _ Hh). simpl. by rewrite Hh.
Qed.

Lemma strip_idempotent (s : string) : Py.strip (Py.strip s) = Py.strip s.
Proof. unfold Py.strip. by rewrite lstrip_rstrip, rstrip_idempotent. Qed.

Lemma trimmed_lstrip (s : string) : trimmed s -> Py.lstrip s = s.
Proof. unfold trimmed, Py.strip. intros <-. apply lstrip_rstrip. Qed.

Lemma trimmed_rstrip (s : string) : trimmed s -> Py.rstrip s = s.
Proof. unfold trimmed, Py.strip. intros <-. apply rstrip_idempotent. Qed.

Lemma trimmed_head (s : string) :
  trimmed s ->
  match s with
  | EmptyString => True
  | String c _ => Py.is_space c = false
  end.
Proof. intros Ht. rewrite <- (trimmed_lstrip s Ht). apply lstrip_head. Qed.

Lemma lstrip_blank (ws s : string) :
  blank ws = true -> Py.lstrip (ws +:+ s) = Py.lstrip s.
Proof.
  induction ws as [|c ws IH]; rewrite ?append_nil, ?append_cons; simpl; [done|].
  intros [-> Hws]%andb_prop. by apply IH.
Qed.

Lemma rstrip_blank (ws : string) : blank ws = true -> Py.rstrip ws = EmptyString.
Proof.
  induction ws as [|c ws IH]; simpl; [done|].
  intros [-> Hws]%andb_prop. by rewrite (IH Hws).
Qed.

Lemma rstrip_app (a b : string) :
  Py.rstrip (a +:+ b)
  = if Py.is_empty (Py.rstrip b) then Py.rstrip a else a +:+ Py.rstrip b.
Proof.
  induction a as [|c a IH]; rewrite ?append_nil, ?append_cons; simpl.
  - by destruct (Py.rstrip b).
  - rewrite IH. destruct (Py.is_empty (Py.rstrip b)) eqn:E; [done|].
    assert (Py.is_empty (a +:+ Py.rstrip b) = false) as ->; [|done].
    destruct a; [exact E | done].
Qed.

Lemma lstrip_all_blank (r : string) : blank r = true -> Py.lstrip r = EmptyString.
Proof.
  induction r as [|c r IH]; simpl; [done|].
  intros [-> Hr]%andb_prop. by apply IH.
Qed.

Lemma blank_no_char (c : ascii) (ws : string) :
  Py.is_space c = false -> blank ws = true -> Py.contains c ws = false.
Proof.
  intros Hc. induction ws as [|a ws IH]; simpl; [done|].
  intros [Ha Hws]%andb_prop. rewrite (IH Hws), orb_false_r.
  apply Ascii.eqb_neq. intros ->. congruence.
Qed.

Lemma strip_padded (l s r : string) :
  blank l = true -> blank r = true -> trimmed s ->
  Py.strip (l +:+ s +:+ r) = s.
Proof.
  intros Hl Hr Hs. unfold Py.strip. rewrite (lstrip_blank _ _ Hl).
  pose proof (trimmed_head s Hs) as Hh. destruct s as [|c s].
  - rewrite append_nil. by rewrite (lstrip_all_blank r Hr).
  - rewrite append_cons, lstrip_fixed by exact Hh.
    rewrite <- append_cons, rstrip_app, (rstrip_blank _ Hr).
    simpl Py.is_empty. cbv iota. by apply trimmed_rstrip.
Qed.

End trimming.

Section bindings.
Implicit Types (w : world) (line k v : string).

Lemma append_empty (s : string) : s +:+ EmptyString = s.
Proof. induction s as [|c s IH]; [done|]. by rewrite append_cons, IH. Qed.

Lemma append_assoc (a b c : string) : (a +:+ b) +:+ c = a +:+ b +:+ c.
Proof. induction a as [|x a IH]; [done|]. by rewrite !append_cons, IH. Qed.

Lemma partition_at (c : ascii) (a b : string) :
  Py.contains c a = false ->
  Py.partition c (a +:+ String c b) = (a, String c EmptyString, b).
Proof.
  induction a as [|x a IH]; rewrite ?append_nil, ?append_cons; simpl.
  - by rewrite Ascii.eqb_refl.
  - intros [-> Ha]%orb_false_elim. by rewrite (IH Ha).
Qed.

(** Blanks around a string do not count. *)
Lemma strip_pad (l s r : string) :
  blank l = true -> blank r = true -> Py.strip (l +:+ s +:+ r) = Py.strip s.
Proof.
  intros Hl Hr. unfold Py.strip. rewrite (lstrip_blank _ _ Hl).
  assert (Py.lstrip (s +:+ r)
          = if Py.is_empty (Py.lstrip s) then EmptyString else Py.lstrip s +:+ r) as ->.
  { induction s as [|c s IH]; rewrite ?append_nil, ?append_cons; simpl.
    - by apply lstrip_all_blank.
    - destruct (Py.is_space c); [exact IH | by rewrite append_cons]. }
  destruct (Py.lstrip s) as [|c t]; [reflexivity|]. simpl Py.is_empty. cbv iota.
  rewrite rstrip_app, (rstrip_blank _ Hr). reflexivity.
Qed.

(** What a line binds is a key that is not empty, has no [=] and no blank
    at either end, and a value with no blank at either end. *)
Lemma binding_clean line k v :
  waha_client.binding line = Some (k, v) ->
  Py.is_empty k = false /\ Py.contains "=" k = false /\ trimmed k /\ trimmed v.
Proof.
  unfold waha_client.binding. destruct (_ || _); [discriminate|].
  destruct (Py.contains "=" (Py.strip line)) eqn:E.
  - destruct (partition_found "=" _ E) as (k' & v' & -> & _ & Hk).
    destruct (Py.is_empty (Py.strip k')) eqn:Hne; [discriminate|].
    intros [= <- <-]. repeat split; try apply strip_idempotent; [exact Hne|].
    by apply contains_strip.
  - by rewrite (partition_missing "=" _ E).
Qed.

(** A line written as key, [=], value, with blanks wherever one likes,
    binds the key to the value. *)
Lemma binding_padded (l1 l2 l3 l4 k v : string) :
  blank l1 = true -> blank l2 = true -> blank l3 = true -> blank l4 = true ->
  trimmed k -> trimmed v ->
  Py.is_empty k = false -> Py.contains "=" k = false ->
  first_char k <> Some "#"%char ->
  waha_client.binding (l1 +:+ (k +:+ l2 +:+ "=" +:+ l3 +:+ v) +:+ l4) = Some (k, v).
Proof.
  intros H1 H2 H3 H4 Hk Hv Hne Heq Hc. unfold waha_client.binding.
  rewrite (strip_pad _ _ _ H1 H4).
  assert (Hs : Py.strip (k +:+ l2 +:+ "=" +:+ l3 +:+ v)
               = (k +:+ l2) +:+ String "=" (Py.rstrip (l3 +:+ v))).
  { unfold Py.strip. pose proof (trimmed_head k Hk) as Hh.
    destruct k as [|c k]; [discriminate|].
    rewrite append_cons. rewrite lstrip_fixed by exact Hh. rewrite <- append_cons.
    rewrite <- (append_assoc (String c k) l2).
    rewrite rstrip_app.
    change ("=" +:+ l3 +:+ v) with (String "=" (l3 +:+ v)).
    by rewrite (rstrip_cons "=" (l3 +:+ v) eq_refl). }
  rewrite Hs.
  assert (Hb : Py.contains "=" (k +:+ l2) = false).
  { rewrite contains_app, Heq. by apply blank_no_char. }
  rewrite (partition_at "=" _ _ Hb).
  assert (Hkey : Py.strip (k +:+ l2) = k).
  { rewrite <- (append_nil (k +:+ l2)). by rewrite (strip_pad EmptyString k l2). }
  rewrite Hkey, Hne.
  assert (Hval : Py.strip (Py.rstrip (l3 +:+ v)) = v).
  { rewrite rstrip_app, (trimmed_rstrip v Hv).
    destruct v as [|c v]; simpl Py.is_empty; cbv iota.
    - by rewrite (rstrip_blank _ H3).
    - rewrite <- (append_empty (String c v)) at 1.
      rewrite (strip_pad l3 (String c v) EmptyString H3 eq_refl). exact Hv. }
  rewrite Hval.
  destruct k as [|c k]; [discriminate|].
  rewrite !append_cons. simpl.
  destruct (Ascii.eqb_spec c "#") as [->|]; [by destruct Hc|]. reflexivity.
Qed.

End bindings.

Section loaded_entries.
Implicit Types (w : world) (line k v : string).

(** X7.  A line of the env file written as key, [=], value binds the key
    to the value whatever blanks stand before the key, around the [=] and
    after the value: the loader sets the key when the environment has not
    got it (raising ValueError for a NUL character) and leaves the
    environment alone when it has. *)
Theorem line_with_blanks_sets_key (l1 l2 l3 l4 k v : string) w :
  blank l1 = true -> blank l2 = true -> blank l3 = true -> blank l4 = true ->
  trimmed k -> trimmed v ->
  Py.is_empty k = false -> Py.contains "=" k = false ->
  first_char k <> Some "#"%char ->
  waha_client.load_line (l1 +:+ (k +:+ l2 +:+ "=" +:+ l3 +:+ v) +:+ l4) w
  = if bool_decide (is_Some (environ w !! k)) then (Return tt, w)
    else if has_nul k || has_nul v then (Raised ValueError, w)
    else (Return tt, with_environ (<[k := v]> (environ w)) w).
Proof.
  intros H1 H2 H3 H4 Hk Hv Hne Heq Hc.
  rewrite load_line_binding, (binding_padded l1 l2 l3 l4 k v) by assumption.
  reflexivity.
Qed.

(** X8.  A line that is blank, that is a comment (a [#] after blanks at
    most), that has no [=], or that starts with the [=], changes nothing,
    whatever else it holds. *)
Theorem ignored_lines_change_nothing line w :
  Py.is_empty (Py.strip line) = true
  \/ Py.startswith "#" (Py.strip line) = true
  \/ Py.contains "=" line = false
  \/ Py.startswith "=" (Py.strip line) = true ->
  waha_client.load_line line w = (Return tt, w).
Proof.
  intros Hi. rewrite load_line_binding. unfold waha_client.binding.
  destruct Hi as [-> | [-> | [Hn | Hs]]]; try (by rewrite ?orb_true_r).
  - apply (contains_strip "=") in Hn. rewrite (partition_missing "=" _ Hn).
    by destruct (_ || _).
  - destruct (_ || _); [done|].
    destruct (Py.strip line) as [|c s]; [discriminate|]. simpl in Hs.
    apply Ascii.eqb_eq in Hs as ->. reflexivity.
Qed.

Lemma load_lines_origin (lines : list string) w k v :
  environ (snd (for_each lines waha_client.load_line w)) !! k = Some v ->
  environ w !! k = Some v
  \/ Exists (fun line => waha_client.binding line = Some (k, v)) lines.
Proof.
  revert w. induction lines as [|line rest IH]; intros w; simpl; [by left|].
  unfold bind. rewrite load_line_binding.
  destruct (waha_client.binding line) as [[k0 v0]|] eqn:Hb.
  - destruct (bool_decide (is_Some (environ w !! k0))).
    + intros Hl. destruct (IH w Hl); [by left | right; by apply Exists_cons_tl].
    + unfold environ_set. destruct (has_nul k0 || has_nul v0); simpl; [by left|].
      intros Hl. destruct (IH _ Hl) as [Hw | He]; [|right; by apply Exists_cons_tl].
      simpl in Hw. destruct (String.eqb_spec k0 k) as [->|Hne].
      * rewrite lookup_insert_eq in Hw. injection Hw as ->.
        right. by apply Exists_cons_hd.
      * rewrite lookup_insert_ne in Hw by done. by left.
  - intros Hl. destruct (IH w Hl); [by left | right; by apply Exists_cons_tl].
Qed.

(** X9.  Whatever the file holds, an entry of the environment after the
    loader is an entry that was there before, or comes from a line of the
    file: its key is then not empty, has no [=] and no blank at either end,
    and its value has no blank at either end. *)
Theorem loaded_entries_are_clean w k v :
  environ (snd (waha_client._load_env w)) !! k = Some v ->
  environ w !! k = Some v
  \/ (exists content line,
         env_file w = Some content /\ In line (Py.splitlines content)
         /\ waha_client.binding line = Some (k, v))
     /\ Py.is_empty k = false /\ Py.contains "=" k = false
     /\ trimmed k /\ trimmed v.
Proof.
  unfold waha_client._load_env. destruct (env_file w) as [content|]; [|by left].
  intros Hl. destruct (load_lines_origin _ _ _ _ Hl) as [Hw | He]; [by left|].
  right. apply List.Exists_exists in He as (line & Hin & Hb).
  split; [by exists content, line | by apply (binding_clean line)].
Qed.

Lemma load_env_lookup w k :
  fst (waha_client._load_env w) = Return tt ->
  environ (snd (waha_client._load_env w)) !! k = setting w k.
Proof.
  unfold waha_client._load_env, setting, waha_client.file_value.
  destruct (env_file w) as [content|].
  - destruct (load_lines_spec (Py.splitlines content) w) as (Hkeep & Hnew & _).
    intros Hr. destruct (environ w !! k) eqn:E; [by apply Hkeep | by apply Hnew].
  - intros _. simpl. by destruct (environ w !! k).
Qed.

Lemma load_env_ends_well w :
  (forall content, env_file w = Some content -> has_nul content = false) ->
  fst (waha_client._load_env w) = Return tt.
Proof.
  intros Hn. unfold waha_client._load_env.
  destruct (env_file w) as [content|] eqn:E; [|done].
  apply load_lines_spec, contains_splitlines. by apply Hn.
Qed.

(** X10.  The import of the client module takes each of its two settings
    from the environment when it is set there, else from the env file, and
    the base URL, when neither has it, from the built-in default.  With a
    key that is not empty the import ends well, with these two values, and
    has written nothing and sent nothing. *)
Theorem import_resolves_settings w :
  (forall content, env_file w = Some content -> has_nul content = false) ->
  Py.is_empty (default EmptyString (setting w "WAHA_API_KEY")) = false ->
  waha_client.import w
  = (Return {| waha_client.BASE_URL :=
                 default default_base_url (setting w "WAHA_BASE_URL");
               waha_client.API_KEY :=
                 default EmptyString (setting w "WAHA_API_KEY") |},
     snd (waha_client._load_env w))
  /\ stdout (snd (waha_client._load_env w)) = stdout w
  /\ stderr (snd (waha_client._load_env w)) = stderr w
  /\ sent (snd (waha_client._load_env w)) = sent w.
Proof.
  intros Hn Hk. pose proof (load_env_ends_well w Hn) as Hr.
  pose proof (load_env_lookup w "WAHA_API_KEY" Hr) as Hkey.
  pose proof (load_env_lookup w "WAHA_BASE_URL" Hr) as Hbase.
  split; [|rewrite (load_env_frame w); done].
  unfold waha_client.import, bind, environ_get.
  destruct (waha_client._load_env w) as [o w1]. simpl in *. subst o.
  rewrite Hkey, Hbase, Hk. reflexivity.
Qed.

End loaded_entries.

Lemma line_with_blanks_sets_key_witness :
  waha_client.load_line "  WAHA_BASE_URL =  http://localhost:3000/?a=b  " (start None ∅)
  = (Return tt,
     with_environ {["WAHA_BASE_URL" := "http://localhost:3000/?a=b"]} (start None ∅)).
Proof.
  rewrite (line_with_blanks_sets_key "  " " " "  " "  " "WAHA_BASE_URL"
             "http://localhost:3000/?a=b" (start None ∅));
    try reflexivity.
  intros [=].
Defined.

Lemma ignored_lines_change_nothing_witness :
  waha_client.load_line "   # WAHA_API_KEY=secret"
    (start None {["WAHA_BASE_URL" := "http://localhost:3000"]})
  = (Return tt, start None {["WAHA_BASE_URL" := "http://localhost:3000"]}).
Proof.
  apply ignored_lines_change_nothing. right. left. reflexivity.
Defined.

Lemma loaded_entries_are_clean_witness :
  let w := start (Some (" WAHA_API_KEY = secret ")) ∅ in
  environ w !! "WAHA_API_KEY" = Some "secret"
  \/ (exists content line,
         env_file w = Some content /\ In line (Py.splitlines content)
         /\ waha_client.binding line = Some ("WAHA_API_KEY", "secret"))
     /\ Py.is_empty "WAHA_API_KEY" = false /\ Py.contains "=" "WAHA_API_KEY" = false
     /\ trimmed "WAHA_API_KEY" /\ trimmed "secret".
Proof.
  intros w. apply loaded_entries_are_clean. vm_compute. reflexivity.
Defined.

Lemma import_resolves_settings_witness :
  let w := start (Some ("WAHA_API_KEY=secret" +:+ Py.nl +:+ "WAHA_BASE_URL=http://file"))
                 {["WAHA_BASE_URL" := "http://env"]} in
  fst (waha_client.import w)
  = Return {| waha_client.BASE_URL := "http://env"; waha_client.API_KEY := "secret" |}.
Proof.
  intros w.
  rewrite (proj1 (import_resolves_settings w ltac:(by intros content [= <-])
                    ltac:(by vm_compute))).
  vm_compute. reflexivity.
Defined.

(** ** argparse: what an accepted command line has set *)

Section accepted.
Import argparse.
Implicit Types (st : state) (argv : list string) (ns : gmap string value).

Lemma no_names argv :
  forallb (fun tok => negb (existsb (String.eqb tok) [])) argv = true.
Proof. by induction argv. Qed.

(** An attribute that nothing in the state writes is kept to the end. *)
Lemma run_untouched (d : string) argv st ns :
  reserved d [] (st_optionals st) = true ->
  untouched d st = true ->
  run st argv = Parsed ns ->
  ns !! d = st_ns st !! d.
Proof.
  intros Hres Hun. apply (run_keeps d [] (length argv)); auto using no_names.
Qed.

(** The list of a [nargs="+"] argument only grows. *)
Lemma run_open (d : string) (n : nat) :
  forall argv st ns (items : list value),
    (length argv <= n)%nat ->
    st_open st = Some d -> st_positionals st = [] -> st_subparsers st = None ->
    reserved d [] (st_optionals st) = true ->
    st_ns st !! d = Some (VList items) ->
    run st argv = Parsed ns ->
    exists more, ns !! d = Some (VList (items ++ more)).
Proof.
  induction n as [|n IH]; intros argv st ns items Hlen Ho Hp Hs Hres Hd Hrun.
  - destruct argv; [|simpl in Hlen; lia]. simpl in Hrun. rewrite Hp, Hs in Hrun.
    injection Hrun as <-. exists []. by rewrite app_nil_r.
  - destruct argv as [|tok rest]; simpl in Hrun.
    { rewrite Hp, Hs in Hrun. injection Hrun as <-. exists []. by rewrite app_nil_r. }
    simpl in Hlen. destruct (option_like tok).
    + destruct (find_flag tok (st_optionals st)) as [o|] eqn:Hf; [|discriminate].
      assert (Hne : opt_dest o <> d)
        by (by apply (reserved_flag d [] (st_optionals st) tok)).
      exists []. rewrite app_nil_r, <- Hd.
      destruct (opt_action o).
      * destruct rest as [|v rest']; [discriminate|].
        destruct (option_like v); [discriminate|].
        destruct (convert (opt_type o) v) as [x|]; [|discriminate].
        apply (run_untouched d) in Hrun;
          [ rewrite Hrun; simpl; by rewrite lookup_insert_ne
          | exact Hres | unfold untouched; simpl; by rewrite Hp, Hs ].
      * apply (run_untouched d) in Hrun;
          [ rewrite Hrun; simpl; by rewrite lookup_insert_ne
          | exact Hres | unfold untouched; simpl; by rewrite Hp, Hs ].
    + rewrite Ho in Hrun.
      apply (IH _ _ _ (items ++ [VStr tok])%list) in Hrun; try done; try lia.
      * destruct Hrun as [more Hm]. exists (VStr tok :: more).
        by rewrite Hm, <- app_assoc.
      * simpl. unfold append. rewrite Hd. by rewrite lookup_insert_eq.
Qed.

(** Every positional argument of the state has its value in the end: a
    string that its choices allow, or a list. *)
Lemma run_positional (p : positional) (n : nat) :
  forall argv st ns,
    (length argv <= n)%nat ->
    st_open st = None -> st_subparsers st = None ->
    In p (st_positionals st) ->
    NoDup (map pos_dest (st_positionals st)) ->
    reserved (pos_dest p) [] (st_optionals st) = true ->
    run st argv = Parsed ns ->
    match pos_nargs p with
    | one => exists tok, allowed p tok = true /\ ns !! pos_dest p = Some (VStr tok)
    | one_or_more => exists items, ns !! pos_dest p = Some (VList items)
    end.
Proof.
  induction n as [|n IH]; intros argv st ns Hlen Ho Hs Hin Hnd Hres Hrun.
  - destruct argv; [|simpl in Hlen; lia]. simpl in Hrun.
    destruct (st_positionals st); [destruct Hin | discriminate].
  - destruct argv as [|tok rest]; simpl in Hrun.
    { destruct (st_positionals st); [destruct Hin | discriminate]. }
    simpl in Hlen. destruct (option_like tok).
    + destruct (find_flag tok (st_optionals st)) as [o|] eqn:Hf; [|discriminate].
      destruct (opt_action o).
      * destruct rest as [|v rest']; [discriminate|].
        destruct (option_like v); [discriminate|].
        destruct (convert (opt_type o) v) as [x|]; [|discriminate].
        apply IH in Hrun; try done. simpl in Hlen. lia.
      * apply IH in Hrun; try done. lia.
    + rewrite Ho in Hrun. destruct (st_positionals st) as [|q qs] eqn:Hq; [destruct Hin|].
      destruct (negb (allowed q tok)) eqn:Ha; [discriminate|].
      apply negb_false_iff in Ha. simpl in Hnd. apply NoDup_cons in Hnd as [Hq1 Hq2].
      assert (Hothers : forall d, d ∉ map pos_dest qs -> forallb (other_dest d) qs = true).
      { intros d Hd. apply forallb_forall. intros x Hx. unfold other_dest.
        apply negb_true_iff, String.eqb_neq. intros E. apply Hd. rewrite <- E.
        apply list_elem_of_In, in_map, Hx. }
      destruct Hin as [-> | Hin].
      * destruct (pos_nargs p) eqn:Hn.
        -- exists tok. split; [exact Ha|].
           apply (run_untouched (pos_dest p)) in Hrun;
             [ rewrite Hrun; simpl; by rewrite lookup_insert_eq
             | exact Hres
             | unfold untouched; simpl; by rewrite (Hothers _ Hq1), Hs ].
        -- destruct qs; [|discriminate].
           apply (run_open (pos_dest p) (length rest) _ _ _ [VStr tok]) in Hrun;
             try done.
           ++ destruct Hrun as [more Hm]. by eexists.
           ++ simpl. by rewrite lookup_insert_eq.
      * assert (Hres' : reserved (pos_dest p) [] (st_optionals st) = true) by exact Hres.
        destruct (pos_nargs q) eqn:Hn.
        -- apply IH in Hrun; try done. lia.
        -- destruct qs; [destruct Hin | discriminate].
Qed.

(** The words of a [nargs="+"] argument are kept in their order. *)
Lemma run_collects (d : string) (toks : list string) :
  forall st (items : list value),
    st_open st = Some d -> st_positionals st = [] -> st_subparsers st = None ->
    forallb (fun tok => negb (option_like tok)) toks = true ->
    st_ns st !! d = Some (VList items) ->
    run st toks = Parsed (<[d := VList (items ++ map VStr toks)]> (st_ns st)).
Proof.
  induction toks as [|tok toks IH]; intros st items Ho Hp Hs Hall Hd; simpl.
  - rewrite Hp, Hs, app_nil_r. by rewrite insert_id.
  - simpl in Hall. apply andb_prop in Hall as [Htok Hall].
    apply negb_true_iff in Htok. rewrite Htok, Ho.
    rewrite (IH _ (items ++ [VStr tok])%list); try done.
    + simpl. unfold append. rewrite Hd, insert_insert_eq, <- app_assoc. reflexivity.
    + simpl. unfold append. rewrite Hd. by rewrite lookup_insert_eq.
Qed.

(** A parser with commands: an accepted command line names one of them,
    and what follows the name is read by the parser of the command. *)
Lemma run_command (n : nat) :
  forall argv st ns sc,
    (length argv <= n)%nat ->
    st_positionals st = [] -> st_open st = None ->
    st_subparsers st = Some sc -> sub_required sc = true ->
    run st argv = Parsed ns ->
    exists tok ps rest ns0,
      lookup_parser tok (sub_parsers sc) = Some ps
      /\ run {| st_optionals := []; st_positionals := ps; st_subparsers := None;
                st_open := None;
                st_ns := sub_defaults ps (<[sub_dest sc := VStr tok]> ns0) |} rest
         = Parsed ns.
Proof.
  induction n as [|n IH]; intros argv st ns sc Hlen Hp Ho Hs Hreq Hrun.
  - destruct argv; [|simpl in Hlen; lia]. simpl in Hrun.
    rewrite Hp, Hs, Hreq in Hrun. discriminate.
  - destruct argv as [|tok rest]; simpl in Hrun.
    { rewrite Hp, Hs, Hreq in Hrun. discriminate. }
    simpl in Hlen. destruct (option_like tok).
    + destruct (find_flag tok (st_optionals st)) as [o|] eqn:Hf; [|discriminate].
      destruct (opt_action o).
      * destruct rest as [|v rest']; [discriminate|].
        destruct (option_like v); [discriminate|].
        destruct (convert (opt_type o) v) as [x|]; [|discriminate].
        apply (IH _ _ _ sc) in Hrun; try done. simpl in Hlen. lia.
      * apply (IH _ _ _ sc) in Hrun; try done. lia.
    + rewrite Ho, Hp, Hs in Hrun.
      destruct (lookup_parser tok (sub_parsers sc)) as [ps|] eqn:Hl; [|discriminate].
      by exists tok, ps, rest, (st_ns st).
Qed.

End accepted.

(** ** From the command line to the request *)

Section command_lines.
Import argparse.
Context `{Platform} (cfg : waha_client.config).
Implicit Types (argv : list string) (ns args : gmap string value) (w : world).

Lemma parse_runs (p : parser) argv ns :
  parse_args p argv = Parsed ns -> run (initial p) argv = Parsed ns.
Proof. unfold parse_args. by destruct (forallb (declared p) argv). Qed.

(** The command of an accepted command line is a declared one, and the
    words after it were read by its parser. *)
Lemma parse_command (p : parser) (sc : subcommands) argv ns :
  positionals p = [] -> subparsers p = Some sc -> sub_required sc = true ->
  forallb (fun e => forallb (other_dest (sub_dest sc)) (snd e)) (sub_parsers sc) = true ->
  parse_args p argv = Parsed ns ->
  exists tok ps rest ns0,
    lookup_parser tok (sub_parsers sc) = Some ps
    /\ ns !! sub_dest sc = Some (VStr tok)
    /\ run {| st_optionals := []; st_positionals := ps; st_subparsers := None;
              st_open := None;
              st_ns := sub_defaults ps (<[sub_dest sc := VStr tok]> ns0) |} rest
       = Parsed ns.
Proof.
  intros Hp Hs Hreq Hd Hrun%parse_runs.
  apply (run_command (length argv) _ _ _ sc) in Hrun; try done.
  destruct Hrun as (tok & ps & rest & ns0 & Hl & Hrun).
  exists tok, ps, rest, ns0. split; [exact Hl|]. split; [|exact Hrun].
  rewrite forallb_forall in Hd.
  pose proof (Hd _ (lookup_parser_in _ _ _ Hl)) as Hps. simpl in Hps.
  apply (run_untouched (sub_dest sc)) in Hrun;
    [ | reflexivity | unfold untouched; simpl; by rewrite Hps ].
  rewrite Hrun. simpl. rewrite (sub_defaults_other _ _ _ Hps).
  by rewrite lookup_insert_eq.
Qed.

Lemma attr_lookup args (name : string) (v : value) :
  args !! name = Some v -> args.[name] = v.
Proof. unfold attr. by intros ->. Qed.

Lemma fetches_sent (m : M unit) w :
  fetches m -> exists r, sent (snd (m w)) = (sent w ++ [r])%list.
Proof.
  intros (r & k & Hk & Hm). exists r. rewrite Hm. by apply fetch_then_sent.
Qed.

Ltac branch :=
  eexists _, _; split; [|intros w; reflexivity];
  intros v; cbv beta;
  first [ apply prints_only_listing;
          first [ apply print_group_prints | apply print_participant_prints
                | apply print_contact_prints | apply print_chat_prints
                | apply print_overview_prints | apply print_message_prints
                | apply print_session_prints ]
        | destruct v; prints ].

Ltac distinct :=
  simpl;
  repeat (apply NoDup_cons; split;
          [intros Hin; apply list_elem_of_In in Hin; simpl in Hin;
           intuition discriminate|]);
  apply NoDup_nil_2.

Ltac lookups :=
  repeat first [ rewrite lookup_insert_eq | rewrite lookup_insert_ne by done ].

Ltac commands Hl :=
  cbn [lookup_parser sub_parsers] in Hl;
  repeat match type of Hl with
         | (if String.eqb ?a ?b then _ else _) = _ =>
             destruct (String.eqb_spec a b) as [<-|]
         end;
  try discriminate; injection Hl as <-.

Lemma groups_accepted argv ns :
  parse_args groups.parser argv = Parsed ns -> fetches (groups.main cfg ns).
Proof.
  intros Hp. eapply parse_command in Hp; try reflexivity.
  destruct Hp as (tok & ps & rest & ns0 & Hl & Hc%attr_lookup & Hrun).
  simpl in Hc. unfold groups.main. rewrite Hc.
  commands Hl; cbn [is_str String.eqb Ascii.eqb Bool.eqb]; try branch.
  apply (run_positional (arg_plus "participants") (length rest)) in Hrun;
    [ | apply le_n | reflexivity | reflexivity | simpl; auto
      | distinct | reflexivity ].
  destruct Hrun as [items Hi%attr_lookup]. simpl in Hi. rewrite Hi. branch.
Qed.

Lemma contacts_accepted argv ns :
  parse_args contacts.parser argv = Parsed ns -> fetches (contacts.main cfg ns).
Proof.
  intros Hp. eapply parse_command in Hp; try reflexivity.
  destruct Hp as (tok & ps & rest & ns0 & Hl & Hc%attr_lookup & Hrun).
  simpl in Hc. unfold contacts.main. rewrite Hc.
  commands Hl; cbn [is_str String.eqb Ascii.eqb Bool.eqb]; branch.
Qed.

Lemma list_chats_accepted argv ns :
  parse_args list_chats.parser argv = Parsed ns -> fetches (list_chats.main cfg ns).
Proof.
  intros Hp. eapply parse_command in Hp; try reflexivity.
  destruct Hp as (tok & ps & rest & ns0 & Hl & Hc%attr_lookup & Hrun).
  simpl in Hc.
  unfold list_chats.main, list_chats.list_chats, list_chats.list_overview,
    list_chats.list_messages.
  rewrite Hc.
  commands Hl; cbn [is_str String.eqb Ascii.eqb Bool.eqb]; branch.
Qed.

Lemma session_accepted argv ns :
  parse_args session.parser argv = Parsed ns -> fetches (session.main cfg ns).
Proof.
  intros Hp. eapply parse_command in Hp; try reflexivity.
  destruct Hp as (tok & ps & rest & ns0 & Hl & Hc%attr_lookup & Hrun).
  simpl in Hc. unfold session.main. rewrite Hc.
  commands Hl; cbn [is_str String.eqb Ascii.eqb Bool.eqb existsb orb]; branch.
Qed.

Lemma send_message_fetches args : fetches (send_message.main cfg args).
Proof. unfold send_message.main. branch. Qed.

(** The media type of an accepted command line is a key of ENDPOINTS. *)
Lemma send_media_type argv ns :
  parse_args send_media.parser argv = Parsed ns ->
  exists mt url,
    ns.["media_type"] = VStr mt /\ In (mt, url) send_media.ENDPOINTS
    /\ forall w, send_media.endpoint ns.["media_type"] w = (Return url, w).
Proof.
  intros Hrun%parse_runs.
  apply (run_positional
           (arg_choice "media_type" (map fst send_media.ENDPOINTS))
           (length argv)) in Hrun;
    [ | apply le_n | reflexivity | reflexivity | simpl; auto | distinct | reflexivity ].
  destruct Hrun as (tok & Ha & Hm%attr_lookup). simpl in Hm.
  unfold allowed in Ha. simpl in Ha. rewrite Hm.
  destruct (String.eqb_spec tok "image") as [E|];
    [|destruct (String.eqb_spec tok "file") as [E|];
      [|destruct (String.eqb_spec tok "video") as [E|];
        [|destruct (String.eqb_spec tok "voice") as [E|]; [|discriminate]]]].
  all: rewrite E; eexists _, _; (split; [reflexivity|]);
    (split; [|intros w; reflexivity]).
  all: simpl; tauto.
Qed.

Lemma send_media_accepted argv ns :
  parse_args send_media.parser argv = Parsed ns -> fetches (send_media.main cfg ns).
Proof.
  intros (mt & url & Hm & _ & He)%send_media_type.
  unfold send_media.main. eexists _, (fun data => waha_client.pp data).
  split; [intros v; prints|]. intros w. unfold bind at 1. rewrite He. reflexivity.
Qed.

(** X11.  A command line that a script accepts makes it send exactly one
    request: the command is one of those the parser declares, the words it
    needs are there, and no branch of [main] ends before its request. *)
Theorem accepted_command_line_sends_one_request argv ns w :
  Forall (fun '(p, main) =>
            parse_args p argv = Parsed ns ->
            exists r, sent (snd (main cfg ns w)) = (sent w ++ [r])%list)
         scripts.
Proof.
  unfold scripts. repeat apply List.Forall_cons; try apply List.Forall_nil;
    intros Hp; apply fetches_sent.
  - by apply (groups_accepted argv).
  - apply send_message_fetches.
  - by apply (send_media_accepted argv).
  - by apply (contacts_accepted argv).
  - by apply (list_chats_accepted argv).
  - by apply (session_accepted argv).
Qed.

(** X12.  An accepted command line of send_media names one of the four
    media types, so the lookup in ENDPOINTS never fails: the script posts
    its payload to the endpoint of the type, in one request. *)
Theorem send_media_posts_to_the_endpoint_of_the_type argv ns w :
  parse_args send_media.parser argv = Parsed ns ->
  exists mt url,
    ns.["media_type"] = VStr mt
    /\ In (mt, url) send_media.ENDPOINTS
    /\ sent (snd (send_media.main cfg ns w))
       = (sent w ++ [waha_client.post_request (waha_client.client cfg) url
                       (Some (VDict (send_media.payload ns)))])%list.
Proof.
  intros (mt & url & Hm & Hin & He)%send_media_type.
  exists mt, url. split; [exact Hm|]. split; [exact Hin|].
  apply send_media_request, He.
Qed.

Lemma word_declared (p : parser) (tok : string) : word tok = true -> declared p tok = true.
Proof. unfold word, declared. by intros ->. Qed.

Lemma words_declared (p : parser) (toks : list string) :
  forallb word toks = true -> forallb (declared p) toks = true.
Proof.
  induction toks as [|tok toks IH]; simpl; [done|].
  intros [Ht Hts]%andb_prop. by rewrite (word_declared p tok Ht), IH.
Qed.

Lemma word_not_option (tok : string) : word tok = true -> option_like tok = false.
Proof. unfold word. by intros ?%negb_true_iff. Qed.

(** The steps of the parser, one word or one option at a time. *)
Lemma run_step_command st (tok : string) (rest : list string) (sc : subcommands)
      (ps : list positional) :
  option_like tok = false -> st_open st = None -> st_positionals st = [] ->
  st_subparsers st = Some sc -> lookup_parser tok (sub_parsers sc) = Some ps ->
  run st (tok :: rest)
  = run {| st_optionals := []; st_positionals := ps; st_subparsers := None;
           st_open := None;
           st_ns := sub_defaults ps (<[sub_dest sc := VStr tok]> (st_ns st)) |} rest.
Proof. intros Ht Ho Hp Hs Hl. simpl. by rewrite Ht, Ho, Hp, Hs, Hl. Qed.

Lemma run_step_word st (tok : string) (rest : list string) (p : positional)
      (qs : list positional) :
  option_like tok = false -> st_open st = None -> st_positionals st = p :: qs ->
  allowed p tok = true -> pos_nargs p = one ->
  run st (tok :: rest)
  = run {| st_optionals := st_optionals st; st_positionals := qs;
           st_subparsers := st_subparsers st; st_open := None;
           st_ns := <[pos_dest p := VStr tok]> (st_ns st) |} rest.
Proof. intros Ht Ho Hp Ha Hn. simpl. by rewrite Ht, Ho, Hp, Ha, Hn. Qed.

Lemma run_step_plus st (tok : string) (rest : list string) (p : positional) :
  option_like tok = false -> st_open st = None -> st_positionals st = [p] ->
  allowed p tok = true -> pos_nargs p = one_or_more ->
  run st (tok :: rest)
  = run {| st_optionals := st_optionals st; st_positionals := [];
           st_subparsers := st_subparsers st; st_open := Some (pos_dest p);
           st_ns := <[pos_dest p := VList [VStr tok]]> (st_ns st) |} rest.
Proof. intros Ht Ho Hp Ha Hn. simpl. by rewrite Ht, Ho, Hp, Ha, Hn. Qed.

Lemma run_step_store st (flag v : string) (rest : list string) (o : optional)
      (x : value) :
  option_like flag = true -> find_flag flag (st_optionals st) = Some o ->
  opt_action o = store -> option_like v = false ->
  convert (opt_type o) v = Some x ->
  run st (flag :: v :: rest)
  = run {| st_optionals := st_optionals st; st_positionals := st_positionals st;
           st_subparsers := st_subparsers st; st_open := None;
           st_ns := <[opt_dest o := x]> (st_ns st) |} rest.
Proof. intros Hf Ho Ha Hv Hc. simpl. by rewrite Hf, Ho, Ha, Hv, Hc. Qed.

Lemma groups_create_request args (items : list value) w :
  args.["command"] = VStr "create" ->
  args.["participants"] = VList items ->
  sent (snd (groups.main cfg args w))
  = (sent w
     ++ [waha_client.post_request (waha_client.client cfg)
           ("/api/" +:+ py_str args.["session"] +:+ "/groups")
           (Some (VDict [("name", args.["name"]);
                         ("participants",
                          VList (map (fun pid => VDict [("id", pid)]) items))]))])%list.
Proof.
  intros Hc Hi. unfold groups.main. rewrite Hc, Hi.
  cbn [is_str String.eqb Ascii.eqb Bool.eqb groups.participant_ids].
  apply (fetch_then_sent _ (fun data => waha_client.pp data)). intros v. prints.
Qed.

(** X13.  groups create, with a name and one participant or more, is
    accepted, and posts to the groups of the default session the name and
    one dict for each participant, in the order of the command line. *)
Theorem groups_create_posts_the_participants (name p : string) (ps : list string) w :
  word name = true -> word p = true -> forallb word ps = true ->
  exists ns,
    parse_args groups.parser ("create" :: name :: p :: ps) = Parsed ns
    /\ sent (snd (groups.main cfg ns w))
       = (sent w
          ++ [waha_client.post_request (waha_client.client cfg) "/api/default/groups"
                (Some (VDict [("name", VStr name);
                              ("participants",
                               VList (map (fun pid => VDict [("id", VStr pid)])
                                          (p :: ps)))]))])%list.
Proof.
  intros Hn Hp Hps. eexists. split.
  - unfold parse_args. cbn [forallb].
    rewrite (word_declared _ name Hn), (word_declared _ p Hp), (words_declared _ ps Hps).
    cbn [declared option_like negb orb andb].
    erewrite run_step_command by reflexivity.
    erewrite run_step_word by (reflexivity || by apply word_not_option).
    erewrite run_step_plus by (reflexivity || by apply word_not_option).
    erewrite (run_collects "participants" ps _ [VStr p]);
      [reflexivity | reflexivity | reflexivity | reflexivity | | ].
    + exact Hps.
    + simpl. by rewrite lookup_insert_eq.
  - erewrite (groups_create_request _ (map VStr (p :: ps))).
    + unfold attr. cbn [sub_defaults fold_left pos_dest arg arg_plus st_ns sub_dest].
      lookups.
      change (defaults groups.parser !! "session") with (Some (VStr "default")).
      simpl. by rewrite map_map.
    + unfold attr. cbn [sub_defaults fold_left pos_dest arg arg_plus st_ns sub_dest].
      by lookups.
    + unfold attr. cbn [st_ns pos_dest arg_plus]. by lookups.
Qed.

Lemma send_message_request args w :
  sent (snd (send_message.main cfg args w))
  = (sent w ++ [waha_client.post_request (waha_client.client cfg) "/api/sendText"
                  (Some (VDict (send_message.payload args)))])%list.
Proof.
  unfold send_message.main.
  apply (fetch_then_sent _ (fun data => waha_client.pp data)). intros v. prints.
Qed.

(** X14.  send_message with a chat and a text is accepted and posts them
    to /api/sendText with the session "default"; with a session and a
    message to reply to, the payload has this session and, as its last
    field, the reply-to. *)
Theorem send_message_posts_the_text (chat body session replied : string) w :
  word chat = true -> word body = true -> word session = true -> word replied = true ->
  Py.is_empty replied = false ->
  (exists ns,
      parse_args send_message.parser [chat; body] = Parsed ns
      /\ sent (snd (send_message.main cfg ns w))
         = (sent w ++ [waha_client.post_request (waha_client.client cfg) "/api/sendText"
                         (Some (VDict [("chatId", VStr chat); ("text", VStr body);
                                       ("session", VStr "default")]))])%list)
  /\ (exists ns,
         parse_args send_message.parser [chat; body; "-s"; session; "--reply-to"; replied]
         = Parsed ns
         /\ sent (snd (send_message.main cfg ns w))
            = (sent w ++ [waha_client.post_request (waha_client.client cfg) "/api/sendText"
                            (Some (VDict [("chatId", VStr chat); ("text", VStr body);
                                          ("session", VStr session);
                                          ("reply_to", VStr replied)]))])%list).
Proof.
  intros Hc Hb Hs Hi Hne. split; eexists; (split; [|rewrite send_message_request]).
  - unfold parse_args. cbn [forallb].
    rewrite (word_declared _ chat Hc), (word_declared _ body Hb). cbn [andb].
    erewrite run_step_word by (reflexivity || by apply word_not_option).
    erewrite run_step_word by (reflexivity || by apply word_not_option).
    reflexivity.
  - unfold send_message.payload, attr. cbn [st_ns pos_dest arg]. lookups.
    change (defaults send_message.parser !! "session") with (Some (VStr "default")).
    change (defaults send_message.parser !! "reply_to") with (Some VNone).
    reflexivity.
  - unfold parse_args. cbn [forallb].
    rewrite (word_declared _ chat Hc), (word_declared _ body Hb),
      (word_declared _ session Hs), (word_declared _ replied Hi).
    cbn [declared option_like negb orb andb existsb has_flag].
    erewrite run_step_word by (reflexivity || by apply word_not_option).
    erewrite run_step_word by (reflexivity || by apply word_not_option).
    erewrite run_step_store by (reflexivity || by apply word_not_option).
    erewrite run_step_store by (reflexivity || by apply word_not_option).
    reflexivity.
  - unfold send_message.payload, attr. cbn [st_ns pos_dest arg opt_dest]. lookups.
    cbn [default from_option id truthy]. rewrite Hne. reflexivity.
Qed.

(** X15.  The commands that only dump: when the answer is good, the
    script prints the dump of the decoded body and nothing else, after the
    one request of the command (its method, URL, parameters and body are
    those of the table). *)
Theorem dump_commands_print_the_answer args (data : value) w :
  Forall (fun '(command, main, request) =>
            args.["command"] = VStr command ->
            succeeds request data ->
            main cfg args w
            = (Return tt, write_stdout [json_dumps data] (record_request request w)))
         (dump_commands cfg args).
Proof.
  unfold dump_commands.
  repeat apply List.Forall_cons; try apply List.Forall_nil; intros Hc Hs;
    unfold groups.main, contacts.main, session.main;
    rewrite Hc; cbn [is_str String.eqb Ascii.eqb Bool.eqb];
    unfold waha_client.http_get, waha_client.http_post;
    erewrite fetch by exact Hs; reflexivity.
Qed.

(** X16.  start, stop, restart and logout of session.py, given a session
    name: the command line is accepted, the script posts to
    /api/sessions/<name>/<command> with no body and, when the answer is
    good, prints its dump and then the line that names the session and the
    command. *)
Theorem session_lifecycle_commands (command name : string) (data : value) w :
  In command lifecycle ->
  word name = true ->
  succeeds (waha_client.post_request (waha_client.client cfg)
              ("/api/sessions/" +:+ name +:+ "/" +:+ command) None) data ->
  exists ns,
    parse_args session.parser [command; name] = Parsed ns
    /\ session.main cfg ns w
       = (Return tt,
          write_stdout [json_dumps data;
                        "  Session '" +:+ name +:+ "' -> " +:+ command]
            (record_request
               (waha_client.post_request (waha_client.client cfg)
                  ("/api/sessions/" +:+ name +:+ "/" +:+ command) None) w)).
Proof.
  intros Hin Hn Hs.
  unfold lifecycle in Hin. simpl in Hin.
  destruct Hin as [<- | [<- | [<- | [<- | []]]]]; eexists; (split;
    [ unfold parse_args; cbn [forallb];
      rewrite (word_declared _ name Hn); cbn [declared option_like negb orb andb];
      erewrite run_step_command by reflexivity;
      erewrite run_step_word by (reflexivity || by apply word_not_option);
      reflexivity
    | unfold session.main, attr;
      cbn [sub_defaults fold_left pos_dest arg st_ns sub_dest]; lookups;
      cbn [default from_option id is_str String.eqb Ascii.eqb Bool.eqb existsb orb];
      unfold waha_client.http_post; erewrite fetch by exact Hs;
      unfold waha_client.pp, bind, print; by rewrite write_stdout_app ]).
Qed.

End command_lines.

Section option_defaults.
Import argparse.

(** X17.  list_chats.py: on an accepted command line that names none of
    the option strings of a setting, the setting has its default: the
    limit is 20, the offset is 0 and the media are not downloaded. *)
Theorem list_chats_option_defaults (argv : list string) (ns : gmap string value) :
  parse_args list_chats.parser argv = Parsed ns ->
  (~ In "-l" argv -> ~ In "--limit" argv -> ns !! "limit" = Some (VInt 20))
  /\ (~ In "--offset" argv -> ns !! "offset" = Some (VInt 0))
  /\ (~ In "--download-media" argv -> ns !! "download_media" = Some (VBool false)).
Proof.
  intros Hp. repeat split.
  - intros H1 H2.
    apply (parse_keeps_default _ "limit" ["-l"; "--limit"]) in Hp;
      [ rewrite Hp; by vm_compute | reflexivity | reflexivity | ].
    intros tok [<-|[<-|[]]]; done.
  - intros H1.
    apply (parse_keeps_default _ "offset" ["--offset"]) in Hp;
      [ rewrite Hp; by vm_compute | reflexivity | reflexivity | ].
    intros tok [<-|[]]; done.
  - intros H1.
    apply (parse_keeps_default _ "download_media" ["--download-media"]) in Hp;
      [ rewrite Hp; by vm_compute | reflexivity | reflexivity | ].
    intros tok [<-|[]]; done.
Qed.

End option_defaults.

Lemma list_chats_option_defaults_witness :
  cpython.parsed list_chats.parser ["--offset"; "40"; "chats"] !! "limit"
  = Some (VInt 20).
Proof.
  apply (proj1 (list_chats_option_defaults ["--offset"; "40"; "chats"] _ eq_refl));
    simpl; intuition discriminate.
Defined.

Lemma send_media_posts_to_the_endpoint_of_the_type_witness :
  let H := cpython.platform cpython.down in
  let ns := cpython.parsed send_media.parser ["file"; "628123@c.us"; "http://x/a.pdf"] in
  exists mt url,
    ns.["media_type"] = VStr mt
    /\ In (mt, url) send_media.ENDPOINTS
    /\ sent (snd (send_media.main cpython.local ns (start None ∅)))
       = ([] ++ [waha_client.post_request (waha_client.client cpython.local) url
                   (Some (VDict (send_media.payload ns)))])%list.
Proof.
  intros H ns.
  apply (@send_media_posts_to_the_endpoint_of_the_type H cpython.local
           ["file"; "628123@c.us"; "http://x/a.pdf"] ns (start None ∅)).
  reflexivity.
Defined.

Lemma groups_create_posts_the_participants_witness :
  let H := cpython.platform cpython.down in
  exists ns,
    argparse.parse_args groups.parser ["create"; "Family"; "1@c.us"; "2@c.us"]
    = argparse.Parsed ns
    /\ sent (snd (groups.main cpython.local ns (start None ∅)))
       = ([] ++ [waha_client.post_request (waha_client.client cpython.local)
                   "/api/default/groups"
                   (Some (VDict [("name", VStr "Family");
                                 ("participants",
                                  VList (map (fun pid => VDict [("id", VStr pid)])
                                             ["1@c.us"; "2@c.us"]))]))])%list.
Proof.
  intros H.
  apply (@groups_create_posts_the_participants H cpython.local "Family" "1@c.us"
           ["2@c.us"] (start None ∅)); reflexivity.
Defined.

Lemma send_message_posts_the_text_witness :
  let H := cpython.platform cpython.down in
  exists ns,
    argparse.parse_args send_message.parser ["628123@c.us"; "hello"]
    = argparse.Parsed ns
    /\ sent (snd (send_message.main cpython.local ns (start None ∅)))
       = ([] ++ [waha_client.post_request (waha_client.client cpython.local)
                   "/api/sendText"
                   (Some (VDict [("chatId", VStr "628123@c.us");
                                 ("text", VStr "hello");
                                 ("session", VStr "default")]))])%list.
Proof.
  intros H.
  apply (proj1 (@send_message_posts_the_text H cpython.local "628123@c.us" "hello"
                  "work" "ABC123" (start None ∅) eq_refl eq_refl eq_refl eq_refl
                  eq_refl)).
Defined.

Lemma session_lifecycle_commands_witness :
  let H := cpython.platform (cpython.answer 201 (VDict [("name", VStr "default")])) in
  exists ns,
    argparse.parse_args session.parser ["restart"; "default"] = argparse.Parsed ns
    /\ stdout (snd (session.main cpython.local ns (start None ∅)))
       = [cpython.dumps (VDict [("name", VStr "default")]);
          "  Session 'default' -> restart"].
Proof.
  intros H.
  destruct (@session_lifecycle_commands H cpython.local "restart" "default"
              (VDict [("name", VStr "default")]) (start None ∅))
    as (ns & Hp & Hm).
  - simpl. tauto.
  - reflexivity.
  - eexists. split; [reflexivity|]. split; [simpl; lia | reflexivity].
  - exists ns. split; [exact Hp|]. rewrite Hm. reflexivity.
Defined.
